(** * pydevlake subtasks: the checkpointing run-loop and its three stages

    A shallow embedding of [backend/python/pydevlake/pydevlake/subtasks.py]:
    the [Subtask] run-loop, the [SubtaskRun] checkpoint table and the
    [Collector], [Extractor] and [Convertor] stages.

    Python effects are made explicit:
    - the database behind [Session(ctx.engine)] is a record of tables, held
      twice in a [World]: [durable] is what has been committed, [pending] is
      what the open transaction sees ([session.add], [session.merge] and
      [session.execute] change [pending] only, [session.commit] copies it to
      [durable]);
    - the session flushes before every query, merge and commit; a flush
      fails when the database refuses a queued write, and from then on every
      statement of the session raises: [tx] is the state of the transaction,
      [flush] the step every such statement starts with;
    - a raised exception is a value of [exn]; [except Exception] catches the
      instances of [Exception] only;
    - the calls a run makes (delete, fetch, process, checkpoint writes,
      yields, log lines) are recorded in an event list, in program order;
    - [datetime.now()] is read from two arguments of [run]. *)

From Stdlib Require Import List String Ascii ZArith Bool Arith Lia.
Import ListNotations.
Open Scope string_scope.
Open Scope Z_scope.

Set Implicit Arguments.
Set Warnings "-register-all".

(** ** Python values and exceptions *)

(** [except Exception as e] catches [PyException] and lets [PyBaseException]
    (KeyboardInterrupt, SystemExit, GeneratorExit) through. *)
Inductive exn : Type :=
| PyException (cls msg : string)
| PyBaseException (cls msg : string).

Definition is_Exception (e : exn) : bool :=
  match e with
  | PyException _ _ => true
  | PyBaseException _ _ => false
  end.

Inductive result (A : Type) : Type :=
| Ok (a : A)
| Raise (e : exn).
Arguments Ok {A} a.
Arguments Raise {A} e.

(** JSON-representable Python values: what [json.dumps] accepts and
    [json.loads] returns (floats are left out). A state is a [JDict]
    ("a dict with str keys"), [dict()] is [JDict []]. *)
Inductive json : Type :=
| JNull
| JBool (b : bool)
| JInt (z : Z)
| JStr (s : string)
| JList (l : list json)
| JDict (kv : list (string * json)).

(** The [json] module of the Python library. [json.dumps] is total on
    JSON-representable values; [json.loads] raises on text that is not
    JSON. *)
Class JsonLib : Type := {
  json_dumps : json -> string;
  json_loads : string -> result json
}.

(** ** str.lower and str.capitalize, on ASCII letters *)

Definition lower_ascii (c : ascii) : ascii :=
  let n := nat_of_ascii c in
  if ((65 <=? n) && (n <=? 90))%nat then ascii_of_nat (n + 32) else c.

Definition upper_ascii (c : ascii) : ascii :=
  let n := nat_of_ascii c in
  if ((97 <=? n) && (n <=? 122))%nat then ascii_of_nat (n - 32) else c.

Fixpoint lower (s : string) : string :=
  match s with
  | EmptyString => EmptyString
  | String c r => String (lower_ascii c) (lower r)
  end.

Definition capitalize (s : string) : string :=
  match s with
  | EmptyString => EmptyString
  | String c r => String (upper_ascii c) (lower r)
  end.

(** ** Data model *)

Definition datetime := Z.

(** [class SubtaskRun(SQLModel, table=True)]. *)
Record SubtaskRun : Type := {
  id : option Z;
  subtask_name : string;
  connection_id : Z;
  started : datetime;
  completed : option datetime;
  state : string
}.

(** Modelled from the spec: [RawModel] of [pydevlake.model], a raw payload
    with its [params] (a JSON text) and its [data] (the bytes of a JSON
    text). *)
Record RawModel : Type := {
  params : string;
  data : string
}.

(** Modelled from the spec: [ToolModel] of [pydevlake.model], tool-defined
    fields under a primary key, with the origin set by [set_origin]. *)
Record ToolModel : Type := {
  tool_key : string;
  tool_fields : json;
  tool_origin : option RawModel
}.

(** Modelled from the spec: [DomainModel] of [pydevlake.model], tool-defined
    fields and the generated identifier; [domain_kind] is the model class,
    that is the table the record is merged into. *)
Record DomainModel : Type := {
  domain_kind : string;
  domain_id : string;
  domain_fields : json
}.

(** Modelled from the spec: [RemoteProgress] of [pydevlake.message]. *)
Record RemoteProgress : Type := {
  increment : Z;
  current : Z
}.

(** Modelled from the spec: [Context] of [pydevlake.context], as far as the
    subtasks read it ([ctx.connection.id], [ctx.scope_id],
    [ctx.incremental]); [ctx.engine] is the database of the [World]. *)
Record Ctx : Type := {
  ctx_connection_id : Z;
  scope_id : json;
  incremental : bool
}.

(** ** The database and the session *)

Record DB : Type := {
  subtask_runs : list SubtaskRun;
  raw_rows : list RawModel;
  tool_rows : list ToolModel;
  domain_rows : list DomainModel
}.

Definition empty_db : DB :=
  {| subtask_runs := []; raw_rows := []; tool_rows := []; domain_rows := [] |}.

(** The transaction of a session: usable; holding a queued write that the
    database refuses ([Refused e]: the next flush raises [e] and rolls the
    transaction back); or rolled back by a failed flush, after which every
    statement of the session raises [PendingRollbackError] until
    [session.rollback()], which nothing in this file calls. *)
Inductive Tx : Type :=
| Usable
| Refused (e : exn)
| RolledBack.

(** [W] is the state of the collaborators outside the database (the stream,
    the source it talks to). The rows of [pending] reach [durable] with a
    commit only: those of a transaction that was rolled back never do, and
    are dropped when the session is closed. *)
Record World (W : Type) : Type := {
  durable : DB;
  pending : DB;
  ext : W;
  tx : Tx
}.

Definition PendingRollbackError : exn :=
  PyException "PendingRollbackError"
              "This Session's transaction has been rolled back due to a previous exception during flush.".

Section Session.
Context {W : Type}.

(** [Session(ctx.engine)]: a new session, nothing queued. *)
Definition open_session (db : DB) (x : W) : World W :=
  {| durable := db; pending := db; ext := x; tx := Usable |}.

Definition set_pending (w : World W) (db : DB) : World W :=
  {| durable := durable w; pending := db; ext := ext w; tx := tx w |}.

Definition set_ext (w : World W) (x : W) : World W :=
  {| durable := durable w; pending := pending w; ext := x; tx := tx w |}.

Definition set_tx (w : World W) (t : Tx) : World W :=
  {| durable := durable w; pending := pending w; ext := ext w; tx := t |}.

(** The flush a query, a merge and a commit start with: the world it
    leaves, and the exception it raises, if any. *)
Definition flush (w : World W) : World W * option exn :=
  match tx w with
  | Usable => (w, None)
  | Refused e => (set_tx w RolledBack, Some e)
  | RolledBack => (w, Some PendingRollbackError)
  end.

(** [session.commit()] *)
Definition commit (w : World W) : World W * option exn :=
  match flush w with
  | (w', Some e) => (w', Some e)
  | (w', None) =>
      ({| durable := pending w'; pending := pending w'; ext := ext w'; tx := tx w' |},
       None)
  end.

(** Leaving [with Session(...)] closes the session: an open transaction
    is discarded. *)
Definition close (w : World W) : World W :=
  {| durable := durable w; pending := durable w; ext := ext w; tx := Usable |}.
End Session.

Definition set_subtask_runs (db : DB) (l : list SubtaskRun) : DB :=
  {| subtask_runs := l; raw_rows := raw_rows db;
     tool_rows := tool_rows db; domain_rows := domain_rows db |}.

Definition set_raw_rows (db : DB) (l : list RawModel) : DB :=
  {| subtask_runs := subtask_runs db; raw_rows := l;
     tool_rows := tool_rows db; domain_rows := domain_rows db |}.

Definition set_tool_rows (db : DB) (l : list ToolModel) : DB :=
  {| subtask_runs := subtask_runs db; raw_rows := raw_rows db;
     tool_rows := l; domain_rows := domain_rows db |}.

Definition set_domain_rows (db : DB) (l : list DomainModel) : DB :=
  {| subtask_runs := subtask_runs db; raw_rows := raw_rows db;
     tool_rows := tool_rows db; domain_rows := l |}.

Definition opt_Z_eqb (a b : option Z) : bool :=
  match a, b with
  | Some x, Some y => x =? y
  | None, None => true
  | _, _ => false
  end.

(** The key the database gives a new row of an integer primary key. *)
Definition next_id (l : list SubtaskRun) : Z :=
  1 + fold_right (fun r m => match id r with Some k => Z.max k m | None => m end) 0 l.

Definition with_id (r : SubtaskRun) (k : option Z) : SubtaskRun :=
  {| id := k; subtask_name := subtask_name r; connection_id := connection_id r;
     started := started r; completed := completed r; state := state r |}.

Definition with_state (r : SubtaskRun) (s : string) : SubtaskRun :=
  {| id := id r; subtask_name := subtask_name r; connection_id := connection_id r;
     started := started r; completed := completed r; state := s |}.

Definition with_completed (r : SubtaskRun) (t : option datetime) : SubtaskRun :=
  {| id := id r; subtask_name := subtask_name r; connection_id := connection_id r;
     started := started r; completed := t; state := state r |}.

(** [session.add(subtask_run)]: the object becomes a row of the open
    transaction; the flush that gives it its key (SQLAlchemy runs it before
    the next query or commit) is done here. The object, with its key, is
    returned. *)
Definition add_run (r : SubtaskRun) (db : DB) : DB * SubtaskRun :=
  let r' := match id r with
            | Some _ => r
            | None => with_id r (Some (next_id (subtask_runs db)))
            end in
  (set_subtask_runs db (subtask_runs db ++ [r']), r').

(** [session.merge(subtask_run)]: the row of the same primary key takes the
    object's fields; without such a row the object is inserted. *)
Fixpoint upsert_run (r : SubtaskRun) (l : list SubtaskRun) : list SubtaskRun :=
  match l with
  | [] => [r]
  | x :: t => if opt_Z_eqb (id x) (id r) then r :: t else x :: upsert_run r t
  end.

Definition merge_run (r : SubtaskRun) (db : DB) : DB :=
  set_subtask_runs db (upsert_run r (subtask_runs db)).

(** [session.merge(subtask_run)], with the flush it starts with. *)
Definition merge_subtask_run {W : Type} (r : SubtaskRun) (w : World W)
  : World W * option exn :=
  match flush w with
  | (w', Some e) => (w', Some e)
  | (w', None) => (set_pending w' (merge_run r (pending w')), None)
  end.

(** [.order_by(SubtaskRun.started)]: ascending, rows of equal [started] in
    table order. *)
Fixpoint insert_by_started (r : SubtaskRun) (l : list SubtaskRun) : list SubtaskRun :=
  match l with
  | [] => [r]
  | x :: t => if started r <=? started x then r :: x :: t
              else x :: insert_by_started r t
  end.

Definition order_by_started (l : list SubtaskRun) : list SubtaskRun :=
  fold_right insert_by_started [] l.

(** [.first()] *)
Definition first {A : Type} (l : list A) : option A :=
  match l with
  | [] => None
  | x :: _ => Some x
  end.

Definition is_some {A : Type} (o : option A) : bool :=
  match o with Some _ => true | None => false end.

(** ** Stages *)

(** What a [fetch] yields during one run: the (data, state) pairs, in order,
    and how the iteration ends ([None]: exhausted, [Some e]: the next
    [next()] raises [e]). The three stages of this file run their queries
    once, when the loop starts, so the sequence is a function of the state,
    the context and the world at that point; a [fetch] returns it with the
    world its query leaves. *)
Record FetchSeq (Data : Type) : Type := {
  items : list (Data * json);
  ending : option exn
}.

(** Values a stream's [convert] may hand back that are not generators. *)
Inductive pyobj : Type :=
| PDomain (dm : DomainModel)
| POther (ty repr : string).

(** What the stage code itself does, beside changing the world. *)
Inductive StageEvent : Type :=
| SLogError (msg : string)
| SConvertCall (tm : ToolModel)
| SIterate (call : nat)
| SMerge (dm : DomainModel)
| SAddRaw (r : RawModel).

Record StageOut (W : Type) : Type := {
  so_events : list StageEvent;
  so_world : World W;
  so_exn : option exn
}.

(** The abstract [Subtask]: [verb], the two names read from [self.stream],
    and the methods every stage defines. *)
Record Stage (W Data : Type) : Type := {
  verb : string;
  stream_plugin_name : string;
  stream_name : string;
  fetch : json -> World W -> Ctx -> FetchSeq Data * World W;
  process : Data -> World W -> Ctx -> StageOut W;
  delete : World W -> Ctx -> StageOut W
}.

(** [Subtask.name] *)
Definition name {W Data : Type} (st : Stage W Data) : string :=
  lower (verb st) ++ capitalize (stream_plugin_name st) ++ capitalize (stream_name st).

(** [Subtask.description] *)
Definition description {W Data : Type} (st : Stage W Data) : string :=
  capitalize (verb st) ++ " " ++ stream_plugin_name st ++ " " ++ lower (stream_name st).

(** ** The run-loop *)

(** The calls of a run, in program order. A checkpoint write that returned
    is recorded with the row it wrote and the committed database it left; one
    that raised, with its exception. *)
Inductive Event : Type :=
| EvStart (r : SubtaskRun)
| EvDelete
| EvFetch (st : json)
| EvProcess (i : nat)
| EvStage (e : StageEvent)
| EvCheckpoint (i : nat) (r : SubtaskRun) (committed : DB)
| EvCheckpointFailed (i : nat) (e : exn)
| EvYield (p : RemoteProgress)
| EvLogError (e : exn)
| EvFinalize (r : SubtaskRun).

Record LoopOut (W : Type) : Type := {
  lo_events : list Event;
  lo_world : World W;
  lo_state : json;
  lo_exn : option exn
}.

Record RunResult (W : Type) : Type := {
  events : list Event;
  final : World W;
  raised : option exn
}.

Definition ZeroDivisionError : exn :=
  PyException "ZeroDivisionError" "integer division or modulo by zero".

Section RunLoop.
Context {J : JsonLib} {W Data : Type}.
Variable self : Stage W Data.

(** [Subtask._start_subtask] *)
Definition _start_subtask (w : World W) (conn_id : Z) (now : datetime)
  : World W * SubtaskRun :=
  let subtask_run :=
    {| id := None;
       subtask_name := name self;
       connection_id := conn_id;
       started := now;
       completed := None;
       state := json_dumps (JDict []) |} in
  let '(db, r) := add_run subtask_run (pending w) in
  (set_pending w db, r).

(** The statement of [Subtask._get_last_state] and its [.first()]. *)
Definition last_state_stmt (db : DB) (conn_id : Z) : list SubtaskRun :=
  order_by_started
    (filter (fun r => (subtask_name r =? name self)%string
                      && (connection_id r =? conn_id)
                      && is_some (completed r))
            (subtask_runs db)).

(** [Subtask._get_last_state]; [session.exec] flushes first. *)
Definition _get_last_state (w : World W) (conn_id : Z) : result json :=
  match flush w with
  | (_, Some e) => Raise e
  | (w', None) =>
      match first (last_state_stmt (pending w') conn_id) with
      | Some subtask_run => json_loads (state subtask_run)
      | None => Ok (JDict [])
      end
  end.

Definition prepend (evs : list Event) (o : LoopOut W) : LoopOut W :=
  {| lo_events := evs ++ lo_events o; lo_world := lo_world o;
     lo_state := lo_state o; lo_exn := lo_exn o |}.

(** The sync-point test [i % sync_point_interval == 0 and i != 0]. *)
Definition at_sync_point (sync_point_interval : Z) (i : nat) : bool :=
  (Z.of_nat i mod sync_point_interval =? 0) && negb (Nat.eqb i 0).

(** "Save current state": the three lines before the [yield]. The result
    is the world, the run record as assigned, and the exception raised by
    [session.merge] or [session.commit], if any. *)
Definition checkpoint (subtask_run : SubtaskRun) (state : json) (w : World W)
  : World W * SubtaskRun * option exn :=
  let r := with_state subtask_run (json_dumps state) in
  match merge_subtask_run r w with
  | (w1, Some e) => (w1, r, Some e)
  | (w1, None) => let '(w2, ex) := commit w1 in (w2, r, ex)
  end.

(** The body of [try: for i, (data, state) in enumerate(...)]: [its] is
    what is left of the fetch sequence, [i] the index of its head, [state]
    the value of the variable [state]. The result holds the exception that
    left the loop, if any. *)
Fixpoint loop (ctx : Ctx) (sync_point_interval : Z) (subtask_run : SubtaskRun)
         (its : list (Data * json)) (fin : option exn)
         (i : nat) (w : World W) (state : json) : LoopOut W :=
  match its with
  | [] => {| lo_events := []; lo_world := w; lo_state := state; lo_exn := fin |}
  | (data, state) :: rest =>
      let p := process self data w ctx in
      let evs := EvProcess i :: map EvStage (so_events p) in
      match so_exn p with
      | Some e =>
          {| lo_events := evs; lo_world := so_world p;
             lo_state := state; lo_exn := Some e |}
      | None =>
          if sync_point_interval =? 0 then
            {| lo_events := evs; lo_world := so_world p;
               lo_state := state; lo_exn := Some ZeroDivisionError |}
          else if at_sync_point sync_point_interval i then
            match checkpoint subtask_run state (so_world p) with
            | (w', _, Some e) =>
                {| lo_events := evs ++ [EvCheckpointFailed i e]; lo_world := w';
                   lo_state := state; lo_exn := Some e |}
            | (w', r, None) =>
                prepend (evs ++ [EvCheckpoint i r (durable w');
                                 EvYield {| increment := sync_point_interval;
                                            current := Z.of_nat i |}])
                        (loop ctx sync_point_interval subtask_run rest fin (S i) w' state)
            end
          else
            prepend evs
                    (loop ctx sync_point_interval subtask_run rest fin (S i)
                          (so_world p) state)
      end
  end.

(** The last four lines of [run]: the world, the run record as assigned,
    and the exception raised by [session.merge] or [session.commit], if
    any. *)
Definition finalize (subtask_run : SubtaskRun) (state : json) (now : datetime)
           (w : World W) : World W * SubtaskRun * option exn :=
  let r := with_completed (with_state subtask_run (json_dumps state)) (Some now) in
  match merge_subtask_run r w with
  | (w1, Some e) => (w1, r, Some e)
  | (w1, None) => let '(w2, ex) := commit w1 in (w2, r, ex)
  end.

(** What the loop of a run starts from: the world [fetch] leaves. *)
Definition loop_of (ctx : Ctx) (sync_point_interval : Z) (subtask_run : SubtaskRun)
           (w : World W) (state : json) : LoopOut W :=
  let f := fetch self state w ctx in
  loop ctx sync_point_interval subtask_run (items (fst f)) (ending (fst f)) 0
       (snd f) state.

(** [run], from the [try] on. The finalization is outside the [try]: what
    it raises reaches the caller, and the session is closed on the way. *)
Definition run_from (ctx : Ctx) (sync_point_interval : Z) (now_end : datetime)
           (subtask_run : SubtaskRun) (w : World W) (state : json)
  : RunResult W :=
  let o := loop_of ctx sync_point_interval subtask_run w state in
  let finish (logged : list Event) :=
    match finalize subtask_run (lo_state o) now_end (lo_world o) with
    | (w', r, None) =>
        {| events := EvFetch state :: lo_events o ++ logged ++ [EvFinalize r];
           final := w'; raised := None |}
    | (w', _, Some e) =>
        {| events := EvFetch state :: lo_events o ++ logged;
           final := close w'; raised := Some e |}
    end in
  match lo_exn o with
  | None => finish []
  | Some e =>
      if is_Exception e then finish [EvLogError e]
      else {| events := EvFetch state :: lo_events o;
              final := close (lo_world o); raised := Some e |}
  end.

(** How [run] reaches its [try]: with the run record, the world and the
    initial state, or not at all, an exception having been raised. *)
Inductive Setup : Type :=
| SetupOk (evs : list Event) (subtask_run : SubtaskRun) (w : World W) (state : json)
| SetupRaise (evs : list Event) (w : World W) (e : exn).

(** [run], up to the [try]: the new run record, then the initial state. *)
Definition run_setup (ctx : Ctx) (now_start : datetime) (w : World W) : Setup :=
  let '(w1, subtask_run) := _start_subtask w (ctx_connection_id ctx) now_start in
  if incremental ctx then
    match _get_last_state w1 (ctx_connection_id ctx) with
    | Ok state => SetupOk [EvStart subtask_run] subtask_run w1 state
    | Raise e => SetupRaise [EvStart subtask_run] w1 e
    end
  else
    let d := delete self w1 ctx in
    let evs := EvStart subtask_run :: EvDelete :: map EvStage (so_events d) in
    match so_exn d with
    | None => SetupOk evs subtask_run (so_world d) (JDict [])
    | Some e => SetupRaise evs (so_world d) e
    end.

(** [Subtask.run], driven by its caller until the generator is exhausted
    or raises. [raised] is the exception the caller sees. *)
Definition run (ctx : Ctx) (sync_point_interval : Z)
           (now_start now_end : datetime) (w : World W) : RunResult W :=
  match run_setup ctx now_start w with
  | SetupRaise evs w' e =>
      {| events := evs; final := close w'; raised := Some e |}
  | SetupOk evs subtask_run w' state =>
      let r := run_from ctx sync_point_interval now_end subtask_run w' state in
      {| events := evs ++ events r; final := final r; raised := raised r |}
  end.

(** The values the generator [run] yields. *)
Definition yielded (r : RunResult W) : list RemoteProgress :=
  flat_map (fun e => match e with EvYield p => [p] | _ => [] end) (events r).
End RunLoop.

(** ** The stream and the three stages *)

(** The run of a generator's body from a state of the collaborators: the
    values it yields, each with the state the body is suspended in at that
    [yield], how it ends after them (it returns, or raises), and the state
    it ends in. A generator that is not iterated to its end stays suspended
    at its last [yield]. *)
Record GenRun (W : Type) : Type := {
  gen_yields : list (pyobj * W);
  gen_ending : option exn;
  gen_final : W
}.

(** What [self.stream.convert(tool_model)] returns: a generator (its body,
    which runs when the generator is iterated), another iterable (a list, a
    tuple), or any other object. *)
Inductive ConvOut (W : Type) : Type :=
| RetGenerator (g : W -> GenRun W)
| RetIterable (ty repr : string) (l : list pyobj)
| RetObject (o : pyobj).
Arguments RetIterable {W} ty repr l.
Arguments RetObject {W} o.

(** Modelled from the spec: the stream of [self.stream], an external
    collaborator. [collect] gives the sequence the source returns for a
    state, [extract] decodes one payload, [convert] maps a tool record;
    [convert] may read and change the collaborators' state. *)
Record Stream (W : Type) : Type := {
  s_plugin_name : string;
  s_name : string;
  collect : json -> Ctx -> W -> FetchSeq json;
  extract : json -> result ToolModel;
  convert : ToolModel -> W -> ConvOut W * W
}.

Definition silent {W : Type} (w : World W) : StageOut W :=
  {| so_events := []; so_world := w; so_exn := None |}.

Definition raising {W : Type} (w : World W) (e : exn) : StageOut W :=
  {| so_events := []; so_world := w; so_exn := Some e |}.

Section Collector.
Context {J : JsonLib} {W : Type}.
Variable stream : Stream W.

(** [Collector._params] *)
Definition _params (ctx : Ctx) : string :=
  json_dumps (JDict [("connection_id", JInt (ctx_connection_id ctx));
                     ("scope_id", scope_id ctx)]).

(** [Collector.fetch]: the session is not used. *)
Definition Collector_fetch (state : json) (w : World W) (ctx : Ctx)
  : FetchSeq json * World W :=
  (collect stream state ctx (ext w), w).

(** [Collector.process]; the text [json.dumps] returns is ASCII, its
    [encode('utf8')] is the same bytes. [session.add] does not flush. *)
Definition Collector_process (item : json) (w : World W) (ctx : Ctx) : StageOut W :=
  let raw_model := {| params := _params ctx; data := json_dumps item |} in
  {| so_events := [SAddRaw raw_model];
     so_world := set_pending w (set_raw_rows (pending w)
                                             (raw_rows (pending w) ++ [raw_model]));
     so_exn := None |}.

(** [Collector.delete]; [session.execute] flushes first. *)
Definition Collector_delete (w : World W) (ctx : Ctx) : StageOut W :=
  match flush w with
  | (w', Some e) => raising w' e
  | (w', None) =>
      silent (set_pending w'
                (set_raw_rows (pending w')
                   (filter (fun r => negb (params r =? _params ctx)%string)
                           (raw_rows (pending w')))))
  end.

Definition Collector : Stage W json :=
  {| verb := "collect";
     stream_plugin_name := s_plugin_name stream;
     stream_name := s_name stream;
     fetch := Collector_fetch;
     process := Collector_process;
     delete := Collector_delete |}.
End Collector.

Section Extractor.
Context {J : JsonLib} {W : Type}.
Variable stream : Stream W.

(** [tool_model.set_origin(raw)] *)
Definition set_origin (t : ToolModel) (raw : RawModel) : ToolModel :=
  {| tool_key := tool_key t; tool_fields := tool_fields t; tool_origin := Some raw |}.

(** The rows [session.merge(tool_model)] leaves in the tool table. *)
Fixpoint upsert_tool (t : ToolModel) (l : list ToolModel) : list ToolModel :=
  match l with
  | [] => [t]
  | x :: r => if (tool_key x =? tool_key t)%string then t :: r
              else x :: upsert_tool t r
  end.

(** [Extractor.fetch]; the query flushes first, and a flush that fails
    raises at the first [next()]. *)
Definition Extractor_fetch (state : json) (w : World W) (_ : Ctx)
  : FetchSeq RawModel * World W :=
  match flush w with
  | (w', Some e) => ({| items := []; ending := Some e |}, w')
  | (w', None) =>
      ({| items := map (fun raw => (raw, state)) (raw_rows (pending w'));
          ending := None |}, w')
  end.

(** [Extractor.process]; [session.merge] flushes first. *)
Definition Extractor_process (raw : RawModel) (w : World W) (_ : Ctx) : StageOut W :=
  match json_loads (data raw) with
  | Raise e => raising w e
  | Ok v =>
      match extract stream v with
      | Raise e => raising w e
      | Ok tool_model =>
          match flush w with
          | (w', Some e) => raising w' e
          | (w', None) =>
              silent (set_pending w'
                        (set_tool_rows (pending w')
                           (upsert_tool (set_origin tool_model raw)
                                        (tool_rows (pending w')))))
          end
      end
  end.

(** [Extractor.delete] *)
Definition Extractor_delete (w : World W) (_ : Ctx) : StageOut W := silent w.

Definition Extractor : Stage W RawModel :=
  {| verb := "extract";
     stream_plugin_name := s_plugin_name stream;
     stream_name := s_name stream;
     fetch := Extractor_fetch;
     process := Extractor_process;
     delete := Extractor_delete |}.
End Extractor.

Section Convertor.
Context {W : Type}.
Variable stream : Stream W.

(** [generate_domain_id] of [pydevlake.model], which this file imports. *)
Variable generate_domain_id : ToolModel -> Z -> string.

Definition with_domain_id (d : DomainModel) (k : string) : DomainModel :=
  {| domain_kind := domain_kind d; domain_id := k; domain_fields := domain_fields d |}.

(** The rows [session.merge(domain_model)] leaves in the domain table. *)
Fixpoint upsert_domain (d : DomainModel) (l : list DomainModel) : list DomainModel :=
  match l with
  | [] => [d]
  | x :: r => if ((domain_kind x =? domain_kind d) && (domain_id x =? domain_id d))%string
              then d :: r
              else x :: upsert_domain d r
  end.

(** [Convertor.fetch]; the query flushes first, and a flush that fails
    raises at the first [next()]. *)
Definition Convertor_fetch (state : json) (w : World W) (_ : Ctx)
  : FetchSeq ToolModel * World W :=
  match flush w with
  | (w', Some e) => ({| items := []; ending := Some e |}, w')
  | (w', None) =>
      ({| items := map (fun item => (item, state)) (tool_rows (pending w'));
          ending := None |}, w')
  end.

(** [Convertor._save]; [session.merge] flushes first. *)
Definition _save (tool_model : ToolModel) (domain_model : pyobj)
           (w : World W) (conn_id : Z) : StageOut W :=
  match domain_model with
  | POther ty repr =>
      {| so_events := [SLogError ("Expected a DomainModel but got a " ++ ty ++ ": " ++ repr)];
         so_world := w;
         so_exn := None |}
  | PDomain d =>
      let d' := with_domain_id d (generate_domain_id tool_model conn_id) in
      match flush w with
      | (w', Some e) => raising w' e
      | (w', None) =>
          {| so_events := [SMerge d'];
             so_world := set_pending w' (set_domain_rows (pending w')
                                           (upsert_domain d' (domain_rows (pending w'))));
             so_exn := None |}
      end
  end.

(** [for each in ...: self._save(tool_model, each, ...)] over the values
    the iteration hands out, each with the state of the collaborators when
    it is handed out. A [_save] that raises ends the loop. *)
Fixpoint save_each (tool_model : ToolModel) (l : list (pyobj * W))
         (w : World W) (conn_id : Z) : StageOut W :=
  match l with
  | [] => silent w
  | (each, x) :: rest =>
      let s := _save tool_model each (set_ext w x) conn_id in
      match so_exn s with
      | Some e => s
      | None =>
          let s' := save_each tool_model rest (so_world s) conn_id in
          {| so_events := so_events s ++ so_events s';
             so_world := so_world s';
             so_exn := so_exn s' |}
      end
  end.

(** What a [for] loop over a value is handed, step by step, from a state
    [x] of the collaborators. An object that is neither generator nor
    iterable raises [TypeError]. *)
Definition steps (res : ConvOut W) (x : W) : GenRun W :=
  match res with
  | RetGenerator g => g x
  | RetIterable _ _ l =>
      {| gen_yields := map (fun o => (o, x)) l; gen_ending := None; gen_final := x |}
  | RetObject _ =>
      {| gen_yields := [];
         gen_ending := Some (PyException "TypeError" "object is not iterable");
         gen_final := x |}
  end.

(** The same, in one piece: the values handed out before the iteration
    ends or raises, and the state of the collaborators after it. *)
Definition iterate (res : ConvOut W) (x : W) : (list pyobj * option exn) * W :=
  let g := steps res x in
  ((map fst (gen_yields g), gen_ending g), gen_final g).

(** The object [_save] receives in the [else] branch. *)
Definition as_object (res : ConvOut W) : pyobj :=
  match res with
  | RetGenerator _ => POther "<class 'generator'>" "<generator object>"
  | RetIterable ty repr _ => POther ty repr
  | RetObject o => o
  end.

(** [isinstance(res, Generator)] *)
Definition is_Generator (res : ConvOut W) : bool :=
  match res with
  | RetGenerator _ => true
  | _ => false
  end.

(** [Convertor.process] *)
Definition Convertor_process (tool_model : ToolModel) (w : World W) (ctx : Ctx)
  : StageOut W :=
  let '(res, x1) := convert stream tool_model (ext w) in
  if is_Generator res then
    let '(res2, x2) := convert stream tool_model x1 in
    let g := steps res2 x2 in
    let s := save_each tool_model (gen_yields g) (set_ext w x2) (ctx_connection_id ctx) in
    let called := [SConvertCall tool_model; SConvertCall tool_model; SIterate 2] in
    match so_exn s with
    | Some e =>
        {| so_events := called ++ so_events s; so_world := so_world s; so_exn := Some e |}
    | None =>
        {| so_events := called ++ so_events s;
           so_world := set_ext (so_world s) (gen_final g);
           so_exn := gen_ending g |}
    end
  else
    let s := _save tool_model (as_object res) (set_ext w x1) (ctx_connection_id ctx) in
    {| so_events := SConvertCall tool_model :: so_events s;
       so_world := so_world s;
       so_exn := so_exn s |}.

(** [Convertor.delete] *)
Definition Convertor_delete (w : World W) (_ : Ctx) : StageOut W := silent w.

Definition Convertor : Stage W ToolModel :=
  {| verb := "convert";
     stream_plugin_name := s_plugin_name stream;
     stream_name := s_name stream;
     fetch := Convertor_fetch;
     process := Convertor_process;
     delete := Convertor_delete |}.
End Convertor.

(** ** A JSON library to run the definitions with

    [PyJson] prints as Python's [json.dumps] does with its default
    arguments (", " and ": " as separators, everything outside the printable
    ASCII range escaped; a character of a Rocq string is read as the code
    point of its number) and reads JSON texts back. Numbers with a fraction
    or an exponent are refused by the reader, as [json] has no floats. The
    theorems below hold for every [JsonLib]; this one is used where a
    definition is evaluated. *)

Module PyJson.

Definition dq : ascii := ascii_of_nat 34.
Definition bs : ascii := ascii_of_nat 92.
Definition str1 (c : ascii) : string := String c EmptyString.

Definition hex_digit (n : nat) : ascii :=
  if (n <? 10)%nat then ascii_of_nat (48 + n) else ascii_of_nat (87 + n).

Definition escape_char (c : ascii) : string :=
  let n := nat_of_ascii c in
  if (n =? 34)%nat then String bs (str1 dq)
  else if (n =? 92)%nat then "\\"
  else if (n =? 10)%nat then "\n"
  else if (n =? 13)%nat then "\r"
  else if (n =? 9)%nat then "\t"
  else if (n =? 8)%nat then "\b"
  else if (n =? 12)%nat then "\f"
  else if ((32 <=? n) && (n <=? 126))%nat then str1 c
  else "\u00" ++ String (hex_digit (n / 16)) (str1 (hex_digit (n mod 16))).

Fixpoint escape (s : string) : string :=
  match s with
  | EmptyString => EmptyString
  | String c r => escape_char c ++ escape r
  end.

Definition quote (s : string) : string := String dq (escape s ++ str1 dq).

Fixpoint digits (fuel : nat) (n : N) (acc : string) : string :=
  match fuel with
  | O => acc
  | S f =>
      let acc' := String (ascii_of_N (48 + N.modulo n 10)) acc in
      if N.ltb n 10 then acc' else digits f (N.div n 10) acc'
  end.

Definition str_of_Z (z : Z) : string :=
  let n := Z.to_N (Z.abs z) in
  let d := digits (S (N.to_nat (N.log2 n))) n EmptyString in
  if z <? 0 then String "-" d else d.

Fixpoint join (sep : string) (l : list string) : string :=
  match l with
  | [] => EmptyString
  | [x] => x
  | x :: r => x ++ sep ++ join sep r
  end.

Fixpoint dumps (v : json) : string :=
  match v with
  | JNull => "null"
  | JBool true => "true"
  | JBool false => "false"
  | JInt z => str_of_Z z
  | JStr s => quote s
  | JList l => "[" ++ join ", " (map dumps l) ++ "]"
  | JDict kv =>
      "{" ++ join ", " (map (fun p => quote (fst p) ++ ": " ++ dumps (snd p)) kv) ++ "}"
  end.

Definition JSONDecodeError (msg : string) : exn := PyException "JSONDecodeError" msg.

Definition is_ws (c : ascii) : bool :=
  let n := nat_of_ascii c in
  ((n =? 32) || (n =? 9) || (n =? 10) || (n =? 13))%nat.

Fixpoint skip_ws (s : string) : string :=
  match s with
  | String c r => if is_ws c then skip_ws r else s
  | EmptyString => s
  end.

Definition digit_of (c : ascii) : option Z :=
  let n := nat_of_ascii c in
  if ((48 <=? n) && (n <=? 57))%nat then Some (Z.of_nat (n - 48)) else None.

Definition hex_of (c : ascii) : option nat :=
  let n := nat_of_ascii c in
  if ((48 <=? n) && (n <=? 57))%nat then Some (n - 48)%nat
  else if ((97 <=? n) && (n <=? 102))%nat then Some (n - 87)%nat
  else if ((65 <=? n) && (n <=? 70))%nat then Some (n - 55)%nat
  else None.

Fixpoint read_digits (s : string) (acc : Z) : Z * string :=
  match s with
  | String c r =>
      match digit_of c with
      | Some d => read_digits r (10 * acc + d)
      | None => (acc, s)
      end
  | EmptyString => (acc, s)
  end.

Definition starts_fraction (s : string) : bool :=
  match s with
  | String c _ => let n := nat_of_ascii c in ((n =? 46) || (n =? 101) || (n =? 69))%nat
  | EmptyString => false
  end.

Definition read_number (s : string) : option (json * string) :=
  let '(neg, s') := match s with
                    | String "-" r => (true, r)
                    | _ => (false, s)
                    end in
  match s' with
  | String c _ =>
      match digit_of c with
      | Some _ =>
          let '(n, rest) := read_digits s' 0 in
          if starts_fraction rest then None
          else Some (JInt (if neg then - n else n), rest)
      | None => None
      end
  | EmptyString => None
  end.

(** The characters of a string literal, after its opening quote. *)
Fixpoint read_string (s : string) : option (string * string) :=
  match s with
  | EmptyString => None
  | String c r =>
      if (nat_of_ascii c =? 34)%nat then Some (EmptyString, r)
      else if (nat_of_ascii c =? 92)%nat then
        match r with
        | String e r' =>
            let plain (x : ascii) :=
              match read_string r' with
              | Some (t, rest) => Some (String x t, rest)
              | None => None
              end in
            let n := nat_of_ascii e in
            if (n =? 34)%nat then plain dq
            else if (n =? 92)%nat then plain bs
            else if (n =? 47)%nat then plain "/"%char
            else if (n =? 110)%nat then plain (ascii_of_nat 10)
            else if (n =? 114)%nat then plain (ascii_of_nat 13)
            else if (n =? 116)%nat then plain (ascii_of_nat 9)
            else if (n =? 98)%nat then plain (ascii_of_nat 8)
            else if (n =? 102)%nat then plain (ascii_of_nat 12)
            else if (n =? 117)%nat then
              match r' with
              | String "0" (String "0" (String h (String l r''))) =>
                  match hex_of h, hex_of l, read_string r'' with
                  | Some a, Some b, Some (t, rest) =>
                      Some (String (ascii_of_nat (16 * a + b)) t, rest)
                  | _, _, _ => None
                  end
              | _ => None
              end
            else None
        | EmptyString => None
        end
      else
        match read_string r with
        | Some (t, rest) => Some (String c t, rest)
        | None => None
        end
  end.

(** [d[k] = v] on a dict read so far. *)
Fixpoint dict_set (kv : list (string * json)) (k : string) (v : json)
  : list (string * json) :=
  match kv with
  | [] => [(k, v)]
  | (k', v') :: r => if (k' =? k)%string then (k', v) :: r
                     else (k', v') :: dict_set r k v
  end.

Definition dict_of (kv : list (string * json)) : json :=
  JDict (fold_left (fun acc p => dict_set acc (fst p) (snd p)) kv []).

Definition literal (word : string) (v : json) (s : string) : option (json * string) :=
  if prefix word s then Some (v, substring (String.length word) (String.length s) s)
  else None.

Fixpoint read_value (fuel : nat) (s : string) : option (json * string) :=
  match fuel with
  | O => None
  | S f =>
      match skip_ws s with
      | String "n" _ as t => literal "null" JNull t
      | String "t" _ as t => literal "true" (JBool true) t
      | String "f" _ as t => literal "false" (JBool false) t
      | String "[" r =>
          match skip_ws r with
          | String "]" r' => Some (JList [], r')
          | r' => match read_elements f r' with
                  | Some (l, rest) => Some (JList l, rest)
                  | None => None
                  end
          end
      | String "{" r =>
          match skip_ws r with
          | String "}" r' => Some (JDict [], r')
          | r' => match read_members f r' with
                  | Some (kv, rest) => Some (dict_of kv, rest)
                  | None => None
                  end
          end
      | String c r as t =>
          if (nat_of_ascii c =? 34)%nat then
            match read_string r with
            | Some (x, rest) => Some (JStr x, rest)
            | None => None
            end
          else read_number t
      | EmptyString => None
      end
  end
with read_elements (fuel : nat) (s : string) : option (list json * string) :=
  match fuel with
  | O => None
  | S f =>
      match read_value f s with
      | Some (v, rest) =>
          match skip_ws rest with
          | String "," r =>
              match read_elements f r with
              | Some (l, rest') => Some (v :: l, rest')
              | None => None
              end
          | String "]" r => Some ([v], r)
          | _ => None
          end
      | None => None
      end
  end
with read_members (fuel : nat) (s : string) : option (list (string * json) * string) :=
  match fuel with
  | O => None
  | S f =>
      match skip_ws s with
      | String c r =>
          if (nat_of_ascii c =? 34)%nat then
            match read_string r with
            | Some (k, rest) =>
                match skip_ws rest with
                | String ":" r1 =>
                    match read_value f r1 with
                    | Some (v, rest1) =>
                        match skip_ws rest1 with
                        | String "," r2 =>
                            match read_members f r2 with
                            | Some (kv, rest2) => Some ((k, v) :: kv, rest2)
                            | None => None
                            end
                        | String "}" r2 => Some ([(k, v)], r2)
                        | _ => None
                        end
                    | None => None
                    end
                | _ => None
                end
            | None => None
            end
          else None
      | EmptyString => None
      end
  end.

Definition loads (s : string) : result json :=
  match read_value (2 * String.length s + 2) s with
  | Some (v, rest) =>
      match skip_ws rest with
      | EmptyString => Ok v
      | _ => Raise (JSONDecodeError "Extra data")
      end
  | None => Raise (JSONDecodeError "Expecting value")
  end.

Definition lib : JsonLib := {| json_dumps := dumps; json_loads := loads |}.
End PyJson.

(** ** Observations on event lists *)

(** The sync-point events of a run: checkpoint writes and progress yields. *)
Inductive SyncMark : Type :=
| Checkpointed (i : nat)
| Progress (p : RemoteProgress).

Definition sync_marks (evs : list Event) : list SyncMark :=
  flat_map (fun e => match e with
                     | EvCheckpoint i _ _ => [Checkpointed i]
                     | EvYield p => [Progress p]
                     | _ => []
                     end) evs.

(** The marks of one sync point at index [i]. *)
Definition sync_point (sync_point_interval : Z) (i : nat) : list SyncMark :=
  [Checkpointed i;
   Progress {| increment := sync_point_interval; current := Z.of_nat i |}].

Definition finalizations (evs : list Event) : list SubtaskRun :=
  flat_map (fun e => match e with EvFinalize r => [r] | _ => [] end) evs.

Definition upserts (evs : list StageEvent) : list DomainModel :=
  flat_map (fun e => match e with SMerge d => [d] | _ => [] end) evs.

Definition logged_errors (evs : list StageEvent) : list string :=
  flat_map (fun e => match e with SLogError m => [m] | _ => [] end) evs.

Definition convert_calls (evs : list StageEvent) : nat :=
  List.length (filter (fun e => match e with SConvertCall _ => true | _ => false end) evs).

Definition iterated (evs : list StageEvent) : list nat :=
  flat_map (fun e => match e with SIterate k => [k] | _ => [] end) evs.

Definition domain_models (l : list pyobj) : list DomainModel :=
  flat_map (fun o => match o with PDomain d => [d] | POther _ _ => [] end) l.

Definition other_objects (l : list pyobj) : list pyobj :=
  filter (fun o => match o with PDomain _ => false | POther _ _ => true end) l.

(** The rows [_get_last_state] chooses among. *)
Definition completed_runs (subtask : string) (conn_id : Z) (db : DB) : list SubtaskRun :=
  filter (fun r => (subtask_name r =? subtask)%string
                   && (connection_id r =? conn_id)
                   && is_some (completed r))
         (subtask_runs db).

(** The exception that stops [run] before its [try], and the one that
    leaves the [for] loop, if the run gets there. *)
Definition setup_exn {J : JsonLib} {W Data : Type} (self : Stage W Data)
           (ctx : Ctx) (now_start : datetime) (w : World W) : option exn :=
  match run_setup self ctx now_start w with
  | SetupRaise _ _ e => Some e
  | SetupOk _ _ _ _ => None
  end.

Definition loop_exn {J : JsonLib} {W Data : Type} (self : Stage W Data)
           (ctx : Ctx) (sync_point_interval : Z) (now_start : datetime)
           (w : World W) : option exn :=
  match run_setup self ctx now_start w with
  | SetupRaise _ _ _ => None
  | SetupOk _ subtask_run w' state =>
      lo_exn (loop_of self ctx sync_point_interval subtask_run w' state)
  end.

(** The world the loop of a run leaves, where the last four lines of [run]
    start, if the run gets there. *)
Definition loop_world {J : JsonLib} {W Data : Type} (self : Stage W Data)
           (ctx : Ctx) (sync_point_interval : Z) (now_start : datetime)
           (w : World W) : option (World W) :=
  match run_setup self ctx now_start w with
  | SetupRaise _ _ _ => None
  | SetupOk _ subtask_run w' state =>
      Some (lo_world (loop_of self ctx sync_point_interval subtask_run w' state))
  end.

(** Events of the loop body. *)
Definition loop_event (e : Event) : bool :=
  match e with
  | EvProcess _ | EvStage _ | EvCheckpoint _ _ _ | EvCheckpointFailed _ _
  | EvYield _ => true
  | _ => false
  end.

(** Events other than a call of [fetch] or of [delete]. *)
Definition quiet (e : Event) : Prop :=
  match e with
  | EvFetch _ | EvDelete => False
  | _ => True
  end.

(** The row [Collector.process] adds for a pair of the fetch sequence. *)
Definition raw_of {J : JsonLib} (ctx : Ctx) (it : json * json) : RawModel :=
  {| params := _params ctx; data := json_dumps (fst it) |}.

(** ** Sample collaborators, to run the definitions *)

Module Sample.

(** A source of [n] numbered items, each with the page reached as its
    state, whose iteration ends as [fin] says. *)
Definition pages (n : nat) (fin : option exn) : FetchSeq json :=
  {| items := map (fun i => (JDict [("number", JInt (Z.of_nat i))],
                             JDict [("page", JInt (Z.of_nat (S i)))]))
                  (seq 0 n);
     ending := fin |}.

Definition issue (title : string) : DomainModel :=
  {| domain_kind := "Issue"; domain_id := ""; domain_fields := JStr title |}.

(** A stream over collaborators whose state counts the runs of code of
    the stream: [convert] adds 1 when it is called; with [as_generator] it
    returns a generator whose body adds 10 when it runs. *)
Definition stream (n : nat) (fin : option exn) (as_generator : bool)
           (values : list pyobj) : Stream nat :=
  {| s_plugin_name := "gitlab";
     s_name := "issues";
     collect := fun _ _ _ => pages n fin;
     extract := fun v => Ok {| tool_key := PyJson.dumps v; tool_fields := v;
                               tool_origin := None |};
     convert := fun _ x =>
       if as_generator
       then (RetGenerator
               (fun y => {| gen_yields := map (fun o => (o, (y + 10)%nat)) values;
                            gen_ending := None;
                            gen_final := (y + 10)%nat |}), S x)
       else match values with
            | [o] => (RetObject o, S x)
            | _ => (RetIterable "<class 'list'>" "[...]" values, S x)
            end |}.

Definition generate_domain_id (t : ToolModel) (conn_id : Z) : string :=
  "gitlab:Issue:" ++ PyJson.str_of_Z conn_id ++ ":" ++ tool_key t.

Definition ctx (incr : bool) : Ctx :=
  {| ctx_connection_id := 1; scope_id := JStr "project-7"; incremental := incr |}.

Definition tool : ToolModel :=
  {| tool_key := "42"; tool_fields := JDict [("title", JStr "crash")];
     tool_origin := None |}.

Definition collector (n : nat) (fin : option exn) : Stage nat json :=
  Collector (J := PyJson.lib) (stream n fin false []).

(** A stage whose [delete] raises. *)
Definition broken_delete : Stage nat json :=
  {| verb := "collect";
     stream_plugin_name := "gitlab";
     stream_name := "issues";
     fetch := fetch (collector 3 None);
     process := process (collector 3 None);
     delete := fun w _ =>
       {| so_events := []; so_world := w;
          so_exn := Some (PyException "OperationalError" "database is locked") |} |}.

Definition finished_run (k : Z) (t : datetime) (page : Z) : SubtaskRun :=
  {| id := Some k;
     subtask_name := "collectGitlabIssues";
     connection_id := 1;
     started := t;
     completed := Some (t + 5);
     state := PyJson.dumps (JDict [("page", JInt page)]) |}.

(** Two completed runs of the same subtask and connection: the first
    started at 10 and reached page 1, the second at 20 and page 2. *)
Definition two_runs : DB :=
  set_subtask_runs empty_db [finished_run 1 10 1; finished_run 2 20 2].

Definition raw (scope : string) (n : Z) : RawModel :=
  {| params := _params (J := PyJson.lib)
                 {| ctx_connection_id := 1; scope_id := JStr scope;
                    incremental := false |};
     data := PyJson.dumps (JInt n) |}.

(** Three payloads of an earlier collection: two of the scope of [ctx],
    one of another scope. *)
Definition collected : DB :=
  set_raw_rows empty_db [raw "project-7" 1; raw "project-8" 2; raw "project-7" 3].
End Sample.

(** ** More observations on runs *)

(** The indices [process] was called for, in program order. *)
Definition processed (evs : list Event) : list nat :=
  flat_map (fun e => match e with EvProcess i => [i] | _ => [] end) evs.

(** The checkpoint writes: the index and the row written. *)
Definition checkpoints (evs : list Event) : list (nat * SubtaskRun) :=
  flat_map (fun e => match e with EvCheckpoint i r _ => [(i, r)] | _ => [] end) evs.

(** The same, each with the committed table of run records it left. *)
Definition committed_checkpoints (evs : list Event)
  : list (nat * SubtaskRun * list SubtaskRun) :=
  flat_map (fun e => match e with
                     | EvCheckpoint i r db => [(i, r, subtask_runs db)]
                     | _ => []
                     end) evs.

(** The checkpoint writes that raised. *)
Definition failed_checkpoints (evs : list Event) : list (nat * exn) :=
  flat_map (fun e => match e with EvCheckpointFailed i x => [(i, x)] | _ => [] end) evs.

(** What [logger.error(e)] of [run] received. *)
Definition logged (evs : list Event) : list exn :=
  flat_map (fun e => match e with EvLogError x => [x] | _ => [] end) evs.

(** The world a write of the run record leaves when [session.merge] and
    [session.commit] return: the row is merged, and what was pending is
    committed with it. *)
Definition written {W : Type} (r : SubtaskRun) (w : World W) : World W :=
  {| durable := merge_run r (pending w); pending := merge_run r (pending w);
     ext := ext w; tx := tx w |}.


(** A stage that leaves the table of run records to the run-loop. *)
Definition keeps_runs {W Data : Type} (self : Stage W Data) (ctx : Ctx) : Prop :=
  (forall d w, subtask_runs (pending (so_world (process self d w ctx)))
               = subtask_runs (pending w))
  /\ (forall w, subtask_runs (pending (so_world (delete self w ctx)))
                = subtask_runs (pending w))
  /\ (forall st w, subtask_runs (pending (snd (fetch self st w ctx)))
                   = subtask_runs (pending w)).

(** A stage that leaves [session.commit()] to the run-loop. *)
Definition never_commits {W Data : Type} (self : Stage W Data) (ctx : Ctx) : Prop :=
  (forall d w, durable (so_world (process self d w ctx)) = durable w)
  /\ (forall w, durable (so_world (delete self w ctx)) = durable w)
  /\ (forall st w, durable (snd (fetch self st w ctx)) = durable w).

(** The record a run starts with, as [_start_subtask] makes it and the
    database keys it. *)
Definition started_run {J : JsonLib} {W Data : Type} (self : Stage W Data)
           (ctx : Ctx) (now_start : datetime) (db : DB) : SubtaskRun :=
  {| id := Some (next_id (subtask_runs db));
     subtask_name := name self;
     connection_id := ctx_connection_id ctx;
     started := now_start;
     completed := None;
     state := json_dumps (JDict []) |}.

(** The last index among [i], ..., [i + n - 1] that the sync-point test
    selects, if there is one. *)
Definition last_sync (sync_point_interval : Z) (i n : nat) : option nat :=
  last (map Some (filter (at_sync_point sync_point_interval) (seq i n))) None.

(** ** SubstreamCollector *)

(** [yield from] one sequence after the other: a sequence that raises ends
    the whole, the ones after it are not started. *)
Fixpoint chain {Data : Type} (l : list (FetchSeq Data)) : FetchSeq Data :=
  match l with
  | [] => {| items := []; ending := None |}
  | s :: rest =>
      match ending s with
      | Some e => s
      | None => {| items := items s ++ items (chain rest);
                   ending := ending (chain rest) |}
      end
  end.

(** Modelled from the spec: a stream with a parent stream, an external
    collaborator. [parents] is the table of
    [self.stream.parent_stream.tool_model], read from the database;
    [collect_children] is [self.stream.collect(state, ctx, parent)]. *)
Record Substream (W : Type) : Type := {
  sub_stream : Stream W;
  parents : DB -> list ToolModel;
  collect_children : json -> Ctx -> ToolModel -> W -> FetchSeq json
}.

Section SubstreamCollector.
Context {J : JsonLib} {W : Type}.
Variable stream : Substream W.

(** [SubstreamCollector.fetch]; the query flushes first, and a flush that
    fails raises at the first [next()]. *)
Definition SubstreamCollector_fetch (state : json) (w : World W) (ctx : Ctx)
  : FetchSeq json * World W :=
  match flush w with
  | (w', Some e) => ({| items := []; ending := Some e |}, w')
  | (w', None) =>
      (chain (map (fun parent => collect_children stream state ctx parent (ext w'))
                  (parents stream (pending w'))), w')
  end.

(** [class SubstreamCollector(Collector)]: the other methods are the
    Collector's. *)
Definition SubstreamCollector : Stage W json :=
  {| verb := "collect";
     stream_plugin_name := s_plugin_name (sub_stream stream);
     stream_name := s_name (sub_stream stream);
     fetch := SubstreamCollector_fetch;
     process := Collector_process;
     delete := Collector_delete |}.
End SubstreamCollector.

(** A sample substream: the parents are the tool records of the database;
    the parent of key "bad" cannot be reached, every other parent has two
    children. *)
Module SampleSub.

Definition child (parent : ToolModel) (n : Z) : json * json :=
  (JDict [("parent", JStr (tool_key parent)); ("number", JInt n)],
   JDict [("parent", JStr (tool_key parent))]).

Definition stream : Substream nat :=
  {| sub_stream := Sample.stream 0 None false [];
     parents := tool_rows;
     collect_children := fun _ _ parent _ =>
       if (tool_key parent =? "bad")%string
       then {| items := [child parent 1];
               ending := Some (PyException "ConnectionError" "reset") |}
       else {| items := [child parent 1; child parent 2]; ending := None |} |}.

Definition parent (key : string) : ToolModel :=
  {| tool_key := key; tool_fields := JNull; tool_origin := None |}.

Definition db : DB :=
  set_tool_rows empty_db [parent "a"; parent "bad"; parent "c"].
End SampleSub.

(** ** Sessions the database refuses a write of *)

(** A [process] that returns and whose writes the database takes: called in
    a session whose transaction is usable, it raises nothing and leaves the
    transaction usable. *)
Definition process_succeeds {W Data : Type} (self : Stage W Data) (ctx : Ctx) : Prop :=
  forall d w, tx w = Usable ->
              so_exn (process self d w ctx) = None
              /\ tx (so_world (process self d w ctx)) = Usable.

Module SampleStrict.

Definition IntegrityError : exn :=
  PyException "IntegrityError" "NOT NULL constraint failed: issues.title".

Definition extractor : Stage nat RawModel :=
  Extractor (J := PyJson.lib) (Sample.stream 0 None false []).

(** A stage like the Extractor over a tool table with a constraint that
    the record of the payload 7 violates: [session.merge] queues the write
    as any other, and the next flush of the session is refused. *)
Definition strict : Stage nat RawModel :=
  {| verb := verb extractor;
     stream_plugin_name := stream_plugin_name extractor;
     stream_name := stream_name extractor;
     fetch := fetch extractor;
     process := fun raw w ctx =>
       let out := process extractor raw w ctx in
       match so_exn out with
       | Some _ => out
       | None =>
           if (data raw =? "7")%string
           then {| so_events := so_events out;
                   so_world := set_tx (so_world out) (Refused IntegrityError);
                   so_exn := None |}
           else out
       end;
     delete := delete extractor |}.

Definition payload (n : Z) : RawModel :=
  {| params := "p"; data := PyJson.dumps (JInt n) |}.

(** Raw tables whose second payload is the refused one: with a payload
    after it, and as the last. *)
Definition refused_then_more : DB :=
  set_raw_rows empty_db [payload 1; payload 7; payload 3].

Definition refused_last : DB :=
  set_raw_rows empty_db [payload 1; payload 7].
End SampleStrict.

(** * Properties *)

(** ** Lists and rows *)

Lemma last_cons_default {A : Type} (x d : A) (l : list A) :
  last (x :: l) d = last l x.
Proof.
  revert x d; induction l as [|y l IH]; intros x d; [reflexivity|].
  change (last (x :: y :: l) d) with (last (y :: l) d).
  rewrite (IH y d), (IH y x). reflexivity.
Qed.

Lemma in_upsert_run (r : SubtaskRun) (l : list SubtaskRun) :
  In r (upsert_run r l).
Proof.
  induction l as [|x l IH]; simpl; [now left|].
  destruct (opt_Z_eqb (id x) (id r)); simpl; auto.
Qed.

Lemma first_insert_by_started (a : SubtaskRun) (l : list SubtaskRun) :
  first (insert_by_started a l) =
  match first l with
  | None => Some a
  | Some x => if started a <=? started x then Some a else Some x
  end.
Proof.
  destruct l as [|x l]; simpl; [reflexivity|].
  destruct (started a <=? started x); reflexivity.
Qed.

(** [.order_by(started)] then [.first()] is a row of the least [started]. *)
Lemma first_order_by_started (l : list SubtaskRun) :
  match first (order_by_started l) with
  | None => l = []
  | Some r => In r l /\ forall r', In r' l -> started r <= started r'
  end.
Proof.
  induction l as [|a l IH]; simpl; [reflexivity|].
  rewrite first_insert_by_started.
  destruct (first (order_by_started l)) as [x|].
  - destruct IH as [Hin Hmin].
    destruct (Z.leb_spec (started a) (started x)).
    + split; [now left|]. intros r' [<-|Hr']; [lia|].
      specialize (Hmin _ Hr'); lia.
    + split; [now right|]. intros r' [<-|Hr']; [lia|]. now apply Hmin.
  - subst l. split; [now left|]. intros r' [<-|[]]; lia.
Qed.

(** ** The flush *)

Lemma flush_usable {W : Type} (w : World W) :
  tx w = Usable -> flush w = (w, None).
Proof. intros H. unfold flush. now rewrite H. Qed.

Lemma flush_fails {W : Type} (w : World W) (e : exn) :
  snd (flush w) = Some e ->
  tx w <> Usable
  /\ tx (fst (flush w)) = RolledBack
  /\ snd (flush (fst (flush w))) = Some PendingRollbackError
  /\ durable (fst (flush w)) = durable w
  /\ pending (fst (flush w)) = pending w
  /\ ext (fst (flush w)) = ext w.
Proof.
  unfold flush. destruct (tx w) eqn:E; simpl; [discriminate| |]; intros _.
  - repeat split; discriminate.
  - rewrite E. repeat split; discriminate.
Qed.

Lemma flush_succeeds {W : Type} (w : World W) :
  snd (flush w) = None -> tx w = Usable.
Proof. unfold flush. destruct (tx w); simpl; [reflexivity|discriminate..]. Qed.

Lemma flush_keeps {W : Type} (w : World W) :
  durable (fst (flush w)) = durable w
  /\ pending (fst (flush w)) = pending w
  /\ ext (fst (flush w)) = ext w.
Proof. unfold flush. destruct (tx w); simpl; auto. Qed.

Section LastState.
Context {J : JsonLib} {W Data : Type}.
Variable self : Stage W Data.

Lemma last_state_stmt_completed_runs (db : DB) (conn_id : Z) :
  last_state_stmt self db conn_id
  = order_by_started (completed_runs (name self) conn_id db).
Proof. reflexivity. Qed.

(** In a session whose flush succeeds, [_get_last_state] is the query. *)
Lemma get_last_state_usable (w : World W) (conn_id : Z) :
  tx w = Usable ->
  _get_last_state self w conn_id
  = match first (last_state_stmt self (pending w) conn_id) with
    | Some subtask_run => json_loads (state subtask_run)
    | None => Ok (JDict [])
    end.
Proof. intros H. unfold _get_last_state. now rewrite (flush_usable w H). Qed.

Lemma get_last_state_unusable (w : World W) (conn_id : Z) (e : exn) :
  snd (flush w) = Some e -> _get_last_state self w conn_id = Raise e.
Proof.
  unfold _get_last_state. destruct (flush w) as [w' [x|]]; simpl; [|discriminate].
  now intros [= ->].
Qed.

(** What [_get_last_state] returns: the decoded state of a completed run
    of the least start time, [{}] without completed runs. *)
Lemma get_last_state_least_started (w : World W) (conn_id : Z) :
  tx w = Usable ->
  (completed_runs (name self) conn_id (pending w) = []
   /\ _get_last_state self w conn_id = Ok (JDict []))
  \/ (exists r,
        In r (completed_runs (name self) conn_id (pending w))
        /\ (forall r', In r' (completed_runs (name self) conn_id (pending w)) ->
                       started r <= started r')
        /\ _get_last_state self w conn_id = json_loads (state r)).
Proof.
  intros Hu. rewrite (get_last_state_usable w conn_id Hu).
  rewrite last_state_stmt_completed_runs.
  pose proof (first_order_by_started
                (completed_runs (name self) conn_id (pending w))) as H.
  destruct (first (order_by_started _)) as [r|].
  - right. exists r. destruct H; auto.
  - left. auto.
Qed.

(** The run record [_start_subtask] adds is not a completed one: the
    query sees what it saw before. *)
Lemma get_last_state_after_start (w : World W) (conn_id : Z) (now : datetime) :
  _get_last_state self (fst (_start_subtask self w conn_id now)) conn_id
  = _get_last_state self w conn_id.
Proof.
  unfold _get_last_state, flush, last_state_stmt, _start_subtask, add_run; simpl.
  destruct (tx w); simpl; try reflexivity.
  rewrite filter_app; simpl.
  rewrite andb_false_r; simpl. rewrite app_nil_r. reflexivity.
Qed.
End LastState.

(** C1. [_get_last_state] on two completed runs of the subtask and the
    connection, started at 10 (state page 1) and at 20 (state page 2):
    both rows pass the filters, the second is the most recently started
    one, and the state of the first, the oldest, is returned. *)
Theorem get_last_state_returns_oldest_completed_run :
  let self := Sample.collector 0 None in
  let w := open_session Sample.two_runs 0%nat in
  let first_run := Sample.finished_run 1 10 1 in
  let second_run := Sample.finished_run 2 20 2 in
  completed_runs (name self) 1 (pending w) = [first_run; second_run]
  /\ started first_run < started second_run
  /\ PyJson.loads (state second_run) = Ok (JDict [("page", JInt 2)])
  /\ _get_last_state (J := PyJson.lib) self w 1 = Ok (JDict [("page", JInt 1)]).
Proof.
  cbv zeta. repeat split; vm_compute; reflexivity.
Qed.

(** ** The run-loop *)

Lemma sync_marks_app (a b : list Event) :
  sync_marks (a ++ b) = (sync_marks a ++ sync_marks b)%list.
Proof. apply flat_map_app. Qed.

Lemma sync_marks_stage (l : list StageEvent) : sync_marks (map EvStage l) = [].
Proof. induction l; simpl; auto. Qed.

Lemma finalizations_app (a b : list Event) :
  finalizations (a ++ b) = (finalizations a ++ finalizations b)%list.
Proof. apply flat_map_app. Qed.

Lemma finalizations_loop_events (l : list Event) :
  Forall (fun e => loop_event e = true) l -> finalizations l = [].
Proof.
  induction 1 as [|e l He _ IH]; [reflexivity|].
  destruct e; simpl in *; try discriminate; exact IH.
Qed.

Lemma Forall_loop_event_stage (l : list StageEvent) :
  Forall (fun e => loop_event e = true) (map EvStage l).
Proof. induction l; simpl; constructor; auto. Qed.


(** ** Writing the run record *)

Section Writes.
Context {J : JsonLib} {W : Type}.

(** A write of the run record returns exactly when the flush it starts
    with succeeds; it then leaves the row merged and committed. Otherwise
    it raises what the flush raises, and nothing is merged or committed. *)
Lemma checkpoint_spec (subtask_run : SubtaskRun) (st : json) (w : World W) :
  let r := with_state subtask_run (json_dumps st) in
  checkpoint subtask_run st w
  = match snd (flush w) with
    | None => (written r w, r, None)
    | Some e => (fst (flush w), r, Some e)
    end.
Proof.
  unfold checkpoint, merge_subtask_run, commit, flush, written.
  destruct (tx w) eqn:E; cbn; rewrite ?E; cbn; rewrite ?E; reflexivity.
Qed.

Lemma finalize_spec (subtask_run : SubtaskRun) (st : json) (now : datetime)
      (w : World W) :
  let r := with_completed (with_state subtask_run (json_dumps st)) (Some now) in
  finalize subtask_run st now w
  = match snd (flush w) with
    | None => (written r w, r, None)
    | Some e => (fst (flush w), r, Some e)
    end.
Proof.
  unfold finalize, merge_subtask_run, commit, flush, written.
  destruct (tx w) eqn:E; cbn; rewrite ?E; cbn; rewrite ?E; reflexivity.
Qed.

Lemma checkpoint_usable (subtask_run : SubtaskRun) (st : json) (w : World W) :
  tx w = Usable ->
  checkpoint subtask_run st w
  = (written (with_state subtask_run (json_dumps st)) w,
     with_state subtask_run (json_dumps st), None).
Proof. intros H. now rewrite checkpoint_spec, (flush_usable w H). Qed.

Lemma checkpoint_returns (subtask_run r : SubtaskRun) (st : json) (w w' : World W) :
  checkpoint subtask_run st w = (w', r, None) ->
  tx w = Usable /\ r = with_state subtask_run (json_dumps st) /\ w' = written r w.
Proof.
  rewrite checkpoint_spec. destruct (snd (flush w)) eqn:E; [discriminate|].
  intros [= <- <-]. split; [now apply flush_succeeds|]. split; reflexivity.
Qed.

Lemma checkpoint_raises (subtask_run r : SubtaskRun) (st : json) (w w' : World W)
      (e : exn) :
  checkpoint subtask_run st w = (w', r, Some e) ->
  snd (flush w) = Some e /\ w' = fst (flush w).
Proof.
  rewrite checkpoint_spec. destruct (snd (flush w)) eqn:E; [|discriminate].
  intros [= <- _ <-]. split; reflexivity.
Qed.

Lemma in_written (r : SubtaskRun) (w : World W) :
  In r (subtask_runs (durable (written r w))).
Proof. apply in_upsert_run. Qed.
End Writes.

Section RunProps.
Context {J : JsonLib} {W Data : Type}.
Variable self : Stage W Data.
Variable ctx : Ctx.
Variable sync_point_interval : Z.

Lemma prepend_events (evs : list Event) (o : LoopOut W) :
  lo_events (prepend evs o) = (evs ++ lo_events o)%list.
Proof. reflexivity. Qed.

Lemma prepend_exn (evs : list Event) (o : LoopOut W) :
  lo_exn (prepend evs o) = lo_exn o.
Proof. reflexivity. Qed.

Lemma prepend_state (evs : list Event) (o : LoopOut W) :
  lo_state (prepend evs o) = lo_state o.
Proof. reflexivity. Qed.

Lemma prepend_world (evs : list Event) (o : LoopOut W) :
  lo_world (prepend evs o) = lo_world o.
Proof. reflexivity. Qed.

Lemma loop_events_kind (subtask_run : SubtaskRun) (its : list (Data * json))
      (fin : option exn) :
  forall (i : nat) (w : World W) (state : json),
    Forall (fun e => loop_event e = true)
           (lo_events (loop self ctx sync_point_interval subtask_run its fin i w state)).
Proof.
  induction its as [|[d s'] rest IH]; intros i w state; simpl; [constructor|].
  destruct (so_exn (process self d w ctx)).
  - simpl. constructor; [reflexivity|apply Forall_loop_event_stage].
  - destruct (sync_point_interval =? 0).
    + simpl. constructor; [reflexivity|apply Forall_loop_event_stage].
    + destruct (at_sync_point sync_point_interval i); simpl.
      * destruct (checkpoint subtask_run s' (so_world (process self d w ctx)))
          as [[w' r] [e|]]; simpl.
        -- constructor; [reflexivity|]. apply Forall_app. split.
           { apply Forall_loop_event_stage. }
           repeat constructor.
        -- constructor; [reflexivity|].
           rewrite <- app_assoc. apply Forall_app. split.
           { apply Forall_loop_event_stage. }
           simpl. repeat constructor. apply IH.
      * constructor; [reflexivity|].
        apply Forall_app. split; [apply Forall_loop_event_stage|apply IH].
Qed.

Lemma committed_checkpoints_app (a b : list Event) :
  committed_checkpoints (a ++ b)
  = (committed_checkpoints a ++ committed_checkpoints b)%list.
Proof. apply flat_map_app. Qed.

Lemma failed_checkpoints_app (a b : list Event) :
  failed_checkpoints (a ++ b) = (failed_checkpoints a ++ failed_checkpoints b)%list.
Proof. apply flat_map_app. Qed.


Lemma failed_checkpoints_call (j : nat) (l : list StageEvent) :
  failed_checkpoints (EvProcess j :: map EvStage l) = [].
Proof. simpl. induction l; simpl; auto. Qed.


(** A checkpoint write that raises ends the loop with its exception, and
    leaves a transaction that is rolled back: the next statement of the
    session raises [PendingRollbackError]. *)
Lemma loop_failed_checkpoint (subtask_run : SubtaskRun) (its : list (Data * json))
      (fin : option exn) :
  forall (i : nat) (w : World W) (state : json) (k : nat) (e : exn),
    let o := loop self ctx sync_point_interval subtask_run its fin i w state in
    In (k, e) (failed_checkpoints (lo_events o)) ->
    lo_exn o = Some e
    /\ snd (flush (lo_world o)) = Some PendingRollbackError.
Proof.
  induction its as [|[d s'] rest IH]; intros i w state k e; cbn [loop];
    [intros []|].
  destruct (so_exn (process self d w ctx)).
  - cbn [lo_events]. rewrite failed_checkpoints_call. intros [].
  - destruct (sync_point_interval =? 0).
    + cbn [lo_events]. rewrite failed_checkpoints_call. intros [].
    + destruct (at_sync_point sync_point_interval i).
      * destruct (checkpoint subtask_run s' (so_world (process self d w ctx)))
          as [[w' r] [e'|]] eqn:Ec.
        -- cbn [lo_events lo_exn lo_world].
           rewrite failed_checkpoints_app, failed_checkpoints_call.
           cbn [app failed_checkpoints flat_map].
           intros [[= <- <-]|[]].
           apply checkpoint_raises in Ec. destruct Ec as [Hf ->].
           split; [reflexivity|]. now apply (flush_fails _ Hf).
        -- rewrite prepend_events, prepend_exn, prepend_world.
           rewrite !failed_checkpoints_app, failed_checkpoints_call.
           cbn [app failed_checkpoints flat_map]. apply IH.
      * rewrite prepend_events, prepend_exn, prepend_world.
        rewrite failed_checkpoints_app, failed_checkpoints_call.
        apply IH.
Qed.

Hypothesis process_ok : process_succeeds self ctx.
Hypothesis interval_not_zero : sync_point_interval <> 0.

(** With a [process] that returns and whose writes the database takes, and
    an interval other than 0, the loop goes through the whole sequence: it
    ends as the sequence does, with the state of the last pair, in a usable
    session, and has a sync point at every index the test selects. *)
Lemma loop_through (subtask_run : SubtaskRun) (its : list (Data * json))
      (fin : option exn) :
  forall (i : nat) (w : World W) (state : json),
    tx w = Usable ->
    let o := loop self ctx sync_point_interval subtask_run its fin i w state in
    lo_exn o = fin
    /\ lo_state o = last (map snd its) state
    /\ sync_marks (lo_events o)
       = flat_map (sync_point sync_point_interval)
                  (filter (at_sync_point sync_point_interval)
                          (seq i (List.length its)))
    /\ tx (lo_world o) = Usable.
Proof.
  induction its as [|[d s'] rest IH]; intros i w state Hu; [simpl; auto|].
  cbn [loop map snd List.length seq filter].
  destruct (process_ok d w Hu) as [Hp Hu'].
  rewrite last_cons_default, Hp.
  destruct (Z.eqb_spec sync_point_interval 0) as [E|_]; [contradiction|].
  destruct (at_sync_point sync_point_interval i).
  - rewrite (checkpoint_usable subtask_run s' _ Hu').
    destruct (IH (S i)
                 (written (with_state subtask_run (json_dumps s'))
                          (so_world (process self d w ctx)))
                 s' Hu') as (E1 & E2 & E3 & E4).
    rewrite prepend_exn, prepend_state, prepend_events, prepend_world.
    repeat split; auto.
    rewrite !sync_marks_app, E3.
    change (EvProcess i :: map EvStage (so_events (process self d w ctx)))
      with ([EvProcess i] ++ map EvStage (so_events (process self d w ctx)))%list.
    rewrite sync_marks_app, sync_marks_stage. reflexivity.
  - destruct (IH (S i) (so_world (process self d w ctx)) s' Hu') as (E1 & E2 & E3 & E4).
    rewrite prepend_exn, prepend_state, prepend_events, prepend_world.
    repeat split; auto.
    change (EvProcess i :: map EvStage (so_events (process self d w ctx)))
      with ([EvProcess i] ++ map EvStage (so_events (process self d w ctx)))%list.
    rewrite !sync_marks_app, sync_marks_stage. exact E3.
Qed.
End RunProps.

Lemma processed_app (a b : list Event) :
  processed (a ++ b) = (processed a ++ processed b)%list.
Proof. apply flat_map_app. Qed.

Lemma processed_stage (l : list StageEvent) : processed (map EvStage l) = [].
Proof. induction l; simpl; auto. Qed.

Lemma processed_call (i : nat) (l : list StageEvent) (rest : list Event) :
  processed ((EvProcess i :: map EvStage l) ++ rest) = i :: processed rest.
Proof.
  rewrite processed_app.
  change (processed (EvProcess i :: map EvStage l))
    with (i :: processed (map EvStage l)).
  now rewrite processed_stage.
Qed.

Lemma logged_app (a b : list Event) :
  logged (a ++ b) = (logged a ++ logged b)%list.
Proof. apply flat_map_app. Qed.

Lemma checkpoints_app (a b : list Event) :
  checkpoints (a ++ b) = (checkpoints a ++ checkpoints b)%list.
Proof. apply flat_map_app. Qed.


Lemma logged_loop_events (l : list Event) :
  Forall (fun e => loop_event e = true) l -> logged l = [].
Proof.
  induction 1 as [|e l He _ IH]; [reflexivity|].
  destruct e; simpl in *; try discriminate; exact IH.
Qed.




Section Checkpoints.
Context {J : JsonLib} {W Data : Type}.
Variable self : Stage W Data.
Variable ctx : Ctx.
Variable sync_point_interval : Z.


(** As long as no sync point is reached, a stage that does not commit
    leaves the committed database as it is. *)
Lemma loop_no_sync_durable (subtask_run : SubtaskRun) (its : list (Data * json))
      (fin : option exn) :
  (forall d w, durable (so_world (process self d w ctx)) = durable w) ->
  forall (i : nat) (w : World W) (st : json),
    sync_marks (lo_events (loop self ctx sync_point_interval subtask_run
                                its fin i w st)) = [] ->
    durable (lo_world (loop self ctx sync_point_interval subtask_run
                            its fin i w st)) = durable w.
Proof.
  intros Hdur.
  induction its as [|[d s'] rest IH]; intros i w st; [reflexivity|].
  cbn [loop].
  destruct (so_exn (process self d w ctx)); [intros _; apply Hdur|].
  destruct (sync_point_interval =? 0); [intros _; apply Hdur|].
  destruct (at_sync_point sync_point_interval i).
  - destruct (checkpoint subtask_run s' (so_world (process self d w ctx)))
      as [[w' r] [e|]] eqn:Ec.
    + intros _. cbn [lo_world]. apply checkpoint_raises in Ec.
      destruct Ec as [_ ->]. rewrite (proj1 (flush_keeps _)). apply Hdur.
    + rewrite prepend_events, sync_marks_app. intros Hm.
      apply app_eq_nil in Hm. destruct Hm as [Hm _].
      rewrite sync_marks_app in Hm. apply app_eq_nil in Hm.
      destruct Hm as [_ Hm]. discriminate Hm.
  - rewrite prepend_events, prepend_world, sync_marks_app. intros Hm.
    apply app_eq_nil in Hm. destruct Hm as [_ Hm].
    rewrite (IH _ _ _ Hm). apply Hdur.
Qed.
End Checkpoints.

Lemma close_flush {W : Type} (w : World W) : close (fst (flush w)) = close w.
Proof. unfold close, flush. destruct (tx w); reflexivity. Qed.

Section RunResults.
Context {J : JsonLib} {W Data : Type}.
Variable self : Stage W Data.
Variable ctx : Ctx.
Variable sync_point_interval : Z.
Variables now_start now_end : datetime.

Lemma finalizations_stage (l : list StageEvent) :
  finalizations (map EvStage l) = [].
Proof. induction l; simpl; auto. Qed.

(** The events before the [try] are the start, the delete and what the
    stage's [delete] does. *)
Lemma run_setup_events (w : World W) :
  match run_setup self ctx now_start w with
  | SetupOk evs _ _ _ | SetupRaise evs _ _ =>
      sync_marks evs = [] /\ finalizations evs = []
      /\ forall st, ~ In (EvFetch st) evs
  end.
Proof.
  unfold run_setup.
  destruct (_start_subtask self w (ctx_connection_id ctx) now_start) as [w1 r].
  destruct (incremental ctx).
  - destruct (_get_last_state self w1 (ctx_connection_id ctx));
      (repeat split; [intros st [H|[]]; discriminate]).
  - assert (forall st l, ~ In (EvFetch st) (map EvStage l)) as Hnf.
    { intros st l; induction l as [|a l IH]; simpl; [tauto|].
      intros [H|H]; [discriminate|auto]. }
    destruct (so_exn (delete self w1 ctx)); simpl;
      rewrite sync_marks_stage, finalizations_stage;
      (repeat split; intros st [H|[H|H]]; [discriminate..|eapply Hnf; eauto]).
Qed.

Lemma run_setup_quiet (w : World W) :
  match run_setup self ctx now_start w with
  | SetupOk evs _ _ _ | SetupRaise evs _ _ =>
      processed evs = [] /\ logged evs = [] /\ checkpoints evs = []
      /\ committed_checkpoints evs = [] /\ failed_checkpoints evs = []
  end.
Proof.
  assert (forall l, processed (map EvStage l) = []
                    /\ logged (map EvStage l) = []
                    /\ checkpoints (map EvStage l) = []
                    /\ committed_checkpoints (map EvStage l) = []
                    /\ failed_checkpoints (map EvStage l) = []) as Hst.
  { induction l; simpl; auto. }
  unfold run_setup.
  destruct (_start_subtask self w (ctx_connection_id ctx) now_start) as [w1 r].
  destruct (incremental ctx).
  - destruct (_get_last_state self w1 (ctx_connection_id ctx)); repeat split.
  - destruct (so_exn (delete self w1 ctx)); simpl; apply Hst.
Qed.

Lemma run_after_setup (w w' : World W) (evs : list Event)
      (subtask_run : SubtaskRun) (state : json) :
  run_setup self ctx now_start w = SetupOk evs subtask_run w' state ->
  run self ctx sync_point_interval now_start now_end w
  = let r := run_from self ctx sync_point_interval now_end subtask_run w' state in
    {| events := evs ++ events r; final := final r; raised := raised r |}.
Proof. intros H. unfold run. rewrite H. reflexivity. Qed.

Lemma run_setup_raise (w w' : World W) (evs : list Event) (e : exn) :
  run_setup self ctx now_start w = SetupRaise evs w' e ->
  run self ctx sync_point_interval now_start now_end w
  = {| events := evs; final := close w'; raised := Some e |}.
Proof. intros H. unfold run. rewrite H. reflexivity. Qed.

(** [run], from the [try] on, by the way the loop ends and by the flush
    the finalization starts with. *)
Lemma run_from_cases (subtask_run : SubtaskRun) (w : World W) (state : json) :
  let o := loop_of self ctx sync_point_interval subtask_run w state in
  let row := with_completed (with_state subtask_run (json_dumps (lo_state o)))
                            (Some now_end) in
  let finish (l : list Event) :=
    match snd (flush (lo_world o)) with
    | None =>
        {| events := EvFetch state :: lo_events o ++ l ++ [EvFinalize row];
           final := written row (lo_world o); raised := None |}
    | Some e' =>
        {| events := EvFetch state :: lo_events o ++ l;
           final := close (lo_world o); raised := Some e' |}
    end in
  run_from self ctx sync_point_interval now_end subtask_run w state
  = match lo_exn o with
    | None => finish []
    | Some e =>
        if is_Exception e then finish [EvLogError e]
        else {| events := EvFetch state :: lo_events o;
                final := close (lo_world o); raised := Some e |}
    end.
Proof.
  intros o row finish. subst finish. unfold run_from. fold o.
  rewrite finalize_spec. fold row.
  destruct (snd (flush (lo_world o))); rewrite ?close_flush; reflexivity.
Qed.

Lemma loop_of_events_kind (subtask_run : SubtaskRun) (w : World W) (state : json) :
  Forall (fun e => loop_event e = true)
         (lo_events (loop_of self ctx sync_point_interval subtask_run w state)).
Proof. apply loop_events_kind. Qed.

Lemma run_from_sync_marks (subtask_run : SubtaskRun) (w : World W) (state : json) :
  sync_marks (events (run_from self ctx sync_point_interval now_end
                               subtask_run w state))
  = sync_marks (lo_events (loop_of self ctx sync_point_interval subtask_run w state)).
Proof.
  rewrite run_from_cases. cbv zeta.
  destruct (lo_exn _) as [e|]; [destruct (is_Exception e)|];
    try destruct (snd (flush _));
    cbn [events];
    change (sync_marks (EvFetch state :: ?l)) with (sync_marks l);
    rewrite ?sync_marks_app; simpl; rewrite ?app_nil_r; reflexivity.
Qed.

(** What a run shows of its loop, whatever the finalization does. *)
Lemma run_from_observed (subtask_run : SubtaskRun) (w : World W) (st : json) :
  let o := loop_of self ctx sync_point_interval subtask_run w st in
  let r := run_from self ctx sync_point_interval now_end subtask_run w st in
  processed (events r) = processed (lo_events o)
  /\ checkpoints (events r) = checkpoints (lo_events o)
  /\ committed_checkpoints (events r) = committed_checkpoints (lo_events o)
  /\ failed_checkpoints (events r) = failed_checkpoints (lo_events o)
  /\ logged (events r) = match lo_exn o with
                         | Some e => if is_Exception e then [e] else []
                         | None => []
                         end.
Proof.
  intros o r. subst r. rewrite run_from_cases. cbv zeta. fold o.
  pose proof (loop_of_events_kind subtask_run w st) as Hk.
  fold o in Hk. apply logged_loop_events in Hk.
  destruct (lo_exn o) as [e|]; [destruct (is_Exception e)|];
    try destruct (snd (flush (lo_world o)));
    cbn [events];
    change (processed (EvFetch st :: ?l)) with (processed l);
    change (checkpoints (EvFetch st :: ?l)) with (checkpoints l);
    change (committed_checkpoints (EvFetch st :: ?l)) with (committed_checkpoints l);
    change (failed_checkpoints (EvFetch st :: ?l)) with (failed_checkpoints l);
    change (logged (EvFetch st :: ?l)) with (logged l);
    rewrite ?processed_app, ?checkpoints_app, ?committed_checkpoints_app,
            ?failed_checkpoints_app, ?logged_app, ?Hk;
    simpl; rewrite ?app_nil_r; auto.
Qed.

(** An exception of class [Exception] that leaves the loop, or none, in a
    session that can still be flushed: the error is logged, the run record
    is written with the state the loop ended with and the completion time,
    and committed. *)
Lemma run_from_caught (subtask_run : SubtaskRun) (w : World W) (state : json) :
  let o := loop_of self ctx sync_point_interval subtask_run w state in
  let r := run_from self ctx sync_point_interval now_end subtask_run w state in
  let row := with_completed (with_state subtask_run (json_dumps (lo_state o)))
                            (Some now_end) in
  (forall e, lo_exn o = Some e -> is_Exception e = true) ->
  snd (flush (lo_world o)) = None ->
  raised r = None
  /\ finalizations (events r) = [row]
  /\ final r = written row (lo_world o)
  /\ In row (subtask_runs (durable (final r)))
  /\ (forall e, lo_exn o = Some e -> In (EvLogError e) (events r)).
Proof.
  intros o r row Hexc Hf. subst r. rewrite run_from_cases. cbv zeta.
  fold o. fold row. rewrite Hf.
  pose proof (loop_of_events_kind subtask_run w state) as Hk.
  fold o in Hk. apply finalizations_loop_events in Hk.
  destruct (lo_exn o) as [e|] eqn:E.
  - rewrite (Hexc e eq_refl). cbn [events final raised].
    split; [reflexivity|]. split; [|split; [reflexivity|split]].
    + change (finalizations (EvFetch state :: ?l)) with (finalizations l).
      rewrite !finalizations_app, Hk. reflexivity.
    + apply in_written.
    + intros e' [= <-]. right. apply in_or_app. right. now left.
  - cbn [events final raised].
    split; [reflexivity|]. split; [|split; [reflexivity|split]].
    + change (finalizations (EvFetch state :: ?l)) with (finalizations l).
      rewrite !finalizations_app, Hk. reflexivity.
    + apply in_written.
    + intros e' [=].
Qed.

(** The same, in a session that cannot be flushed any more: the
    finalization raises what the flush raises, to the caller; no run record
    is finalized, and nothing is committed. *)
Lemma run_from_refused (subtask_run : SubtaskRun) (w : World W) (state : json)
      (e' : exn) :
  let o := loop_of self ctx sync_point_interval subtask_run w state in
  let r := run_from self ctx sync_point_interval now_end subtask_run w state in
  (forall e, lo_exn o = Some e -> is_Exception e = true) ->
  snd (flush (lo_world o)) = Some e' ->
  raised r = Some e'
  /\ finalizations (events r) = []
  /\ final r = close (lo_world o).
Proof.
  intros o r Hexc Hf. subst r. rewrite run_from_cases. cbv zeta.
  fold o. rewrite Hf.
  pose proof (loop_of_events_kind subtask_run w state) as Hk.
  fold o in Hk. apply finalizations_loop_events in Hk.
  destruct (lo_exn o) as [e|] eqn:E.
  - rewrite (Hexc e eq_refl). cbn [events final raised].
    split; [reflexivity|]. split; [|reflexivity].
    change (finalizations (EvFetch state :: ?l)) with (finalizations l).
    rewrite !finalizations_app, Hk. reflexivity.
  - cbn [events final raised].
    split; [reflexivity|]. split; [|reflexivity].
    change (finalizations (EvFetch state :: ?l)) with (finalizations l).
    rewrite !finalizations_app, Hk. reflexivity.
Qed.

(** Any other exception leaves [run]: nothing is logged or finalized. *)
Lemma run_from_uncaught (subtask_run : SubtaskRun) (w : World W) (state : json)
      (e : exn) :
  let o := loop_of self ctx sync_point_interval subtask_run w state in
  lo_exn o = Some e ->
  is_Exception e = false ->
  let r := run_from self ctx sync_point_interval now_end subtask_run w state in
  raised r = Some e /\ finalizations (events r) = []
  /\ final r = close (lo_world o).
Proof.
  intros o E He r. subst r. rewrite run_from_cases. cbv zeta. fold o.
  rewrite E, He. cbn [events raised final].
  split; [reflexivity|]. split; [|reflexivity].
  change (finalizations (EvFetch state :: ?l)) with (finalizations l).
  apply finalizations_loop_events, loop_of_events_kind.
Qed.

(** A run that returns has caught what left its loop, and its finalization
    found a session it could flush. *)
Lemma raised_none_caught (subtask_run : SubtaskRun) (w : World W) (st : json) :
  let o := loop_of self ctx sync_point_interval subtask_run w st in
  raised (run_from self ctx sync_point_interval now_end subtask_run w st) = None ->
  (forall e, lo_exn o = Some e -> is_Exception e = true)
  /\ snd (flush (lo_world o)) = None.
Proof.
  intros o. rewrite run_from_cases. cbv zeta. fold o.
  destruct (lo_exn o) as [e|]; [destruct (is_Exception e) eqn:E|];
    destruct (snd (flush (lo_world o))); cbn [raised]; try discriminate;
    intros _; (split; [|reflexivity]).
  - now intros e' [= <-].
  - intros e' [=].
Qed.
End RunResults.




(** C3. When the fetch sequence raises an exception (an instance of
    [Exception]) after it has yielded its pairs, each of them processed by
    a [process] that returns and whose writes the database takes, the run
    does not raise: it logs the exception and finalizes the run record,
    which is committed with the completion time set and the state yielded
    with the last pair (the initial state if no pair was yielded). *)
Theorem run_finalizes_after_fetch_error {J : JsonLib} {W Data : Type}
        (self : Stage W Data) (ctx : Ctx) (sync_point_interval : Z)
        (now_start now_end : datetime) (w w' : World W) (evs : list Event)
        (subtask_run : SubtaskRun) (state : json) (e : exn) :
  sync_point_interval <> 0 ->
  process_succeeds self ctx ->
  run_setup self ctx now_start w = SetupOk evs subtask_run w' state ->
  tx (snd (fetch self state w' ctx)) = Usable ->
  ending (fst (fetch self state w' ctx)) = Some e ->
  is_Exception e = true ->
  let r := run self ctx sync_point_interval now_start now_end w in
  let last_state := last (map snd (items (fst (fetch self state w' ctx)))) state in
  let row := with_completed (with_state subtask_run (json_dumps last_state))
                            (Some now_end) in
  raised r = None
  /\ finalizations (events r) = [row]
  /\ In row (subtask_runs (durable (final r)))
  /\ completed row = Some now_end
  /\ In (EvLogError e) (events r).
Proof.
  intros Hint Hproc Hsetup Hu Hend He r last_state row.
  subst r. rewrite (run_after_setup _ _ _ _ _ _ Hsetup).
  cbn [events final raised].
  destruct (@loop_through J W Data self ctx sync_point_interval Hproc Hint
              subtask_run (items (fst (fetch self state w' ctx)))
              (ending (fst (fetch self state w' ctx)))
              0%nat (snd (fetch self state w' ctx)) state Hu)
    as (Hexn & Hstate & _ & Hu').
  destruct (run_from_caught self ctx sync_point_interval now_end subtask_run w' state)
    as (Hr & Hf & _ & Hin & Hlog).
  { intros e'. unfold loop_of. rewrite Hexn, Hend. now intros [= <-]. }
  { unfold loop_of. now rewrite (flush_usable _ Hu'). }
  unfold loop_of in Hf, Hin, Hlog. rewrite Hstate in Hf, Hin.
  pose proof (run_setup_events self ctx now_start w) as Hs.
  rewrite Hsetup in Hs. destruct Hs as (_ & Hnf & _).
  repeat split.
  - exact Hr.
  - rewrite finalizations_app, Hnf. exact Hf.
  - exact Hin.
  - apply in_or_app. right. apply Hlog. rewrite Hexn. exact Hend.
Qed.

Lemma run_finalizes_after_fetch_error_witness :
  let r := run (J := PyJson.lib)
               (Sample.collector 3 (Some (PyException "ConnectionError" "reset")))
               (Sample.ctx false) 100 50 60 (open_session empty_db 0%nat) in
  let row := {| id := Some 1; subtask_name := "collectGitlabIssues";
                connection_id := 1; started := 50; completed := Some 60;
                state := PyJson.dumps (JDict [("page", JInt 3)]) |} in
  raised r = None
  /\ finalizations (events r) = [row]
  /\ In row (subtask_runs (durable (final r)))
  /\ completed row = Some 60
  /\ In (EvLogError (PyException "ConnectionError" "reset")) (events r).
Proof.
  refine (@run_finalizes_after_fetch_error PyJson.lib _ _
            (Sample.collector 3 (Some (PyException "ConnectionError" "reset")))
            (Sample.ctx false) 100 50 60
            (open_session empty_db 0%nat)
            (set_pending (open_session empty_db 0%nat)
               (set_subtask_runs empty_db
                  [{| id := Some 1; subtask_name := "collectGitlabIssues";
                      connection_id := 1; started := 50;
                      completed := None; state := "{}" |}]))
            [EvStart {| id := Some 1; subtask_name := "collectGitlabIssues";
                        connection_id := 1; started := 50;
                        completed := None; state := "{}" |}; EvDelete]
            {| id := Some 1; subtask_name := "collectGitlabIssues";
               connection_id := 1; started := 50;
               completed := None; state := "{}" |}
            (JDict []) _ _ _ _ _ _ _).
  - discriminate.
  - intros d v Hv. split; [reflexivity|exact Hv].
  - vm_compute. reflexivity.
  - reflexivity.
  - reflexivity.
  - reflexivity.
Defined.

(** C4, as stated, fails: a stage whose [delete] raises makes a full-refresh
    run raise to its caller; no run record is finalized, none is stored. *)
Lemma run_raises_when_delete_raises :
  let r := run (J := PyJson.lib) Sample.broken_delete (Sample.ctx false)
               100 50 60 (open_session Sample.collected 0%nat) in
  raised r = Some (PyException "OperationalError" "database is locked")
  /\ finalizations (events r) = []
  /\ subtask_runs (durable (final r)) = [].
Proof. vm_compute. repeat split. Qed.

(** The finalization is not covered either. A write the database refuses,
    queued by the last [process], is met by the flush of the finalization,
    which raises to the caller; and when it is met earlier, by the flush of
    a later [process], that exception is caught and logged, and the
    finalization then raises [PendingRollbackError]. No run record is
    stored in either case. *)
Lemma run_raises_when_finalization_is_refused :
  (let r := run (J := PyJson.lib) SampleStrict.strict (Sample.ctx false)
                100 50 60 (open_session SampleStrict.refused_last 0%nat) in
   raised r = Some SampleStrict.IntegrityError
   /\ logged (events r) = []
   /\ finalizations (events r) = []
   /\ subtask_runs (durable (final r)) = [])
  /\ (let r := run (J := PyJson.lib) SampleStrict.strict (Sample.ctx false)
                   100 50 60 (open_session SampleStrict.refused_then_more 0%nat) in
      raised r = Some PendingRollbackError
      /\ logged (events r) = [SampleStrict.IntegrityError]
      /\ finalizations (events r) = []
      /\ subtask_runs (durable (final r)) = []).
Proof. vm_compute. repeat split. Qed.

(** C4, amended. The [try] covers the loop only. An exception raised
    before the loop (loading the last state, [delete]) reaches the caller:
    nothing is logged, no run record is finalized. An exception that leaves
    the loop (raised by the fetch sequence, by [process], by the sync-point
    test or by a checkpoint write) is caught and logged when it is an
    instance of [Exception], and reaches the caller otherwise. After the
    loop, unless such an exception has reached the caller, the last four
    lines run outside the [try]: when the session can be flushed the run
    record is finalized and committed and the run does not raise; when it
    cannot (a queued write is refused, or a failed flush has rolled the
    transaction back) the finalization raises what the flush raises to the
    caller, no run record is finalized and nothing is committed. A
    checkpoint write that raises an [Exception] is such a failed flush: it is
    logged, and the run then raises [PendingRollbackError]. *)
Theorem run_catches_loop_exceptions {J : JsonLib} {W Data : Type}
        (self : Stage W Data) (ctx : Ctx) (sync_point_interval : Z)
        (now_start now_end : datetime) (w : World W) :
  let r := run self ctx sync_point_interval now_start now_end w in
  let left := loop_exn self ctx sync_point_interval now_start w in
  let finalization (v : World W) :=
    match snd (flush v) with
    | None =>
        raised r = None
        /\ exists row, finalizations (events r) = [row]
                       /\ completed row = Some now_end
                       /\ In row (subtask_runs (durable (final r)))
    | Some e' =>
        raised r = Some e'
        /\ finalizations (events r) = []
        /\ durable (final r) = durable v
    end in
  (forall e, setup_exn self ctx now_start w = Some e ->
             raised r = Some e
             /\ logged (events r) = []
             /\ finalizations (events r) = [])
  /\ (forall v, loop_world self ctx sync_point_interval now_start w = Some v ->
                match left with
                | None => logged (events r) = [] /\ finalization v
                | Some e =>
                    if is_Exception e
                    then logged (events r) = [e] /\ finalization v
                    else raised r = Some e
                         /\ logged (events r) = []
                         /\ finalizations (events r) = []
                end)
  /\ (forall i e, In (i, e) (failed_checkpoints (events r)) ->
                  left = Some e
                  /\ (is_Exception e = true ->
                      logged (events r) = [e]
                      /\ raised r = Some PendingRollbackError
                      /\ finalizations (events r) = [])).
Proof.
  intros r left finalization. subst r left finalization.
  unfold setup_exn, loop_exn, loop_world.
  pose proof (run_setup_events self ctx now_start w) as Hs.
  pose proof (run_setup_quiet self ctx now_start w) as Hq.
  destruct (run_setup self ctx now_start w) as [evs sr w' st|evs w' e0] eqn:Hsetup;
    destruct Hs as (_ & Hnf & _); destruct Hq as (_ & Hl & _ & _ & Hfc).
  - rewrite (run_after_setup _ _ _ _ _ _ Hsetup). cbn [events final raised].
    destruct (run_from_observed self ctx sync_point_interval now_end sr w' st)
      as (_ & _ & _ & Ofc & Ol).
    set (o := loop_of self ctx sync_point_interval sr w' st) in *.
    assert (forall e', (forall e, lo_exn o = Some e -> is_Exception e = true) ->
                       snd (flush (lo_world o)) = Some e' ->
                       raised (run_from self ctx sync_point_interval now_end sr w' st)
                       = Some e'
                       /\ finalizations
                            (evs ++ events (run_from self ctx sync_point_interval
                                                     now_end sr w' st)) = []
                       /\ durable (final (run_from self ctx sync_point_interval
                                                   now_end sr w' st))
                          = durable (lo_world o)) as Hrefused.
    { intros e' Hexc Hf.
      destruct (run_from_refused self ctx sync_point_interval now_end sr w' st
                                 Hexc Hf) as (Hr & Hfin & Hw).
      rewrite finalizations_app, Hnf, Hfin, Hw. auto. }
    assert ((forall e, lo_exn o = Some e -> is_Exception e = true) ->
            match snd (flush (lo_world o)) with
            | None =>
                raised (run_from self ctx sync_point_interval now_end sr w' st) = None
                /\ exists row,
                     finalizations
                       (evs ++ events (run_from self ctx sync_point_interval
                                                now_end sr w' st)) = [row]
                     /\ completed row = Some now_end
                     /\ In row (subtask_runs
                                  (durable (final (run_from self ctx sync_point_interval
                                                            now_end sr w' st))))
            | Some e' =>
                raised (run_from self ctx sync_point_interval now_end sr w' st)
                = Some e'
                /\ finalizations
                     (evs ++ events (run_from self ctx sync_point_interval
                                              now_end sr w' st)) = []
                /\ durable (final (run_from self ctx sync_point_interval
                                            now_end sr w' st))
                   = durable (lo_world o)
            end) as Hfinal.
    { intros Hexc. destruct (snd (flush (lo_world o))) as [e'|] eqn:Hf.
      - now apply Hrefused.
      - destruct (run_from_caught self ctx sync_point_interval now_end sr w' st
                                  Hexc Hf) as (Hr & Hfin & _ & Hin & _).
        split; [exact Hr|]. eexists.
        rewrite finalizations_app, Hnf. split; [exact Hfin|].
        split; [reflexivity|exact Hin]. }
    split; [intros e [=]|]. split.
    + intros v [= <-]. rewrite logged_app, Hl, Ol. cbn [app].
      destruct (lo_exn o) as [e|] eqn:E.
      * destruct (is_Exception e) eqn:He.
        -- split; [reflexivity|]. apply Hfinal. now intros e' [= <-].
        -- destruct (run_from_uncaught self ctx sync_point_interval now_end
                                       sr w' st E He) as (Hr & Hfin & _).
           rewrite finalizations_app, Hnf, Hfin. auto.
      * split; [reflexivity|]. apply Hfinal. intros e' [=].
    + intros i e Hin. rewrite failed_checkpoints_app, Hfc, Ofc in Hin.
      cbn [app] in Hin.
      destruct (loop_failed_checkpoint self ctx sync_point_interval sr _ _ _ _ _ _ _ Hin)
        as [Hexn Hflush].
      fold (loop_of self ctx sync_point_interval sr w' st) in Hexn, Hflush.
      fold o in Hexn, Hflush.
      split; [exact Hexn|]. intros He.
      rewrite logged_app, Hl, Ol, Hexn, He. split; [reflexivity|].
      destruct (Hrefused PendingRollbackError) as (Hr & Hfin & _).
      * intros e'. rewrite Hexn. now intros [= <-].
      * exact Hflush.
      * auto.
  - erewrite run_setup_raise by exact Hsetup. cbn [events raised].
    split; [|split].
    + intros e [= <-]. auto.
    + intros v [=].
    + intros i e Hin. rewrite Hfc in Hin. destruct Hin.
Qed.

Lemma run_catches_loop_exceptions_witness :
  (let r := run (J := PyJson.lib)
                (Sample.collector 3 (Some (PyException "ConnectionError" "reset")))
                (Sample.ctx true) 100 50 60 (open_session Sample.two_runs 0%nat) in
   logged (events r) = [PyException "ConnectionError" "reset"]
   /\ raised r = None
   /\ exists row, finalizations (events r) = [row]
                  /\ completed row = Some 60
                  /\ In row (subtask_runs (durable (final r))))
  /\ (let r := run (J := PyJson.lib) Sample.broken_delete (Sample.ctx false)
                   100 50 60 (open_session Sample.collected 0%nat) in
      raised r = Some (PyException "OperationalError" "database is locked")
      /\ logged (events r) = []
      /\ finalizations (events r) = [])
  /\ (let r := run (J := PyJson.lib) SampleStrict.strict (Sample.ctx false)
                   100 50 60 (open_session SampleStrict.refused_then_more 0%nat) in
      logged (events r) = [SampleStrict.IntegrityError]
      /\ raised r = Some PendingRollbackError
      /\ finalizations (events r) = []
      /\ durable (final r) = SampleStrict.refused_then_more)
  /\ (let r := run (J := PyJson.lib) SampleStrict.strict (Sample.ctx false)
                   1 50 60 (open_session SampleStrict.refused_then_more 0%nat) in
      failed_checkpoints (events r) = [(1%nat, SampleStrict.IntegrityError)]
      /\ logged (events r) = [SampleStrict.IntegrityError]
      /\ raised r = Some PendingRollbackError
      /\ finalizations (events r) = []).
Proof.
  split; [|split; [|split]].
  - pose (v := match loop_world (J := PyJson.lib)
                       (Sample.collector 3 (Some (PyException "ConnectionError" "reset")))
                       (Sample.ctx true) 100 50 (open_session Sample.two_runs 0%nat)
               with
               | Some v => v
               | None => open_session empty_db 0%nat
               end).
    exact (proj1 (proj2 (@run_catches_loop_exceptions PyJson.lib _ _
                    (Sample.collector 3 (Some (PyException "ConnectionError" "reset")))
                    (Sample.ctx true) 100 50 60
                    (open_session Sample.two_runs 0%nat))) v eq_refl).
  - exact (proj1 (@run_catches_loop_exceptions PyJson.lib _ _
                    Sample.broken_delete (Sample.ctx false) 100 50 60
                    (open_session Sample.collected 0%nat)) _ eq_refl).
  - pose (v := match loop_world (J := PyJson.lib) SampleStrict.strict
                       (Sample.ctx false) 100 50
                       (open_session SampleStrict.refused_then_more 0%nat)
               with
               | Some v => v
               | None => open_session empty_db 0%nat
               end).
    exact (proj1 (proj2 (@run_catches_loop_exceptions PyJson.lib _ _
                    SampleStrict.strict (Sample.ctx false) 100 50 60
                    (open_session SampleStrict.refused_then_more 0%nat))) v eq_refl).
  - split; [vm_compute; reflexivity|].
    refine (proj2 (proj2 (proj2 (@run_catches_loop_exceptions PyJson.lib _ _
                    SampleStrict.strict (Sample.ctx false) 1 50 60
                    (open_session SampleStrict.refused_then_more 0%nat)))
                  1%nat SampleStrict.IntegrityError _) eq_refl).
    vm_compute. left. reflexivity.
Defined.

(** ** The initial state and the delete *)

Section InitialState.
Context {J : JsonLib} {W Data : Type}.
Variable self : Stage W Data.
Variable ctx : Ctx.
Variable sync_point_interval : Z.
Variables now_start now_end : datetime.

Lemma quiet_loop_events (l : list Event) :
  Forall (fun e => loop_event e = true) l -> Forall quiet l.
Proof.
  apply Forall_impl. intros [] H; simpl in *; auto; discriminate.
Qed.

Lemma quiet_not_fetch_or_delete (l : list Event) :
  Forall quiet l -> (forall st, ~ In (EvFetch st) l) /\ ~ In EvDelete l.
Proof.
  intros H. rewrite Forall_forall in H. split.
  - intros st Hin. exact (H _ Hin).
  - intros Hin. exact (H _ Hin).
Qed.

(** From the [try] on, [fetch] is called once, first, and [delete] is not
    called. *)
Lemma run_from_events (subtask_run : SubtaskRun) (w : World W) (state : json) :
  exists rest,
    events (run_from self ctx sync_point_interval now_end subtask_run w state)
    = EvFetch state :: rest
    /\ (forall st, ~ In (EvFetch st) rest) /\ ~ In EvDelete rest.
Proof.
  pose proof (loop_of_events_kind self ctx sync_point_interval subtask_run w state)
    as Hk.
  apply quiet_loop_events in Hk.
  rewrite run_from_cases. cbv zeta.
  destruct (lo_exn _) as [e|]; [destruct (is_Exception e)|];
    try destruct (snd (flush _));
    eexists; (split; [reflexivity|]); apply quiet_not_fetch_or_delete;
    repeat (apply Forall_app; split); auto; repeat constructor.
Qed.
End InitialState.



(** ** Durability of the run record *)

(** C9, as stated, fails: when [fetch] begins, the run record made by
    [_start_subtask] is a row of the open transaction only, the committed
    database has no run record; and a run that is then interrupted by an
    exception outside [Exception] leaves none behind. *)
Lemma run_record_not_durable_when_fetch_begins :
  (exists evs subtask_run w',
      run_setup (J := PyJson.lib) (Sample.collector 3 None) (Sample.ctx true) 50
                (open_session empty_db 0%nat)
      = SetupOk evs subtask_run w' (JDict [])
      /\ In subtask_run (subtask_runs (pending w'))
      /\ subtask_runs (durable w') = [])
  /\ subtask_runs
       (durable (final (run (J := PyJson.lib)
                            (Sample.collector 3
                               (Some (PyBaseException "KeyboardInterrupt" "")))
                            (Sample.ctx true) 100 50 60
                            (open_session empty_db 0%nat)))) = [].
Proof.
  split; [|reflexivity].
  do 3 eexists. split; [vm_compute; reflexivity|].
  split; [now left|reflexivity].
Qed.

(** C9, amended. A checkpoint write and the finalization, in a session
    that can be flushed, return and are committed when they return: the
    written row is in the committed database. In a session that cannot be
    flushed they raise what the flush raises, and commit nothing. The run
    record of [_start_subtask], with the empty state and no completion time,
    is added to the open transaction and the committed database is left as
    it was; in an incremental run this is still so when [fetch] begins. *)
Theorem run_record_durability {J : JsonLib} {W Data : Type} (self : Stage W Data)
        (ctx : Ctx) (w : World W) (subtask_run : SubtaskRun) (st : json)
        (now : datetime) :
  (let '(w1, r) := _start_subtask self w (ctx_connection_id ctx) now in
   durable w1 = durable w
   /\ In r (subtask_runs (pending w1))
   /\ state r = json_dumps (JDict [])
   /\ completed r = None)
  /\ (tx w = Usable ->
      let '(w2, r, raised_by_write) := checkpoint subtask_run st w in
      raised_by_write = None
      /\ durable w2 = pending w2
      /\ In r (subtask_runs (durable w2))
      /\ state r = json_dumps st
      /\ completed r = completed subtask_run)
  /\ (tx w = Usable ->
      let '(w3, r, raised_by_write) := finalize subtask_run st now w in
      raised_by_write = None
      /\ durable w3 = pending w3
      /\ In r (subtask_runs (durable w3))
      /\ state r = json_dumps st
      /\ completed r = Some now)
  /\ (forall e,
         snd (flush w) = Some e ->
         (let '(w2, _, raised_by_write) := checkpoint subtask_run st w in
          raised_by_write = Some e /\ durable w2 = durable w)
         /\ (let '(w3, _, raised_by_write) := finalize subtask_run st now w in
             raised_by_write = Some e /\ durable w3 = durable w))
  /\ (forall evs r w' st',
         incremental ctx = true ->
         run_setup self ctx now w = SetupOk evs r w' st' ->
         durable w' = durable w
         /\ In r (subtask_runs (pending w'))
         /\ completed r = None).
Proof.
  assert (let '(w1, r) := _start_subtask self w (ctx_connection_id ctx) now in
          durable w1 = durable w
          /\ In r (subtask_runs (pending w1))
          /\ state r = json_dumps (JDict [])
          /\ completed r = None) as Hstart.
  { unfold _start_subtask, add_run; simpl.
    repeat split. apply in_or_app. right. now left. }
  split; [exact Hstart|].
  split; [|split; [|split]].
  - intros Hu. rewrite checkpoint_spec, (flush_usable w Hu). cbn [snd].
    repeat split. apply in_written.
  - intros Hu. rewrite finalize_spec, (flush_usable w Hu). cbn [snd].
    repeat split. apply in_written.
  - intros e He. rewrite checkpoint_spec, finalize_spec, He.
    split; (split; [reflexivity|apply flush_keeps]).
  - intros evs r w' st' Hinc Hsetup. unfold run_setup in Hsetup.
    destruct (_start_subtask self w (ctx_connection_id ctx) now) as [w1 r1].
    rewrite Hinc in Hsetup.
    destruct (_get_last_state self w1 (ctx_connection_id ctx)); [|discriminate].
    injection Hsetup as _ <- <- _. tauto.
Qed.

Lemma run_record_durability_witness :
  (let '(w2, r, raised_by_write) :=
     checkpoint (J := PyJson.lib) (Sample.finished_run 1 10 1)
                (JDict [("page", JInt 4)]) (open_session Sample.two_runs 0%nat) in
   raised_by_write = None
   /\ durable w2 = pending w2
   /\ In r (subtask_runs (durable w2))
   /\ state r = PyJson.dumps (JDict [("page", JInt 4)])
   /\ completed r = Some 15)
  /\ exists evs r w' st',
       run_setup (J := PyJson.lib) (Sample.collector 3 None) (Sample.ctx true) 50
                 (open_session Sample.two_runs 0%nat) = SetupOk evs r w' st'
       /\ durable w' = Sample.two_runs
       /\ In r (subtask_runs (pending w'))
       /\ completed r = None.
Proof.
  split.
  - exact (proj1 (proj2
             (@run_record_durability PyJson.lib _ _ (Sample.collector 3 None)
                (Sample.ctx true) (open_session Sample.two_runs 0%nat)
                (Sample.finished_run 1 10 1) (JDict [("page", JInt 4)]) 50))
             eq_refl).
  - do 4 eexists.
    refine ((fun H => conj H
               (proj2 (proj2 (proj2 (proj2
                  (@run_record_durability PyJson.lib _ _ (Sample.collector 3 None)
                     (Sample.ctx true) (open_session Sample.two_runs 0%nat)
                     (Sample.finished_run 1 10 1) (JDict []) 50))))
                  _ _ _ _ eq_refl H)) _).
    vm_compute. reflexivity.
Defined.

(** ** Collector *)

Section CollectorProps.
Context {J : JsonLib} {W : Type}.
Variable stream : Stream W.
Variable ctx : Ctx.
Variable sync_point_interval : Z.

(** [Collector.process] returns, and queues nothing the database refuses. *)
Lemma collector_process_succeeds : process_succeeds (Collector stream) ctx.
Proof. intros d w Hu. split; [reflexivity|exact Hu]. Qed.

(** The loop adds one row per pair of the sequence, in order, and touches
    no other row of the raw table. *)
Lemma collector_loop_rows (subtask_run : SubtaskRun) (its : list (json * json))
      (fin : option exn) :
  sync_point_interval <> 0 ->
  forall (i : nat) (w : World W) (state : json),
    tx w = Usable ->
    raw_rows (pending (lo_world (loop (Collector stream) ctx sync_point_interval
                                      subtask_run its fin i w state)))
    = (raw_rows (pending w) ++ map (raw_of ctx) its)%list.
Proof.
  intros Hint.
  induction its as [|[d s'] rest IH]; intros i w state Hu.
  - simpl. now rewrite app_nil_r.
  - cbn [loop map]. cbn [so_exn process Collector Collector_process].
    destruct (Z.eqb_spec sync_point_interval 0) as [E|_]; [contradiction|].
    destruct (at_sync_point sync_point_interval i).
    + rewrite checkpoint_usable by exact Hu.
      rewrite prepend_world, IH by exact Hu.
      simpl. rewrite <- app_assoc. reflexivity.
    + rewrite prepend_world, IH by exact Hu.
      simpl. rewrite <- app_assoc. reflexivity.
Qed.
End CollectorProps.

(** Before the [try] of a full-refresh run of the Collector: the run
    record, then [delete], which leaves the rows of other params. *)
Lemma collector_setup {J : JsonLib} {W : Type} (stream : Stream W) (ctx : Ctx)
      (now_start : datetime) (db : DB) (x : W) :
  incremental ctx = false ->
  exists subtask_run w2,
    run_setup (Collector stream) ctx now_start (open_session db x)
    = SetupOk [EvStart subtask_run; EvDelete] subtask_run w2 (JDict [])
    /\ raw_rows (pending w2)
       = filter (fun old => negb (params old =? _params ctx)%string) (raw_rows db)
    /\ ext w2 = x
    /\ tx w2 = Usable.
Proof.
  intros Hinc. unfold run_setup. rewrite Hinc.
  unfold _start_subtask, add_run; simpl.
  do 2 eexists. split; [reflexivity|]. repeat split.
Qed.

(** A Collector run reaches its loop in a session that can be flushed: the
    query of [_get_last_state], or [delete], has flushed it. *)
Lemma collector_setup_usable {J : JsonLib} {W : Type} (stream : Stream W) (ctx : Ctx)
      (now_start : datetime) (w w' : World W) (evs : list Event)
      (subtask_run : SubtaskRun) (st : json) :
  run_setup (Collector stream) ctx now_start w = SetupOk evs subtask_run w' st ->
  tx w' = Usable.
Proof.
  unfold run_setup, _start_subtask, add_run. cbn [fst snd].
  destruct (incremental ctx).
  - unfold _get_last_state, flush. cbn [tx set_pending].
    destruct (tx w) eqn:E; try discriminate.
    destruct (first _) as [r|]; [destruct (json_loads (state r))|];
      try discriminate; intros [= _ _ <- _]; exact E.
  - cbn [delete Collector]. unfold Collector_delete, flush. cbn [tx set_pending].
    destruct (tx w) eqn:E; cbn [so_exn raising silent so_world]; try discriminate.
    intros [= _ _ <- _]. exact E.
Qed.

(** C6. A full-refresh run of the Collector, over a fetch sequence that is
    exhausted or ends with an exception of class [Exception], calls [delete]
    before [fetch] and leaves in the committed raw table the rows whose
    params differ from the params text of the context, as they were,
    followed by one row per fetched item, in order, with the params text of
    the context and the JSON text of the item: no earlier row with those
    params is left. *)
Theorem collector_full_refresh {J : JsonLib} {W : Type} (stream : Stream W)
        (ctx : Ctx) (sync_point_interval : Z) (now_start now_end : datetime)
        (db : DB) (x : W) :
  incremental ctx = false ->
  sync_point_interval <> 0 ->
  (forall e, ending (collect stream (JDict []) ctx x) = Some e ->
             is_Exception e = true) ->
  let r := run (Collector stream) ctx sync_point_interval now_start now_end
               (open_session db x) in
  let fetched := items (collect stream (JDict []) ctx x) in
  raised r = None
  /\ raw_rows (durable (final r))
     = (filter (fun old => negb (params old =? _params ctx)%string) (raw_rows db)
        ++ map (fun it => {| params := _params ctx; data := json_dumps (fst it) |})
               fetched)%list
  /\ exists subtask_run rest,
       events r = EvStart subtask_run :: EvDelete :: EvFetch (JDict []) :: rest
       /\ ~ In EvDelete rest.
Proof.
  intros Hinc Hint Hend r fetched. subst r fetched.
  destruct (collector_setup stream ctx now_start db x Hinc)
    as (sr & w2 & Hsetup & Hraw & Hext & Hu).
  rewrite (run_after_setup _ _ _ _ _ _ Hsetup). cbn [events final raised].
  set (fs := collect stream (JDict []) ctx x).
  assert (fetch (Collector stream) (JDict []) w2 ctx = (fs, w2)) as Hfetch.
  { cbn [fetch Collector]. unfold Collector_fetch. now rewrite Hext. }
  destruct (@loop_through J W json (Collector stream) ctx sync_point_interval
              (collector_process_succeeds stream ctx) Hint sr
              (items fs) (ending fs) 0%nat w2 (JDict []) Hu)
    as (Hexn & _ & _ & Hu').
  assert (loop_of (Collector stream) ctx sync_point_interval sr w2 (JDict [])
          = loop (Collector stream) ctx sync_point_interval sr
                 (items fs) (ending fs) 0 w2 (JDict [])) as Hloop.
  { unfold loop_of. now rewrite Hfetch. }
  destruct (run_from_caught (Collector stream) ctx sync_point_interval now_end
                            sr w2 (JDict [])) as (Hr & _ & Hfin & _).
  { intros e. rewrite Hloop, Hexn. apply Hend. }
  { rewrite Hloop. now rewrite (flush_usable _ Hu'). }
  split; [exact Hr|]. split.
  - rewrite Hfin, Hloop.
    cbn [written durable merge_run raw_rows set_subtask_runs].
    rewrite collector_loop_rows by assumption.
    rewrite Hraw. reflexivity.
  - destruct (run_from_events (Collector stream) ctx sync_point_interval now_end
                              sr w2 (JDict [])) as (rest & Hev & _ & Hnd).
    exists sr, rest. rewrite Hev. split; [reflexivity|exact Hnd].
Qed.

Lemma collector_full_refresh_witness :
  let r := run (J := PyJson.lib) (Sample.collector 3 None) (Sample.ctx false)
               100 50 60 (open_session Sample.collected 0%nat) in
  let fresh (n : Z) :=
    {| params := _params (J := PyJson.lib) (Sample.ctx false);
       data := PyJson.dumps (JDict [("number", JInt n)]) |} in
  raised r = None
  /\ raw_rows (durable (final r))
     = [Sample.raw "project-8" 2; fresh 0; fresh 1; fresh 2]
  /\ exists subtask_run rest,
       events r = EvStart subtask_run :: EvDelete :: EvFetch (JDict []) :: rest
       /\ ~ In EvDelete rest.
Proof.
  refine (@collector_full_refresh PyJson.lib _ (Sample.stream 3 None false [])
            (Sample.ctx false) 100 50 60 Sample.collected 0%nat _ _ _).
  - reflexivity.
  - discriminate.
  - intros e H. discriminate H.
Defined.

(** ** Convertor *)

Section ConvertorProps.
Context {W : Type}.
Variable stream : Stream W.
Variable generate_domain_id : ToolModel -> Z -> string.
Variable tool_model : ToolModel.
Variable conn_id : Z.

(** In a session that can be flushed, [_save] gives a DomainModel the
    generated id, then merges it; any other object is logged and left
    out. *)
Lemma save_assigns_generated_id (o : pyobj) (w : World W) :
  tx w = Usable ->
  let s := _save generate_domain_id tool_model o w conn_id in
  so_exn s = None
  /\ match o with
     | PDomain d =>
         so_events s
         = [SMerge (with_domain_id d (generate_domain_id tool_model conn_id))]
         /\ In (with_domain_id d (generate_domain_id tool_model conn_id))
               (domain_rows (pending (so_world s)))
     | POther _ _ =>
         upserts (so_events s) = []
         /\ List.length (logged_errors (so_events s)) = 1%nat
         /\ so_world s = w
     end.
Proof.
  intros Hu. destruct o as [d|ty repr]; cbn [_save]; [|simpl; auto].
  rewrite (flush_usable w Hu). cbn [so_exn so_events so_world].
  split; [reflexivity|]. split; [reflexivity|].
  cbn [pending set_pending domain_rows set_domain_rows].
  induction (domain_rows (pending w)) as [|y l IH]; simpl; [now left|].
  destruct ((domain_kind y =? domain_kind d)%string
            && (domain_id y =? generate_domain_id tool_model conn_id)%string);
    simpl; auto.
Qed.

(** What [_save] leaves alone, in any session. *)
Lemma save_keeps (o : pyobj) (w : World W) :
  let w' := so_world (_save generate_domain_id tool_model o w conn_id) in
  subtask_runs (pending w') = subtask_runs (pending w)
  /\ raw_rows (pending w') = raw_rows (pending w)
  /\ tool_rows (pending w') = tool_rows (pending w)
  /\ durable w' = durable w
  /\ ext w' = ext w.
Proof.
  destruct o as [d|ty repr]; cbn [_save]; [|simpl; auto].
  unfold flush. destruct (tx w); simpl; auto.
Qed.

(** In a session that can be flushed the loop over the values goes
    through all of them: one upsert per DomainModel, with the generated id,
    in order, one logged error per other value; the session stays usable. *)
Lemma save_each_usable (l : list (pyobj * W)) :
  forall w : World W,
    tx w = Usable ->
    let out := save_each generate_domain_id tool_model l w conn_id in
    let merged := map (fun d => with_domain_id d (generate_domain_id tool_model conn_id))
                      (domain_models (map fst l)) in
    so_exn out = None
    /\ upserts (so_events out) = merged
    /\ List.length (logged_errors (so_events out))
       = List.length (other_objects (map fst l))
    /\ convert_calls (so_events out) = 0%nat
    /\ iterated (so_events out) = []
    /\ tx (so_world out) = Usable
    /\ domain_rows (pending (so_world out))
       = fold_left (fun rows d => upsert_domain d rows) merged
                   (domain_rows (pending w)).
Proof.
  induction l as [|[o x] rest IH]; intros w Hu; [simpl; auto 10|].
  cbn [save_each].
  assert (tx (set_ext w x) = Usable) as Hux by exact Hu.
  destruct o as [d|ty repr].
  - cbn [_save]. rewrite (flush_usable _ Hux). cbn [so_exn so_events so_world].
    match goal with
    | |- context [save_each _ _ rest ?w1 _] => specialize (IH w1 Hu)
    end.
    cbv zeta in IH. destruct IH as (I1 & I2 & I3 & I4 & I5 & I6 & I7).
    cbv zeta. cbn [so_exn so_events so_world map fst domain_models flat_map
                   other_objects filter app].
    unfold upserts, logged_errors, convert_calls, iterated in *.
    cbn [flat_map filter app List.length].
    rewrite I1, I2, I3, I4, I5, I6, I7.
    repeat split.
  - cbn [_save so_exn so_events so_world].
    specialize (IH (set_ext w x) Hux).
    cbv zeta in IH. destruct IH as (I1 & I2 & I3 & I4 & I5 & I6 & I7).
    cbv zeta. cbn [so_exn so_events so_world map fst domain_models flat_map
                   other_objects filter app].
    unfold upserts, logged_errors, convert_calls, iterated in *.
    cbn [flat_map filter app List.length].
    rewrite I1, I2, I3, I4, I5, I6, I7.
    repeat split.
Qed.
(** The loop over [_save] calls no [convert] and iterates nothing, in any
    session. *)
Lemma save_each_calls (l : list (pyobj * W)) :
  forall w : World W,
    let out := save_each generate_domain_id tool_model l w conn_id in
    convert_calls (so_events out) = 0%nat /\ iterated (so_events out) = [].
Proof.
  assert (forall (o : pyobj) (v : World W),
             convert_calls (so_events (_save generate_domain_id tool_model o v conn_id))
             = 0%nat
             /\ iterated (so_events (_save generate_domain_id tool_model o v conn_id))
                = []) as Hsave.
  { intros [d|ty repr] v; cbn [_save]; [|split; reflexivity].
    unfold flush. destruct (tx v); split; reflexivity. }
  induction l as [|[o x] rest IH]; intros w; [split; reflexivity|].
  cbn [save_each]. destruct (Hsave o (set_ext w x)) as [S1 S2].
  destruct (so_exn (_save generate_domain_id tool_model o (set_ext w x) conn_id)).
  - cbv zeta. auto.
  - cbv zeta. cbn [so_events].
    specialize (IH (so_world (_save generate_domain_id tool_model o
                                    (set_ext w x) conn_id))).
    cbv zeta in IH. destruct IH as [I1 I2].
    unfold convert_calls, iterated in *.
    rewrite filter_app, length_app, flat_map_app, S1, S2, I1, I2. auto.
Qed.
End ConvertorProps.

(** C7, as stated, fails for a sequence: a [convert] that returns the list
    of two DomainModels is not iterated, the list itself goes to [_save],
    which logs one error and merges nothing. *)
Lemma convertor_list_of_two_not_upserted :
  let out := Convertor_process
               (Sample.stream 0 None false
                  [PDomain (Sample.issue "a"); PDomain (Sample.issue "b")])
               Sample.generate_domain_id Sample.tool
               (open_session empty_db 0%nat) (Sample.ctx false) in
  upserts (so_events out) = []
  /\ List.length (logged_errors (so_events out)) = 1%nat
  /\ so_exn out = None
  /\ domain_rows (pending (so_world out)) = [].
Proof. vm_compute. repeat split. Qed.

(** C7, amended. In [Convertor.process], in a session that can be flushed:
    a [convert] that returns one DomainModel gives exactly one upsert; one
    that returns a generator gives one upsert for each DomainModel among the
    values the loop is handed (two for two DomainModels) and one logged
    error for each other value, the loop going on after it; a result that is
    neither a generator nor a DomainModel (a list of DomainModels too) gives
    no upsert and one logged error, and nothing is raised. *)
Theorem convertor_process_upserts {W : Type} (stream : Stream W)
        (generate_domain_id : ToolModel -> Z -> string) (tool_model : ToolModel)
        (w : World W) (ctx : Ctx) :
  tx w = Usable ->
  let out := Convertor_process stream generate_domain_id tool_model w ctx in
  let saved d :=
    with_domain_id d (generate_domain_id tool_model (ctx_connection_id ctx)) in
  (forall d x1,
      convert stream tool_model (ext w) = (RetObject (PDomain d), x1) ->
      upserts (so_events out) = [saved d]
      /\ logged_errors (so_events out) = []
      /\ so_exn out = None)
  /\ (forall g x1 res2 x2 values fin x3,
         convert stream tool_model (ext w) = (RetGenerator g, x1) ->
         convert stream tool_model x1 = (res2, x2) ->
         iterate res2 x2 = ((values, fin), x3) ->
         upserts (so_events out) = map saved (domain_models values)
         /\ List.length (logged_errors (so_events out))
            = List.length (other_objects values)
         /\ so_exn out = fin
         /\ (forall d1 d2, values = [PDomain d1; PDomain d2] ->
                           upserts (so_events out) = [saved d1; saved d2]))
  /\ (forall res x1,
         convert stream tool_model (ext w) = (res, x1) ->
         is_Generator res = false ->
         (forall d, res <> RetObject (PDomain d)) ->
         upserts (so_events out) = []
         /\ List.length (logged_errors (so_events out)) = 1%nat
         /\ so_exn out = None).
Proof.
  intros Hu out saved. subst out. unfold Convertor_process.
  split; [|split].
  - intros d x1 ->. cbn [is_Generator as_object _save].
    rewrite (flush_usable (set_ext w x1) Hu). simpl. auto.
  - intros g x1 res2 x2 values fin x3 -> -> Hit. cbn [is_Generator].
    unfold iterate in Hit. injection Hit as Hv Hf _.
    pose proof (save_each_usable generate_domain_id tool_model
                  (ctx_connection_id ctx) (gen_yields (steps res2 x2))
                  (set_ext w x2) Hu) as H.
    cbv zeta in H. destruct H as (H0 & H1 & H2 & _).
    cbv zeta. rewrite H0. cbn [so_events so_exn].
    rewrite Hv in H1, H2.
    assert (upserts ([SConvertCall tool_model; SConvertCall tool_model; SIterate 2]
                       ++ so_events (save_each generate_domain_id tool_model
                                       (gen_yields (steps res2 x2)) (set_ext w x2)
                                       (ctx_connection_id ctx)))
            = map saved (domain_models values)) as Hup by exact H1.
    split; [exact Hup|]. split; [exact H2|]. split; [exact Hf|].
    intros d1 d2 Hval. rewrite Hup, Hval. reflexivity.
  - intros res x1 -> Hgen Hnd. rewrite Hgen.
    destruct res as [g|ty repr l|[d|ty repr]]; simpl in *;
      try discriminate; auto.
    exfalso. now apply (Hnd d).
Qed.

Lemma convertor_process_upserts_witness :
  let a := Sample.issue "a" in
  let b := Sample.issue "b" in
  let saved d := with_domain_id d (Sample.generate_domain_id Sample.tool 1) in
  let w := open_session empty_db 0%nat in
  upserts (so_events (Convertor_process (Sample.stream 0 None false [PDomain a])
                        Sample.generate_domain_id Sample.tool w (Sample.ctx false)))
  = [saved a]
  /\ upserts (so_events (Convertor_process
                           (Sample.stream 0 None true [PDomain a; PDomain b])
                           Sample.generate_domain_id Sample.tool w (Sample.ctx false)))
     = [saved a; saved b]
  /\ List.length (logged_errors
                    (so_events (Convertor_process
                                  (Sample.stream 0 None false [POther "<class 'int'>" "5"])
                                  Sample.generate_domain_id Sample.tool w
                                  (Sample.ctx false)))) = 1%nat.
Proof.
  intros a b saved w. split; [|split].
  - refine (proj1 (proj1 (@convertor_process_upserts nat
              (Sample.stream 0 None false [PDomain a])
              Sample.generate_domain_id Sample.tool w (Sample.ctx false) eq_refl)
              a 1%nat eq_refl)).
  - refine (proj2 (proj2 (proj2 (proj1 (proj2 (@convertor_process_upserts nat
              (Sample.stream 0 None true [PDomain a; PDomain b])
              Sample.generate_domain_id Sample.tool w (Sample.ctx false) eq_refl))
              _ 1%nat _ 2%nat [PDomain a; PDomain b] None 12%nat
              eq_refl eq_refl eq_refl))) a b eq_refl).
  - refine (proj1 (proj2 (proj2 (proj2 (@convertor_process_upserts nat
              (Sample.stream 0 None false [POther "<class 'int'>" "5"])
              Sample.generate_domain_id Sample.tool w (Sample.ctx false) eq_refl))
              _ 1%nat eq_refl eq_refl _))).
    intros d H. discriminate H.
Defined.

(** C10. When [convert] returns a generator, [process] calls [convert]
    again and iterates the result of that second call only: [convert] is
    called twice, in any session. In a session that can be flushed, the
    upserts are the DomainModels of the second result, the domain table is
    the table as it was with each of them, under the generated id, merged
    into it in order, and the collaborators are left as the second call and
    the iteration of its result leave them, the body of the first generator
    never having run. Otherwise [convert] is called once, nothing is
    iterated, and the one object returned is merged if it is a
    DomainModel. *)
Theorem convertor_generator_reinvoked {W : Type} (stream : Stream W)
        (generate_domain_id : ToolModel -> Z -> string) (tool_model : ToolModel)
        (w : World W) (ctx : Ctx) :
  let out := Convertor_process stream generate_domain_id tool_model w ctx in
  let saved d :=
    with_domain_id d (generate_domain_id tool_model (ctx_connection_id ctx)) in
  (forall g x1 res2 x2 values fin x3,
      convert stream tool_model (ext w) = (RetGenerator g, x1) ->
      convert stream tool_model x1 = (res2, x2) ->
      iterate res2 x2 = ((values, fin), x3) ->
      convert_calls (so_events out) = 2%nat
      /\ iterated (so_events out) = [2%nat]
      /\ (tx w = Usable ->
          upserts (so_events out) = map saved (domain_models values)
          /\ domain_rows (pending (so_world out))
             = fold_left (fun rows d => upsert_domain d rows)
                         (map saved (domain_models values))
                         (domain_rows (pending w))
          /\ ext (so_world out) = x3
          /\ so_exn out = fin))
  /\ (forall res x1,
         convert stream tool_model (ext w) = (res, x1) ->
         is_Generator res = false ->
         convert_calls (so_events out) = 1%nat
         /\ iterated (so_events out) = []
         /\ ext (so_world out) = x1
         /\ (tx w = Usable ->
             domain_rows (pending (so_world out))
             = match as_object res with
               | PDomain d => upsert_domain (saved d) (domain_rows (pending w))
               | POther _ _ => domain_rows (pending w)
               end)).
Proof.
  intros out saved. subst out. unfold Convertor_process. split.
  - intros g x1 res2 x2 values fin x3 -> -> Hit. cbn [is_Generator].
    unfold iterate in Hit. injection Hit as Hv Hf Hx.
    pose proof (save_each_calls generate_domain_id tool_model
                  (ctx_connection_id ctx) (gen_yields (steps res2 x2))
                  (set_ext w x2)) as Hc.
    cbv zeta in Hc. destruct Hc as [C1 C2].
    assert (convert_calls
              ([SConvertCall tool_model; SConvertCall tool_model; SIterate 2]
                 ++ so_events (save_each generate_domain_id tool_model
                                 (gen_yields (steps res2 x2)) (set_ext w x2)
                                 (ctx_connection_id ctx))) = 2%nat
            /\ iterated
                 ([SConvertCall tool_model; SConvertCall tool_model; SIterate 2]
                    ++ so_events (save_each generate_domain_id tool_model
                                    (gen_yields (steps res2 x2)) (set_ext w x2)
                                    (ctx_connection_id ctx))) = [2%nat]) as [K1 K2].
    { unfold convert_calls, iterated in *.
      cbn [app filter flat_map List.length]. rewrite C1, C2. auto. }
    cbv zeta.
    split; [destruct (so_exn (save_each _ _ _ _ _)); exact K1|].
    split; [destruct (so_exn (save_each _ _ _ _ _)); exact K2|].
    intros Hu.
    pose proof (save_each_usable generate_domain_id tool_model
                  (ctx_connection_id ctx) (gen_yields (steps res2 x2))
                  (set_ext w x2) Hu) as H.
    cbv zeta in H. destruct H as (H0 & H1 & _ & _ & _ & _ & H6).
    rewrite H0. cbn [so_events so_exn so_world].
    rewrite Hv in H1, H6.
    split; [exact H1|]. cbn [ext set_ext pending]. auto.
  - intros res x1 -> Hgen. rewrite Hgen. cbn [so_events so_world].
    pose proof (save_keeps generate_domain_id tool_model (ctx_connection_id ctx)
                           (as_object res) (set_ext w x1)) as Hk.
    cbv zeta in Hk. destruct Hk as (_ & _ & _ & _ & Hext).
    destruct (as_object res) as [d|ty repr]; cbn [_save] in *.
    + split; [|split; [|split; [exact Hext|]]].
      * unfold flush. destruct (tx (set_ext w x1)); reflexivity.
      * unfold flush. destruct (tx (set_ext w x1)); reflexivity.
      * intros Hu. rewrite (flush_usable (set_ext w x1) Hu). reflexivity.
    + simpl. auto.
Qed.

Lemma convertor_generator_reinvoked_witness :
  let a := Sample.issue "a" in
  let b := Sample.issue "b" in
  let saved d := with_domain_id d (Sample.generate_domain_id Sample.tool 1) in
  let w := open_session empty_db 0%nat in
  let twice := Convertor_process (Sample.stream 0 None true [PDomain a; PDomain b])
                 Sample.generate_domain_id Sample.tool w (Sample.ctx false) in
  let once := Convertor_process (Sample.stream 0 None false [PDomain a])
                Sample.generate_domain_id Sample.tool w (Sample.ctx false) in
  (convert_calls (so_events twice) = 2%nat
   /\ iterated (so_events twice) = [2%nat]
   /\ upserts (so_events twice) = [saved a; saved b]
   /\ domain_rows (pending (so_world twice)) = [saved b]
   /\ ext (so_world twice) = 12%nat
   /\ so_exn twice = None)
  /\ (convert_calls (so_events once) = 1%nat
      /\ iterated (so_events once) = []
      /\ ext (so_world once) = 1%nat
      /\ domain_rows (pending (so_world once)) = [saved a]).
Proof.
  intros a b saved w twice once. split.
  - destruct (proj1 (@convertor_generator_reinvoked nat
                       (Sample.stream 0 None true [PDomain a; PDomain b])
                       Sample.generate_domain_id Sample.tool w (Sample.ctx false))
                    _ 1%nat _ 2%nat [PDomain a; PDomain b] None 12%nat
                    eq_refl eq_refl eq_refl) as (H1 & H2 & H3).
    split; [exact H1|]. split; [exact H2|]. exact (H3 eq_refl).
  - destruct (proj2 (@convertor_generator_reinvoked nat
                       (Sample.stream 0 None false [PDomain a])
                       Sample.generate_domain_id Sample.tool w (Sample.ctx false))
                    _ 1%nat eq_refl eq_refl) as (H1 & H2 & H3 & H4).
    split; [exact H1|]. split; [exact H2|]. split; [exact H3|]. exact (H4 eq_refl).
Defined.

(** * Further properties of the code *)

(** ** Which run records [_get_last_state] reads *)

(** X1. [_get_last_state] starts with a flush and raises what the flush
    raises. When the flush succeeds it returns the empty mapping if no
    completed run of the subtask and connection is on record; otherwise it
    decodes the state of a completed run of that subtask and connection
    whose start time is the least, and raises what the decoding raises. *)
Theorem get_last_state_reads_least_started {J : JsonLib} {W Data : Type}
        (self : Stage W Data) (w : World W) (conn_id : Z) :
  let runs := completed_runs (name self) conn_id (pending w) in
  match snd (flush w) with
  | Some e => _get_last_state self w conn_id = Raise e
  | None =>
      (runs = [] /\ _get_last_state self w conn_id = Ok (JDict []))
      \/ (exists r,
            In r runs
            /\ subtask_name r = name self
            /\ connection_id r = conn_id
            /\ completed r <> None
            /\ (forall r', In r' runs -> started r <= started r')
            /\ _get_last_state self w conn_id = json_loads (state r))
  end.
Proof.
  intros runs. subst runs.
  destruct (snd (flush w)) as [e|] eqn:Hf.
  { now apply get_last_state_unusable. }
  apply flush_succeeds in Hf.
  destruct (get_last_state_least_started self w conn_id Hf)
    as [H|[r (Hin & Hmin & Hres)]]; [left; exact H|right].
  exists r. split; [exact Hin|].
  unfold completed_runs in Hin. apply filter_In in Hin. destruct Hin as [_ Hc].
  apply andb_prop in Hc. destruct Hc as [Hc Hcompleted].
  apply andb_prop in Hc. destruct Hc as [Hn Hconn].
  apply String.eqb_eq in Hn. apply Z.eqb_eq in Hconn.
  repeat split; auto.
  destruct (completed r); [discriminate|discriminate Hcompleted].
Qed.

(** X2. A row that is not a completed run of this subtask and connection
    (another subtask, another connection, or no completion time) does not
    count: [_get_last_state] returns what it returns without the row. *)
Theorem get_last_state_ignores_other_rows {J : JsonLib} {W Data : Type}
        (self : Stage W Data) (w : World W) (conn_id : Z)
        (l1 l2 : list SubtaskRun) (r : SubtaskRun) :
  subtask_runs (pending w) = (l1 ++ r :: l2)%list ->
  subtask_name r <> name self \/ connection_id r <> conn_id \/ completed r = None ->
  _get_last_state self w conn_id
  = _get_last_state self
      (set_pending w (set_subtask_runs (pending w) (l1 ++ l2))) conn_id.
Proof.
  intros Hrows Hr. unfold _get_last_state, flush, last_state_stmt.
  cbn [tx set_pending]. destruct (tx w); try reflexivity. simpl.
  rewrite Hrows, !filter_app. simpl.
  replace ((subtask_name r =? name self)%string && (connection_id r =? conn_id)
           && is_some (completed r)) with false; [reflexivity|].
  symmetry. destruct Hr as [H|[H|H]].
  - apply String.eqb_neq in H. now rewrite H.
  - apply Z.eqb_neq in H. now rewrite H, andb_false_r.
  - rewrite H. simpl. now rewrite andb_false_r.
Qed.

Lemma get_last_state_ignores_other_rows_witness :
  let other := {| id := Some 7; subtask_name := "collectGitlabIssues";
                  connection_id := 2; started := 1; completed := Some 2;
                  state := "[]" |} in
  let w := open_session
             (set_subtask_runs empty_db [other; Sample.finished_run 2 20 2]) 0%nat in
  _get_last_state (J := PyJson.lib) (Sample.collector 0 None) w 1
  = _get_last_state (J := PyJson.lib) (Sample.collector 0 None)
      (set_pending w (set_subtask_runs (pending w) [Sample.finished_run 2 20 2])) 1.
Proof.
  intros other w.
  refine (@get_last_state_ignores_other_rows PyJson.lib _ _
            (Sample.collector 0 None) w 1 [] [Sample.finished_run 2 20 2] other
            eq_refl _).
  right. left. discriminate.
Defined.

(** X3. The three stages of one stream have three different names, so the
    run records of one stage are never read by another. *)
Theorem stage_names_distinct {J : JsonLib} {W : Type} (stream : Stream W)
        (generate_domain_id : ToolModel -> Z -> string) :
  name (Collector stream) <> name (Extractor stream)
  /\ name (Collector stream) <> name (Convertor stream generate_domain_id)
  /\ name (Extractor stream) <> name (Convertor stream generate_domain_id).
Proof.
  unfold name. cbn [verb stream_plugin_name stream_name Collector Extractor Convertor].
  repeat split; intros H; vm_compute in H; discriminate H.
Qed.

(** ** The run record of a finished run *)

Lemma opt_Z_eqb_refl (a : option Z) : opt_Z_eqb a a = true.
Proof. destruct a; simpl; [apply Z.eqb_refl|reflexivity]. Qed.

Lemma next_id_fresh (l : list SubtaskRun) (x : SubtaskRun) :
  In x l -> opt_Z_eqb (id x) (Some (next_id l)) = false.
Proof.
  intros Hin. unfold next_id.
  assert (forall k, id x = Some k ->
            k <= fold_right (fun r m => match id r with
                                        | Some k => Z.max k m
                                        | None => m
                                        end) 0 l) as Hle.
  { induction l as [|y l IH]; [destruct Hin|].
    intros k Hk. simpl. destruct Hin as [->|Hin].
    - rewrite Hk. lia.
    - specialize (IH Hin k Hk). destruct (id y); lia. }
  destruct (id x) as [k|]; [|reflexivity].
  cbn [opt_Z_eqb]. apply Z.eqb_neq. specialize (Hle k eq_refl). lia.
Qed.

Lemma upsert_run_last (r y : SubtaskRun) (l : list SubtaskRun) :
  (forall x, In x l -> opt_Z_eqb (id x) (id r) = false) ->
  opt_Z_eqb (id y) (id r) = true ->
  upsert_run r (l ++ [y]) = (l ++ [r])%list.
Proof.
  intros Hl Hy. induction l as [|x l IH]; simpl.
  - now rewrite Hy.
  - rewrite (Hl x (or_introl eq_refl)). f_equal. apply IH.
    intros z Hz. apply Hl. now right.
Qed.

Lemma with_state_same (r : SubtaskRun) : with_state r (state r) = r.
Proof. destruct r; reflexivity. Qed.

Section RunRecord.
Context {J : JsonLib} {W Data : Type}.
Variable self : Stage W Data.
Variable ctx : Ctx.
Variable sync_point_interval : Z.
Variables now_start now_end : datetime.
Hypothesis Hkeeps : keeps_runs self ctx.

Lemma run_setup_runs (db : DB) (x : W) (evs : list Event) (subtask_run : SubtaskRun)
      (w' : World W) (st : json) :
  run_setup self ctx now_start (open_session db x) = SetupOk evs subtask_run w' st ->
  subtask_run = started_run self ctx now_start db
  /\ subtask_runs (pending w') = (subtask_runs db ++ [subtask_run])%list.
Proof.
  unfold run_setup, _start_subtask, add_run. simpl.
  destruct (incremental ctx).
  - destruct (_get_last_state _ _ _); [|discriminate].
    intros [= _ <- <- _]. split; reflexivity.
  - destruct (so_exn (delete self _ ctx)) eqn:E; [discriminate|].
    intros [= _ <- <- _]. split; [reflexivity|].
    rewrite (proj1 (proj2 Hkeeps)). reflexivity.
Qed.

(** Through the loop, the table of run records is the rows it had and the
    record of this run, in some state. *)
Lemma loop_runs (subtask_run : SubtaskRun) (l : list SubtaskRun)
      (its : list (Data * json)) (fin : option exn) :
  (forall x, In x l -> opt_Z_eqb (id x) (id subtask_run) = false) ->
  forall (i : nat) (w : World W) (st : json),
    (exists s, subtask_runs (pending w) = (l ++ [with_state subtask_run s])%list) ->
    exists s, subtask_runs (pending (lo_world
                (loop self ctx sync_point_interval subtask_run its fin i w st)))
              = (l ++ [with_state subtask_run s])%list.
Proof.
  intros Hfresh.
  induction its as [|[d s'] rest IH]; intros i w st Hw; [exact Hw|].
  cbn [loop].
  assert (exists s, subtask_runs (pending (so_world (process self d w ctx)))
                    = (l ++ [with_state subtask_run s])%list) as Hp.
  { rewrite (proj1 Hkeeps). exact Hw. }
  destruct (so_exn (process self d w ctx)); [exact Hp|].
  destruct (sync_point_interval =? 0); [exact Hp|].
  destruct (at_sync_point sync_point_interval i).
  - destruct (checkpoint subtask_run s' (so_world (process self d w ctx)))
      as [[w1 r] [e|]] eqn:Ec.
    + cbn [lo_world]. apply checkpoint_raises in Ec. destruct Ec as [_ ->].
      rewrite (proj1 (proj2 (flush_keeps _))). exact Hp.
    + apply checkpoint_returns in Ec. destruct Ec as (_ & -> & ->).
      rewrite prepend_world. apply IH.
      destruct Hp as [s Hs]. exists (json_dumps s').
      cbn [written pending merge_run subtask_runs set_subtask_runs]. rewrite Hs.
      apply upsert_run_last; [exact Hfresh|apply opt_Z_eqb_refl].
  - rewrite prepend_world. apply IH. exact Hp.
Qed.

(** A run that does not raise adds one row to the committed table of run
    records, the finalized record of the run, and leaves the rows it found. *)
Lemma run_finished_runs (db : DB) (x : W) :
  let r := run self ctx sync_point_interval now_start now_end (open_session db x) in
  raised r = None ->
  exists s,
    let row := with_completed (with_state (started_run self ctx now_start db) s)
                              (Some now_end) in
    finalizations (events r) = [row]
    /\ subtask_runs (durable (final r)) = (subtask_runs db ++ [row])%list.
Proof.
  intros r Hr. subst r.
  pose proof (run_setup_events self ctx now_start (open_session db x)) as Hev.
  destruct (run_setup self ctx now_start (open_session db x))
    as [evs sr w' st|evs w' e] eqn:Hsetup.
  2:{ erewrite run_setup_raise in Hr by exact Hsetup. discriminate Hr. }
  destruct Hev as (_ & Hnf & _).
  destruct (run_setup_runs _ _ Hsetup) as [Hsr Hrows].
  rewrite (run_after_setup _ _ _ _ _ _ Hsetup) in *. cbn [events final raised] in *.
  destruct (raised_none_caught self ctx sync_point_interval now_end sr w' st Hr)
    as [Hexc Hflush].
  destruct (run_from_caught self ctx sync_point_interval now_end sr w' st Hexc Hflush)
    as (_ & Hf & Hfin & _).
  rewrite Hfin. eexists. split.
  - rewrite finalizations_app, Hnf, Hf, Hsr. reflexivity.
  - cbn [written durable merge_run subtask_runs set_subtask_runs].
    unfold loop_of.
    destruct (loop_runs sr (subtask_runs db)
                (items (fst (fetch self st w' ctx)))
                (ending (fst (fetch self st w' ctx)))
                (fun y Hy => eq_trans (f_equal (opt_Z_eqb (id y))
                                               (f_equal id Hsr))
                                      (next_id_fresh _ _ Hy))
                0 (snd (fetch self st w' ctx)) st) as [s Hs].
    { exists (state sr). rewrite with_state_same.
      rewrite (proj2 (proj2 Hkeeps)). exact Hrows. }
    rewrite Hs, <- Hsr.
    apply upsert_run_last; [|apply opt_Z_eqb_refl].
    intros y Hy. simpl. rewrite Hsr. apply next_id_fresh. exact Hy.
Qed.
End RunRecord.

(** The three stages of the file change their own tables only. *)
Lemma collector_keeps_runs {J : JsonLib} {W : Type} (stream : Stream W) (ctx : Ctx) :
  keeps_runs (Collector stream) ctx /\ never_commits (Collector stream) ctx.
Proof.
  repeat split; try reflexivity; intros w; cbn [delete Collector];
    unfold Collector_delete, flush; destruct (tx w); reflexivity.
Qed.

Lemma extractor_keeps_runs {J : JsonLib} {W : Type} (stream : Stream W) (ctx : Ctx) :
  keeps_runs (Extractor stream) ctx /\ never_commits (Extractor stream) ctx.
Proof.
  assert (forall d w,
             subtask_runs (pending (so_world (Extractor_process stream d w ctx)))
             = subtask_runs (pending w)
             /\ durable (so_world (Extractor_process stream d w ctx)) = durable w)
    as Hp.
  { intros d w. unfold Extractor_process.
    destruct (json_loads (data d)) as [v|e]; [|split; reflexivity].
    destruct (extract stream v); [|split; reflexivity].
    unfold flush. destruct (tx w); split; reflexivity. }
  assert (forall st (w : World W),
             subtask_runs (pending (snd (Extractor_fetch st w ctx)))
             = subtask_runs (pending w)
             /\ durable (snd (Extractor_fetch st w ctx)) = durable w) as Hf.
  { intros st w. unfold Extractor_fetch, flush. destruct (tx w); split; reflexivity. }
  repeat split; try reflexivity; intros; first [apply Hp|apply Hf].
Qed.

Lemma save_each_keeps {W : Type} (generate_domain_id : ToolModel -> Z -> string)
      (t : ToolModel) (conn_id : Z) (l : list (pyobj * W)) :
  forall w : World W,
    let w' := so_world (save_each generate_domain_id t l w conn_id) in
    subtask_runs (pending w') = subtask_runs (pending w)
    /\ raw_rows (pending w') = raw_rows (pending w)
    /\ tool_rows (pending w') = tool_rows (pending w)
    /\ durable w' = durable w.
Proof.
  induction l as [|[o x] rest IH]; intros w; [simpl; auto|].
  cbn [save_each].
  pose proof (save_keeps generate_domain_id t conn_id o (set_ext w x)) as Hs.
  cbv zeta in Hs. destruct Hs as (S1 & S2 & S3 & S4 & _).
  destruct (so_exn (_save generate_domain_id t o (set_ext w x) conn_id)).
  - cbv zeta. rewrite S1, S2, S3, S4. auto.
  - cbv zeta. cbn [so_world].
    specialize (IH (so_world (_save generate_domain_id t o (set_ext w x) conn_id))).
    cbv zeta in IH. destruct IH as (I1 & I2 & I3 & I4).
    rewrite I1, I2, I3, I4, S1, S2, S3, S4. auto.
Qed.

Lemma convertor_keeps_runs {W : Type} (stream : Stream W)
      (generate_domain_id : ToolModel -> Z -> string) (ctx : Ctx) :
  keeps_runs (Convertor stream generate_domain_id) ctx
  /\ never_commits (Convertor stream generate_domain_id) ctx.
Proof.
  assert (forall d w,
             subtask_runs (pending (so_world (Convertor_process stream
                                                generate_domain_id d w ctx)))
             = subtask_runs (pending w)
             /\ durable (so_world (Convertor_process stream generate_domain_id d w ctx))
                = durable w) as H.
  { intros d w. unfold Convertor_process.
    destruct (convert stream d (ext w)) as [res x1].
    destruct (is_Generator res).
    - destruct (convert stream d x1) as [res2 x2].
      pose proof (save_each_keeps generate_domain_id d (ctx_connection_id ctx)
                                  (gen_yields (steps res2 x2)) (set_ext w x2)) as Hk.
      cbv zeta in Hk. destruct Hk as (H1 & _ & _ & H4). cbv zeta.
      destruct (so_exn (save_each _ _ _ _ _)); cbn [so_world]; auto.
    - pose proof (save_keeps generate_domain_id d (ctx_connection_id ctx)
                             (as_object res) (set_ext w x1)) as Hs.
      cbv zeta in Hs. destruct Hs as (S1 & _ & _ & S4 & _).
      cbn [so_world]. auto. }
  assert (forall st (w : World W),
             subtask_runs (pending (snd (Convertor_fetch st w ctx)))
             = subtask_runs (pending w)
             /\ durable (snd (Convertor_fetch st w ctx)) = durable w) as Hf.
  { intros st w. unfold Convertor_fetch, flush. destruct (tx w); split; reflexivity. }
  repeat split; try reflexivity; intros; first [apply H|apply Hf].
Qed.

(** X4. The three stages of the file never touch the table of run records
    and never commit: both are left to the run-loop. *)
Theorem stages_leave_runs_and_commits_to_run {J : JsonLib} {W : Type}
        (stream : Stream W) (generate_domain_id : ToolModel -> Z -> string)
        (ctx : Ctx) :
  (keeps_runs (Collector stream) ctx /\ never_commits (Collector stream) ctx)
  /\ (keeps_runs (Extractor stream) ctx /\ never_commits (Extractor stream) ctx)
  /\ (keeps_runs (Convertor stream generate_domain_id) ctx
      /\ never_commits (Convertor stream generate_domain_id) ctx).
Proof.
  split; [apply collector_keeps_runs|].
  split; [apply extractor_keeps_runs|apply convertor_keeps_runs].
Qed.

(** X5. A run of a stage that leaves the run records alone, when it does
    not raise, adds exactly one row to the committed table of run records
    and changes no other: the record of this run, with a new key, the
    stage's name, the connection, the start time, the completion time, and
    the state it was finalized with. *)
Theorem run_appends_one_run_record {J : JsonLib} {W Data : Type}
        (self : Stage W Data) (ctx : Ctx) (sync_point_interval : Z)
        (now_start now_end : datetime) (db : DB) (x : W) :
  keeps_runs self ctx ->
  let r := run self ctx sync_point_interval now_start now_end (open_session db x) in
  raised r = None ->
  exists row,
    finalizations (events r) = [row]
    /\ subtask_runs (durable (final r)) = (subtask_runs db ++ [row])%list
    /\ id row = Some (next_id (subtask_runs db))
    /\ (forall old, In old (subtask_runs db) -> id old <> id row)
    /\ subtask_name row = name self
    /\ connection_id row = ctx_connection_id ctx
    /\ started row = now_start
    /\ completed row = Some now_end.
Proof.
  intros Hkeeps r Hr.
  destruct (@run_finished_runs J W Data self ctx sync_point_interval
              now_start now_end Hkeeps db x Hr) as [s [Hf Hrows]].
  eexists. split; [exact Hf|]. split; [exact Hrows|].
  repeat split. intros old Hin Heq.
  pose proof (next_id_fresh _ _ Hin) as Hfresh.
  cbn [id with_completed with_state started_run] in Heq.
  rewrite Heq in Hfresh. simpl in Hfresh. rewrite Z.eqb_refl in Hfresh.
  discriminate Hfresh.
Qed.

Lemma run_appends_one_run_record_witness :
  let r := run (J := PyJson.lib) (Sample.collector 3 None) (Sample.ctx true)
               100 50 60 (open_session Sample.two_runs 0%nat) in
  exists row,
    finalizations (events r) = [row]
    /\ subtask_runs (durable (final r)) = (subtask_runs Sample.two_runs ++ [row])%list
    /\ id row = Some 3
    /\ (forall old, In old (subtask_runs Sample.two_runs) -> id old <> id row)
    /\ subtask_name row = "collectGitlabIssues"
    /\ connection_id row = 1
    /\ started row = 50
    /\ completed row = Some 60.
Proof.
  exact (@run_appends_one_run_record PyJson.lib _ _ (Sample.collector 3 None)
           (Sample.ctx true) 100 50 60 Sample.two_runs 0%nat
           (proj1 (collector_keeps_runs _ _)) eq_refl).
Defined.

(** ** From one run to the next *)

(** A row added at the end of the table is the first of the ordered rows
    only if it started before every other. *)
Lemma first_order_by_started_snoc (l : list SubtaskRun) (r : SubtaskRun) :
  first (order_by_started (l ++ [r]))
  = match first (order_by_started l) with
    | None => Some r
    | Some x => if started x <=? started r then Some x else Some r
    end.
Proof.
  induction l as [|a l IH]; [reflexivity|].
  change (order_by_started ((a :: l) ++ [r]))
    with (insert_by_started a (order_by_started (l ++ [r]))).
  change (order_by_started (a :: l))
    with (insert_by_started a (order_by_started l)).
  rewrite !first_insert_by_started, IH.
  destruct (first (order_by_started l)) as [x|].
  - destruct (Z.leb_spec (started x) (started r));
      destruct (Z.leb_spec (started a) (started x));
      destruct (Z.leb_spec (started a) (started r));
      try reflexivity; try lia;
      destruct (Z.leb_spec (started x) (started r)); try reflexivity; lia.
  - destruct (Z.leb_spec (started a) (started r)); reflexivity.
Qed.

Section NextRun.
Context {J : JsonLib} {W Data : Type}.
Variable self : Stage W Data.
Variable ctx : Ctx.
Variable sync_point_interval : Z.
Variables now_start now_end : datetime.
Hypothesis Hkeeps : keeps_runs self ctx.

(** What [_get_last_state] returns once a run has finished. *)
Lemma get_last_state_after_run (db : DB) (x x' : W) (row : SubtaskRun) :
  let r := run self ctx sync_point_interval now_start now_end (open_session db x) in
  raised r = None ->
  finalizations (events r) = [row] ->
  _get_last_state self (open_session (durable (final r)) x') (ctx_connection_id ctx)
  = match first (last_state_stmt self db (ctx_connection_id ctx)) with
    | Some r0 => if started r0 <=? now_start
                 then json_loads (state r0) else json_loads (state row)
    | None => json_loads (state row)
    end.
Proof.
  intros r Hr Hrow.
  destruct (@run_finished_runs J W Data self ctx sync_point_interval
              now_start now_end Hkeeps db x Hr) as [s [Hf Hrows]].
  fold r in Hf, Hrows. rewrite Hf in Hrow. injection Hrow as Hrow.
  rewrite get_last_state_usable by reflexivity.
  unfold last_state_stmt. cbn [pending open_session].
  rewrite Hrows, filter_app. cbn [filter].
  rewrite Hrow in *.
  replace (subtask_name row) with (name self) by (rewrite <- Hrow; reflexivity).
  replace (connection_id row) with (ctx_connection_id ctx)
    by (rewrite <- Hrow; reflexivity).
  replace (completed row) with (Some now_end) by (rewrite <- Hrow; reflexivity).
  rewrite String.eqb_refl, Z.eqb_refl. cbn [andb is_some].
  rewrite first_order_by_started_snoc.
  replace (started row) with now_start by (rewrite <- Hrow; reflexivity).
  destruct (first (order_by_started _)) as [r0|]; [|reflexivity].
  destruct (started r0 <=? now_start); reflexivity.
Qed.
End NextRun.

(** An incremental run calls [fetch] first, with the state
    [_get_last_state] returns. *)
Lemma run_incremental_fetch {J : JsonLib} {W Data : Type} (self : Stage W Data)
      (ctx : Ctx) (sync_point_interval : Z) (now_start now_end : datetime)
      (w : World W) (st : json) :
  incremental ctx = true ->
  _get_last_state self w (ctx_connection_id ctx) = Ok st ->
  exists subtask_run rest,
    events (run self ctx sync_point_interval now_start now_end w)
    = EvStart subtask_run :: EvFetch st :: rest.
Proof.
  intros Hinc Hlast.
  pose proof (get_last_state_after_start self w (ctx_connection_id ctx) now_start)
    as Hsame.
  unfold run, run_setup.
  destruct (_start_subtask self w (ctx_connection_id ctx) now_start) as [w1 sr].
  cbn [fst] in Hsame. rewrite Hinc, Hsame, Hlast.
  destruct (run_from_events self ctx sync_point_interval now_end sr w1 st)
    as (rest & Hev & _).
  cbn [events]. rewrite Hev. exists sr, rest. reflexivity.
Qed.

(** X6. The first finished run of a subtask for a connection is resumed by
    the next incremental run: with no completed run on record before it,
    [_get_last_state] afterwards decodes the state this run was finalized
    with, and an incremental run of the same stage and connection calls
    [fetch] with the decoded state. *)
Theorem first_finished_run_is_resumed {J : JsonLib} {W Data : Type}
        (self : Stage W Data) (ctx ctx' : Ctx) (sync_point_interval interval' : Z)
        (now_start now_end start' end' : datetime) (db : DB) (x x' : W) :
  keeps_runs self ctx ->
  completed_runs (name self) (ctx_connection_id ctx) db = [] ->
  incremental ctx' = true ->
  ctx_connection_id ctx' = ctx_connection_id ctx ->
  let r := run self ctx sync_point_interval now_start now_end (open_session db x) in
  let w' := open_session (durable (final r)) x' in
  raised r = None ->
  exists row,
    finalizations (events r) = [row]
    /\ _get_last_state self w' (ctx_connection_id ctx) = json_loads (state row)
    /\ forall st,
         json_loads (state row) = Ok st ->
         exists subtask_run rest,
           events (run self ctx' interval' start' end' w')
           = EvStart subtask_run :: EvFetch st :: rest.
Proof.
  intros Hkeeps Hnone Hinc Hconn r w' Hr.
  destruct (@run_finished_runs J W Data self ctx sync_point_interval
              now_start now_end Hkeeps db x Hr) as [s [Hf _]].
  fold r in Hf. eexists. split; [exact Hf|].
  assert (_get_last_state self w' (ctx_connection_id ctx)
          = json_loads (state (with_completed
                                 (with_state (started_run self ctx now_start db) s)
                                 (Some now_end)))) as Hlast.
  { unfold w', r.
    rewrite (@get_last_state_after_run J W Data self ctx sync_point_interval
               now_start now_end Hkeeps db x x' _ Hr Hf).
    rewrite last_state_stmt_completed_runs, Hnone. reflexivity. }
  split; [exact Hlast|].
  intros st Hst. apply run_incremental_fetch; [exact Hinc|].
  rewrite Hconn, Hlast. exact Hst.
Qed.

Lemma first_finished_run_is_resumed_witness :
  let r := run (J := PyJson.lib) (Sample.collector 3 None) (Sample.ctx false)
               100 50 60 (open_session empty_db 0%nat) in
  exists subtask_run rest,
    events (run (J := PyJson.lib) (Sample.collector 3 None) (Sample.ctx true)
                100 70 80 (open_session (durable (final r)) 0%nat))
    = EvStart subtask_run :: EvFetch (JDict [("page", JInt 3)]) :: rest.
Proof.
  intros r.
  destruct (@first_finished_run_is_resumed PyJson.lib _ _
              (Sample.collector 3 None) (Sample.ctx false) (Sample.ctx true)
              100 100 50 60 70 80 empty_db 0%nat 0%nat
              (proj1 (collector_keeps_runs _ _)) eq_refl eq_refl eq_refl eq_refl)
    as (row & Hf & _ & Hnext).
  apply (Hnext (JDict [("page", JInt 3)])).
  vm_compute in Hf. injection Hf as <-. vm_compute. reflexivity.
Defined.

(** X7. Once a completed run of the subtask and connection is on record,
    started before a new run, finishing the new run does not change what
    [_get_last_state] returns: the state the new run was finalized with is
    not the one later incremental runs start from. *)
Theorem finished_run_leaves_last_state {J : JsonLib} {W Data : Type}
        (self : Stage W Data) (ctx : Ctx) (sync_point_interval : Z)
        (now_start now_end : datetime) (db : DB) (x x' : W) (r0 : SubtaskRun) :
  keeps_runs self ctx ->
  first (last_state_stmt self db (ctx_connection_id ctx)) = Some r0 ->
  started r0 < now_start ->
  let r := run self ctx sync_point_interval now_start now_end (open_session db x) in
  raised r = None ->
  _get_last_state self (open_session (durable (final r)) x') (ctx_connection_id ctx)
  = _get_last_state self (open_session db x) (ctx_connection_id ctx).
Proof.
  intros Hkeeps Hfirst Hle r Hr.
  destruct (@run_finished_runs J W Data self ctx sync_point_interval
              now_start now_end Hkeeps db x Hr) as [s [Hf _]].
  unfold r.
  rewrite (@get_last_state_after_run J W Data self ctx sync_point_interval
             now_start now_end Hkeeps db x x' _ Hr Hf).
  rewrite (get_last_state_usable self (open_session db x)) by reflexivity.
  cbn [pending open_session].
  rewrite Hfirst.
  apply Z.lt_le_incl, Z.leb_le in Hle. rewrite Hle. reflexivity.
Qed.

Lemma finished_run_leaves_last_state_witness :
  let r := run (J := PyJson.lib) (Sample.collector 3 None) (Sample.ctx true)
               100 50 60 (open_session Sample.two_runs 0%nat) in
  _get_last_state (J := PyJson.lib) (Sample.collector 3 None)
                  (open_session (durable (final r)) 0%nat) 1
  = _get_last_state (J := PyJson.lib) (Sample.collector 3 None)
                    (open_session Sample.two_runs 0%nat) 1.
Proof.
  refine (@finished_run_leaves_last_state PyJson.lib _ _
            (Sample.collector 3 None) (Sample.ctx true) 100 50 60
            Sample.two_runs 0%nat 0%nat (Sample.finished_run 1 10 1)
            (proj1 (collector_keeps_runs _ _)) eq_refl _ eq_refl).
  reflexivity.
Defined.

(** ** The order of processing and the state a run ends with *)

Section LoopOrder.
Context {J : JsonLib} {W Data : Type}.
Variable self : Stage W Data.
Variable ctx : Ctx.
Variable sync_point_interval : Z.

(** The loop takes the pairs in order, from the first on, without a gap;
    it ends with the state of the last pair it took; it stops early only
    with an exception. *)
Lemma loop_prefix (subtask_run : SubtaskRun) (its : list (Data * json))
      (fin : option exn) :
  forall (i : nat) (w : World W) (st : json),
    let o := loop self ctx sync_point_interval subtask_run its fin i w st in
    exists m,
      (m <= List.length its)%nat
      /\ processed (lo_events o) = seq i m
      /\ lo_state o = last (map snd (firstn m its)) st
      /\ ((m < List.length its)%nat -> lo_exn o <> None).
Proof.
  induction its as [|[d s'] rest IH]; intros i w st.
  - exists 0%nat. simpl. repeat split; auto. lia.
  - cbn [loop].
    assert (forall (wx : World W) (e : exn) (tail : list Event),
               processed tail = [] ->
               let o := {| lo_events := (EvProcess i
                                           :: map EvStage (so_events (process self d w ctx)))
                                        ++ tail;
                           lo_world := wx; lo_state := s'; lo_exn := Some e |} in
               exists m,
                 (m <= List.length ((d, s') :: rest))%nat
                 /\ processed (lo_events o) = seq i m
                 /\ lo_state o = last (map snd (firstn m ((d, s') :: rest))) st
                 /\ ((m < List.length ((d, s') :: rest))%nat -> lo_exn o <> None))
      as Hstop.
    { intros wx e tail Htail. exists 1%nat. cbn [lo_events lo_state lo_exn].
      split; [simpl; lia|]. split.
      - rewrite processed_call, Htail. reflexivity.
      - split; [reflexivity|discriminate]. }
    destruct (so_exn (process self d w ctx)) as [e|].
    { rewrite <- (app_nil_r (EvProcess i :: _)). now apply Hstop. }
    destruct (sync_point_interval =? 0).
    { rewrite <- (app_nil_r (EvProcess i :: _)). now apply Hstop. }
    destruct (at_sync_point sync_point_interval i).
    + destruct (checkpoint subtask_run s' (so_world (process self d w ctx)))
        as [[w1 r] [e|]].
      * now apply Hstop.
      * destruct (IH (S i) w1 s') as (m & Hm & Hp & Hs & He).
        exists (S m).
        rewrite prepend_events, prepend_state, prepend_exn.
        split; [simpl; lia|]. split; [|split].
        -- rewrite <- app_assoc, processed_call, processed_app, Hp. reflexivity.
        -- cbn [firstn map snd]. rewrite last_cons_default. exact Hs.
        -- intros Hlt. apply He. simpl in Hlt. lia.
    + destruct (IH (S i) (so_world (process self d w ctx)) s')
        as (m & Hm & Hp & Hs & He).
      exists (S m).
      rewrite prepend_events, prepend_state, prepend_exn.
      split; [simpl; lia|]. split; [|split].
      * rewrite processed_call, Hp. reflexivity.
      * cbn [firstn map snd]. rewrite last_cons_default. exact Hs.
      * intros Hlt. apply He. simpl in Hlt. lia.
Qed.

(** A loop that goes through its sequence without an exception has
    processed every pair. *)
Lemma loop_all_processed (subtask_run : SubtaskRun) (its : list (Data * json))
      (i : nat) (w : World W) (st : json) :
  let o := loop self ctx sync_point_interval subtask_run its None i w st in
  lo_exn o = None ->
  processed (lo_events o) = seq i (List.length its).
Proof.
  intros o Hnone.
  destruct (loop_prefix subtask_run its None i w st) as (m & Hm & Hp & _ & He).
  fold o in Hp, He.
  destruct (Nat.eq_dec m (List.length its)) as [<-|Hneq]; [exact Hp|].
  exfalso. apply He; [lia|exact Hnone].
Qed.

(** The loop over a sequence in two parts: when the first part goes
    through without an exception, the second is taken from the world and the
    index the first has reached. *)
Lemma loop_app (subtask_run : SubtaskRun) (before rest : list (Data * json))
      (fin : option exn) :
  forall (i : nat) (w : World W) (st : json),
    let o1 := loop self ctx sync_point_interval subtask_run before None i w st in
    let o2 := loop self ctx sync_point_interval subtask_run rest fin
                   (i + List.length before) (lo_world o1) (lo_state o1) in
    let o := loop self ctx sync_point_interval subtask_run (before ++ rest) fin i w st in
    lo_exn o1 = None ->
    lo_events o = (lo_events o1 ++ lo_events o2)%list
    /\ lo_world o = lo_world o2
    /\ lo_state o = lo_state o2
    /\ lo_exn o = lo_exn o2.
Proof.
  induction before as [|[d s'] before IH]; intros i w st.
  - cbn [app loop List.length lo_events lo_world lo_state lo_exn].
    rewrite Nat.add_0_r. auto.
  - rewrite <- app_comm_cons. cbn [loop List.length].
    destruct (so_exn (process self d w ctx)); [discriminate|].
    destruct (sync_point_interval =? 0); [discriminate|].
    replace (i + S (List.length before))%nat with (S i + List.length before)%nat
      by lia.
    destruct (at_sync_point sync_point_interval i).
    + destruct (checkpoint subtask_run s' (so_world (process self d w ctx)))
        as [[w1 r] [e|]]; [discriminate|].
      rewrite !prepend_events, !prepend_world, !prepend_state, !prepend_exn.
      intros H1. destruct (IH (S i) w1 s' H1) as (E1 & E2 & E3 & E4).
      rewrite E1, E2, E3, E4, <- !app_assoc. auto.
    + rewrite !prepend_events, !prepend_world, !prepend_state, !prepend_exn.
      intros H1.
      destruct (IH (S i) (so_world (process self d w ctx)) s' H1)
        as (E1 & E2 & E3 & E4).
      rewrite E1, E2, E3, E4, <- !app_assoc. auto.
Qed.
End LoopOrder.

(** X8. A run takes the pairs of the fetch sequence in order, from the
    first on, without a gap or a repeat: [process] is called for the indices
    0 to m-1, for some m up to the length of the sequence. The run stops
    before the end of the sequence only when an exception leaves the loop,
    and a run that does not raise is finalized with the state yielded with
    the last pair taken (the initial state when none was). *)
Theorem run_processes_in_order {J : JsonLib} {W Data : Type} (self : Stage W Data)
        (ctx : Ctx) (sync_point_interval : Z) (now_start now_end : datetime)
        (w w' : World W) (evs : list Event) (subtask_run : SubtaskRun) (st : json) :
  run_setup self ctx now_start w = SetupOk evs subtask_run w' st ->
  let r := run self ctx sync_point_interval now_start now_end w in
  let its := items (fst (fetch self st w' ctx)) in
  exists m,
    (m <= List.length its)%nat
    /\ processed (events r) = seq 0 m
    /\ ((m < List.length its)%nat ->
        loop_exn self ctx sync_point_interval now_start w <> None)
    /\ (raised r = None ->
        exists row,
          finalizations (events r) = [row]
          /\ state row = json_dumps (last (map snd (firstn m its)) st)).
Proof.
  intros Hsetup r its. subst r its.
  pose proof (run_setup_quiet self ctx now_start w) as Hq.
  pose proof (run_setup_events self ctx now_start w) as Hev.
  rewrite Hsetup in Hq, Hev. destruct Hq as (Hp & _). destruct Hev as (_ & Hnf & _).
  destruct (loop_prefix self ctx sync_point_interval subtask_run
              (items (fst (fetch self st w' ctx)))
              (ending (fst (fetch self st w' ctx)))
              0 (snd (fetch self st w' ctx)) st) as (m & Hm & Hproc & Hstate & Hearly).
  exists m. rewrite (run_after_setup _ _ _ _ _ _ Hsetup).
  cbn [events raised]. split; [exact Hm|]. split; [|split].
  - rewrite processed_app, Hp.
    rewrite (proj1 (run_from_observed self ctx sync_point_interval now_end
                                      subtask_run w' st)).
    exact Hproc.
  - unfold loop_exn. rewrite Hsetup. exact Hearly.
  - intros Hr.
    destruct (raised_none_caught self ctx sync_point_interval now_end
                                 subtask_run w' st Hr) as [Hexc Hflush].
    destruct (run_from_caught self ctx sync_point_interval now_end subtask_run w' st
                Hexc Hflush) as (_ & Hf & _).
    eexists. split.
    + rewrite finalizations_app, Hnf. exact Hf.
    + cbn [state with_completed with_state]. unfold loop_of. now rewrite Hstate.
Qed.

Lemma run_processes_in_order_witness :
  let r := run (J := PyJson.lib)
               (Sample.collector 3 (Some (PyException "ConnectionError" "reset")))
               (Sample.ctx true) 2 50 60 (open_session empty_db 0%nat) in
  exists m,
    (m <= 3)%nat
    /\ processed (events r) = seq 0 m
    /\ ((m < 3)%nat ->
        loop_exn (J := PyJson.lib)
                 (Sample.collector 3 (Some (PyException "ConnectionError" "reset")))
                 (Sample.ctx true) 2 50 (open_session empty_db 0%nat) <> None)
    /\ (raised r = None ->
        exists row,
          finalizations (events r) = [row]
          /\ state row
             = PyJson.dumps
                 (last (map snd (firstn m
                    (items (Sample.pages 3 (Some (PyException "ConnectionError" "reset"))))))
                       (JDict []))).
Proof.
  refine (@run_processes_in_order PyJson.lib _ _
            (Sample.collector 3 (Some (PyException "ConnectionError" "reset")))
            (Sample.ctx true) 2 50 60 (open_session empty_db 0%nat)
            _ _ _ (JDict []) _).
  vm_compute. reflexivity.
Defined.

(** X9. The first item whose [process] raises (an instance of
    [Exception]) ends the loop: the items before it and the item itself
    have been handed to [process], the items after it never are, and the
    exception is logged. What follows depends on the session the failing
    [process] leaves. When it can be flushed, the run is finalized with the
    state yielded with the failing item and does not raise. When it cannot
    ([process] raised because the flush of its merge was refused, which
    rolls the transaction back), the finalization raises what the flush
    raises to the caller, no run record is finalized and nothing more is
    committed. *)
Theorem run_stops_at_first_failure {J : JsonLib} {W Data : Type}
        (self : Stage W Data) (ctx : Ctx) (sync_point_interval : Z)
        (now_start now_end : datetime) (w w' : World W) (evs : list Event)
        (subtask_run : SubtaskRun) (st : json)
        (before after : list (Data * json)) (d : Data) (s : json) (e : exn) :
  run_setup self ctx now_start w = SetupOk evs subtask_run w' st ->
  items (fst (fetch self st w' ctx)) = (before ++ (d, s) :: after)%list ->
  let reached := loop self ctx sync_point_interval subtask_run before None 0
                      (snd (fetch self st w' ctx)) st in
  lo_exn reached = None ->
  let failing := process self d (lo_world reached) ctx in
  so_exn failing = Some e ->
  is_Exception e = true ->
  let r := run self ctx sync_point_interval now_start now_end w in
  processed (events r) = seq 0 (S (List.length before))
  /\ logged (events r) = [e]
  /\ match snd (flush (so_world failing)) with
     | None =>
         raised r = None
         /\ exists row,
              finalizations (events r) = [row]
              /\ state row = json_dumps s
              /\ completed row = Some now_end
              /\ In row (subtask_runs (durable (final r)))
     | Some e' =>
         raised r = Some e'
         /\ finalizations (events r) = []
         /\ durable (final r) = durable (so_world failing)
     end.
Proof.
  intros Hsetup Hits reached Hreached failing Hfail He r. subst r.
  pose proof (run_setup_quiet self ctx now_start w) as Hq.
  pose proof (run_setup_events self ctx now_start w) as Hev.
  rewrite Hsetup in Hq, Hev. destruct Hq as (Hp & Hl & _).
  destruct Hev as (_ & Hnf & _).
  destruct (loop_app self ctx sync_point_interval subtask_run before
              ((d, s) :: after) (ending (fst (fetch self st w' ctx)))
              0 (snd (fetch self st w' ctx)) st Hreached)
    as (Eev & Ew & Es & Ee).
  fold reached in Eev, Ew, Es, Ee. rewrite <- Hits in Eev, Ew, Es, Ee.
  fold (loop_of self ctx sync_point_interval subtask_run w' st) in Eev, Ew, Es, Ee.
  cbn [loop] in Eev, Ew, Es, Ee. fold failing in Eev, Ew, Es, Ee.
  rewrite Hfail in Eev, Ew, Es, Ee. cbn [lo_events lo_world lo_state lo_exn] in *.
  destruct (run_from_observed self ctx sync_point_interval now_end subtask_run w' st)
    as (Op & _ & _ & _ & Ol).
  rewrite Ee, He in Ol.
  rewrite (run_after_setup _ _ _ _ _ _ Hsetup). cbn [events raised final].
  split; [|split].
  - rewrite processed_app, Hp, Op, Eev, processed_app.
    pose proof (loop_all_processed self ctx sync_point_interval subtask_run before
                  0 _ st Hreached) as Hall.
    fold reached in Hall. rewrite Hall.
    rewrite <- (app_nil_r (EvProcess _ :: _)), processed_call.
    cbn [processed flat_map]. rewrite seq_S. reflexivity.
  - rewrite logged_app, Hl, Ol. reflexivity.
  - assert (forall e', lo_exn (loop_of self ctx sync_point_interval subtask_run w' st)
                       = Some e' -> is_Exception e' = true) as Hexc.
    { intros e'. rewrite Ee. now intros [= <-]. }
    destruct (snd (flush (so_world failing))) as [e'|] eqn:Hf.
    + destruct (run_from_refused self ctx sync_point_interval now_end
                                 subtask_run w' st (e' := e') Hexc) as (Hr & Hfin & Hw).
      { now rewrite Ew. }
      rewrite finalizations_app, Hnf, Hfin, Hw, Ew. auto.
    + destruct (run_from_caught self ctx sync_point_interval now_end
                                subtask_run w' st Hexc) as (Hr & Hfin & _ & Hin & _).
      { now rewrite Ew. }
      rewrite Es in Hfin, Hin.
      split; [exact Hr|]. eexists.
      rewrite finalizations_app, Hnf. split; [exact Hfin|].
      split; [reflexivity|]. split; [reflexivity|exact Hin].
Qed.

Lemma run_stops_at_first_failure_witness :
  (let good (n : Z) := {| params := "p"; data := PyJson.dumps (JInt n) |} in
   let bad := {| params := "p"; data := "not json" |} in
   let db := set_raw_rows empty_db [good 1; bad; good 3] in
   let r := run (J := PyJson.lib)
                (Extractor (J := PyJson.lib) (Sample.stream 0 None false []))
                (Sample.ctx false) 100 50 60 (open_session db 0%nat) in
   processed (events r) = [0%nat; 1%nat]
   /\ logged (events r) = [PyJson.JSONDecodeError "Expecting value"]
   /\ raised r = None
   /\ exists row,
        finalizations (events r) = [row]
        /\ state row = PyJson.dumps (JDict [])
        /\ completed row = Some 60
        /\ In row (subtask_runs (durable (final r))))
  /\ (let r := run (J := PyJson.lib) SampleStrict.strict (Sample.ctx false)
                   100 50 60 (open_session SampleStrict.refused_then_more 0%nat) in
      processed (events r) = [0%nat; 1%nat; 2%nat]
      /\ logged (events r) = [SampleStrict.IntegrityError]
      /\ raised r = Some PendingRollbackError
      /\ finalizations (events r) = []
      /\ durable (final r) = SampleStrict.refused_then_more).
Proof.
  split.
  - intros good bad db.
    pose (s := run_setup (J := PyJson.lib)
                 (Extractor (J := PyJson.lib) (Sample.stream 0 None false []))
                 (Sample.ctx false) 50 (open_session db 0%nat)).
    pose (w' := match s with SetupOk _ _ v _ | SetupRaise _ v _ => v end).
    pose (evs := match s with SetupOk l _ _ _ | SetupRaise l _ _ => l end).
    pose (sr := match s with
                | SetupOk _ x _ _ => x
                | SetupRaise _ _ _ => Sample.finished_run 0 0 0
                end).
    exact (@run_stops_at_first_failure PyJson.lib _ _
             (Extractor (J := PyJson.lib) (Sample.stream 0 None false []))
             (Sample.ctx false) 100 50 60 (open_session db 0%nat) w' evs sr (JDict [])
             [(good 1, JDict [])] [(good 3, JDict [])] bad (JDict [])
             (PyJson.JSONDecodeError "Expecting value")
             eq_refl eq_refl eq_refl eq_refl eq_refl).
  - pose (s := run_setup (J := PyJson.lib) SampleStrict.strict
                 (Sample.ctx false) 50
                 (open_session SampleStrict.refused_then_more 0%nat)).
    pose (w' := match s with SetupOk _ _ v _ | SetupRaise _ v _ => v end).
    pose (evs := match s with SetupOk l _ _ _ | SetupRaise l _ _ => l end).
    pose (sr := match s with
                | SetupOk _ x _ _ => x
                | SetupRaise _ _ _ => Sample.finished_run 0 0 0
                end).
    exact (@run_stops_at_first_failure PyJson.lib _ _
             SampleStrict.strict (Sample.ctx false) 100 50 60
             (open_session SampleStrict.refused_then_more 0%nat) w' evs sr (JDict [])
             [(SampleStrict.payload 1, JDict []); (SampleStrict.payload 7, JDict [])]
             [] (SampleStrict.payload 3) (JDict [])
             SampleStrict.IntegrityError
             eq_refl eq_refl eq_refl eq_refl eq_refl).
Defined.

(** X10. With a sync-point interval of 0 the sync-point test divides by
    zero on the first item, after its [process]: the run handles exactly
    one item, writes no checkpoint and yields nothing, and logs
    [ZeroDivisionError]. When the session the first [process] leaves can be
    flushed, the run is finalized with the state of that first item and does
    not raise; when it cannot, the finalization raises what the flush
    raises, and no run record is finalized. *)
Theorem run_interval_zero {J : JsonLib} {W Data : Type} (self : Stage W Data)
        (ctx : Ctx) (now_start now_end : datetime) (w w' : World W)
        (evs : list Event) (subtask_run : SubtaskRun) (st : json)
        (d : Data) (s : json) (rest : list (Data * json)) :
  run_setup self ctx now_start w = SetupOk evs subtask_run w' st ->
  items (fst (fetch self st w' ctx)) = (d, s) :: rest ->
  let first_call := process self d (snd (fetch self st w' ctx)) ctx in
  so_exn first_call = None ->
  let r := run self ctx 0 now_start now_end w in
  processed (events r) = [0%nat]
  /\ sync_marks (events r) = []
  /\ logged (events r) = [ZeroDivisionError]
  /\ match snd (flush (so_world first_call)) with
     | None =>
         raised r = None
         /\ exists row,
              finalizations (events r) = [row]
              /\ state row = json_dumps s
              /\ completed row = Some now_end
     | Some e' =>
         raised r = Some e' /\ finalizations (events r) = []
     end.
Proof.
  intros Hsetup Hits first_call Hok r. subst r.
  pose proof (run_setup_quiet self ctx now_start w) as Hq.
  pose proof (run_setup_events self ctx now_start w) as Hev.
  rewrite Hsetup in Hq, Hev. destruct Hq as (Hp & Hl & _).
  destruct Hev as (Hm & Hnf & _).
  assert (loop_of self ctx 0 subtask_run w' st
          = {| lo_events := EvProcess 0 :: map EvStage (so_events first_call);
               lo_world := so_world first_call;
               lo_state := s; lo_exn := Some ZeroDivisionError |}) as Hloop.
  { unfold loop_of. rewrite Hits. cbn [loop]. fold first_call.
    rewrite Hok. reflexivity. }
  destruct (run_from_observed self ctx 0 now_end subtask_run w' st)
    as (Op & _ & _ & _ & Ol).
  pose proof (run_from_sync_marks self ctx 0 now_end subtask_run w' st) as Om.
  rewrite Hloop in Op, Ol, Om. cbn [lo_events lo_exn] in *.
  rewrite (run_after_setup _ _ _ _ _ _ Hsetup). cbn [events raised].
  split; [|split; [|split]].
  - rewrite processed_app, Hp, Op.
    rewrite <- (app_nil_r (EvProcess 0 :: _)), processed_call. reflexivity.
  - rewrite sync_marks_app, Hm, Om.
    change (EvProcess 0 :: map EvStage (so_events first_call))
      with ([EvProcess 0] ++ map EvStage (so_events first_call))%list.
    rewrite sync_marks_app, sync_marks_stage. reflexivity.
  - rewrite logged_app, Hl, Ol. reflexivity.
  - assert (forall e', lo_exn (loop_of self ctx 0 subtask_run w' st) = Some e' ->
                       is_Exception e' = true) as Hexc.
    { intros e'. rewrite Hloop. cbn [lo_exn]. now intros [= <-]. }
    destruct (snd (flush (so_world first_call))) as [e'|] eqn:Hf.
    + destruct (run_from_refused self ctx 0 now_end subtask_run w' st (e' := e') Hexc)
        as (Hr & Hfin & _).
      { now rewrite Hloop. }
      rewrite finalizations_app, Hnf, Hfin. auto.
    + destruct (run_from_caught self ctx 0 now_end subtask_run w' st Hexc)
        as (Hr & Hfin & _).
      { now rewrite Hloop. }
      split; [exact Hr|]. eexists.
      rewrite finalizations_app, Hnf. split; [exact Hfin|].
      rewrite Hloop. split; reflexivity.
Qed.

Lemma run_interval_zero_witness :
  let r := run (J := PyJson.lib) (Sample.collector 3 None) (Sample.ctx true)
               0 50 60 (open_session empty_db 0%nat) in
  processed (events r) = [0%nat]
  /\ sync_marks (events r) = []
  /\ logged (events r) = [ZeroDivisionError]
  /\ raised r = None
  /\ exists row,
       finalizations (events r) = [row]
       /\ state row = PyJson.dumps (JDict [("page", JInt 1)])
       /\ completed row = Some 60.
Proof.
  pose (s := run_setup (J := PyJson.lib) (Sample.collector 3 None)
               (Sample.ctx true) 50 (open_session empty_db 0%nat)).
  pose (w' := match s with SetupOk _ _ v _ | SetupRaise _ v _ => v end).
  pose (evs := match s with SetupOk l _ _ _ | SetupRaise l _ _ => l end).
  pose (sr := match s with
              | SetupOk _ x _ _ => x
              | SetupRaise _ _ _ => Sample.finished_run 0 0 0
              end).
  exact (@run_interval_zero PyJson.lib _ _ (Sample.collector 3 None)
           (Sample.ctx true) 50 60 (open_session empty_db 0%nat)
           w' evs sr (JDict []) (JDict [("number", JInt 0)])
           (JDict [("page", JInt 1)]) _ eq_refl eq_refl eq_refl).
Defined.

(** ** What a checkpoint holds, and what an interrupted run leaves *)

Section SetupFacts.
Context {J : JsonLib} {W Data : Type}.
Variable self : Stage W Data.
Variable ctx : Ctx.


Lemma run_setup_durable (now_start : datetime) (w : World W) :
  never_commits self ctx ->
  match run_setup self ctx now_start w with
  | SetupOk _ _ w' _ | SetupRaise _ w' _ => durable w' = durable w
  end.
Proof.
  intros (_ & Hdel & _). unfold run_setup, _start_subtask, add_run. simpl.
  destruct (incremental ctx).
  - destruct (_get_last_state _ _ _); reflexivity.
  - destruct (so_exn (delete self _ ctx)); rewrite Hdel; reflexivity.
Qed.
End SetupFacts.



(** X12. A run that raises to its caller before any checkpoint was
    written, of a stage that does not commit by itself, leaves the committed
    database exactly as it found it: the run record, what [delete] removed
    and what [process] wrote are all discarded with the session. *)
Theorem run_interrupted_before_checkpoint {J : JsonLib} {W Data : Type}
        (self : Stage W Data) (ctx : Ctx) (sync_point_interval : Z)
        (now_start now_end : datetime) (w : World W) (e : exn) :
  never_commits self ctx ->
  let r := run self ctx sync_point_interval now_start now_end w in
  raised r = Some e ->
  sync_marks (events r) = [] ->
  durable (final r) = durable w /\ pending (final r) = durable w.
Proof.
  intros Hnc r Hr Hm. subst r.
  pose proof (@run_setup_durable J W Data self ctx now_start w Hnc) as Hd.
  pose proof (run_setup_events self ctx now_start w) as Hev.
  destruct (run_setup self ctx now_start w) as [evs sr w' st|evs w' e0] eqn:Hsetup.
  - destruct Hev as (Hsm & _).
    rewrite (run_after_setup _ _ _ _ _ _ Hsetup) in *.
    cbn [events final raised] in *.
    rewrite sync_marks_app, Hsm, run_from_sync_marks in Hm. cbn [app] in Hm.
    pose proof (loop_no_sync_durable self ctx sync_point_interval sr
                  (items (fst (fetch self st w' ctx)))
                  (ending (fst (fetch self st w' ctx)))
                  (proj1 Hnc) 0 (snd (fetch self st w' ctx)) st Hm) as Hl.
    fold (loop_of self ctx sync_point_interval sr w' st) in Hl.
    rewrite (proj2 (proj2 Hnc)), Hd in Hl.
    rewrite run_from_cases in *. cbv zeta in *.
    destruct (lo_exn _) as [e1|]; [destruct (is_Exception e1)|];
      try destruct (snd (flush _)); try discriminate Hr;
      cbn [final close durable pending]; rewrite Hl; split; reflexivity.
  - erewrite run_setup_raise by exact Hsetup.
    cbn [final close durable pending]. rewrite Hd. split; reflexivity.
Qed.

Lemma run_interrupted_before_checkpoint_witness :
  let r := run (J := PyJson.lib)
               (Sample.collector 3 (Some (PyBaseException "KeyboardInterrupt" "")))
               (Sample.ctx false) 100 50 60 (open_session Sample.collected 0%nat) in
  durable (final r) = Sample.collected /\ pending (final r) = Sample.collected.
Proof.
  refine (@run_interrupted_before_checkpoint PyJson.lib _ _
            (Sample.collector 3 (Some (PyBaseException "KeyboardInterrupt" "")))
            (Sample.ctx false) 100 50 60 (open_session Sample.collected 0%nat)
            (PyBaseException "KeyboardInterrupt" "")
            (proj2 (collector_keeps_runs _ _)) _ _).
  - reflexivity.
  - reflexivity.
Defined.

(** ** Collector runs *)

Lemma filter_filter_same {A : Type} (f : A -> bool) (l : list A) :
  filter f (filter f l) = filter f l.
Proof.
  induction l as [|a l IH]; simpl; [reflexivity|].
  destruct (f a) eqn:E; simpl; [rewrite E; f_equal|]; exact IH.
Qed.

Section CollectorRuns.
Context {J : JsonLib} {W : Type}.
Variable stream : Stream W.
Variable ctx : Ctx.

Lemma filter_raw_of (its : list (json * json)) :
  filter (fun old => negb (params old =? _params ctx)%string) (map (raw_of ctx) its)
  = [].
Proof.
  induction its as [|it its IH]; simpl; [reflexivity|].
  rewrite String.eqb_refl. exact IH.
Qed.

(** The loop of a Collector run is the loop over what the source returns,
    in the world the set-up left. *)
Lemma collector_loop_of (sync_point_interval : Z) (subtask_run : SubtaskRun)
      (w : World W) (st : json) :
  loop_of (Collector stream) ctx sync_point_interval subtask_run w st
  = loop (Collector stream) ctx sync_point_interval subtask_run
         (items (collect stream st ctx (ext w)))
         (ending (collect stream st ctx (ext w))) 0 w st.
Proof. reflexivity. Qed.

(** The rows a Collector run leaves, from the [try] on. *)
Lemma collector_run_rows (sync_point_interval : Z) (now_start now_end : datetime)
      (w w' : World W) (evs : list Event) (subtask_run : SubtaskRun) (st : json) :
  sync_point_interval <> 0 ->
  run_setup (Collector stream) ctx now_start w = SetupOk evs subtask_run w' st ->
  (forall e, ending (collect stream st ctx (ext w')) = Some e ->
             is_Exception e = true) ->
  let r := run (Collector stream) ctx sync_point_interval now_start now_end w in
  raised r = None
  /\ raw_rows (durable (final r))
     = (raw_rows (pending w')
        ++ map (raw_of ctx) (items (collect stream st ctx (ext w'))))%list.
Proof.
  intros Hint Hsetup Hend r. subst r.
  pose proof (collector_setup_usable stream ctx now_start w Hsetup) as Hu.
  rewrite (run_after_setup _ _ _ _ _ _ Hsetup). cbn [events final raised].
  destruct (@loop_through J W json (Collector stream) ctx sync_point_interval
              (collector_process_succeeds stream ctx) Hint subtask_run
              (items (collect stream st ctx (ext w')))
              (ending (collect stream st ctx (ext w'))) 0%nat w' st Hu)
    as (Hexn & _ & _ & Hu').
  destruct (run_from_caught (Collector stream) ctx sync_point_interval now_end
                            subtask_run w' st) as (Hr & _ & Hfin & _).
  { intros e. rewrite collector_loop_of, Hexn. apply Hend. }
  { rewrite collector_loop_of. now rewrite (flush_usable _ Hu'). }
  split; [exact Hr|].
  rewrite Hfin, collector_loop_of.
  cbn [written durable merge_run raw_rows set_subtask_runs].
  now rewrite collector_loop_rows.
Qed.

Lemma collector_setup_incremental (now_start : datetime) (db : DB) (x : W) (st : json) :
  incremental ctx = true ->
  _get_last_state (Collector stream) (open_session db x) (ctx_connection_id ctx) = Ok st ->
  exists subtask_run w1,
    run_setup (Collector stream) ctx now_start (open_session db x)
    = SetupOk [EvStart subtask_run] subtask_run w1 st
    /\ raw_rows (pending w1) = raw_rows db
    /\ ext w1 = x.
Proof.
  intros Hinc Hlast.
  pose proof (get_last_state_after_start (Collector stream) (open_session db x)
                                         (ctx_connection_id ctx) now_start) as Hsame.
  unfold run_setup. rewrite Hinc.
  destruct (_start_subtask (Collector stream) (open_session db x)
                           (ctx_connection_id ctx) now_start) as [w1 sr] eqn:Hstart.
  cbn [fst] in Hsame. rewrite Hsame, Hlast.
  exists sr, w1. split; [reflexivity|].
  unfold _start_subtask, add_run in Hstart. simpl in Hstart.
  injection Hstart as <- _. split; reflexivity.
Qed.
End CollectorRuns.

(** X13. A full refresh replaces what an earlier full refresh of the same
    scope collected: after two full-refresh runs of the Collector for one
    context, the committed raw table holds the rows of other params that
    were there at the start and the items of the second run only; when both
    runs fetch the same items the second run changes nothing. *)
Theorem collector_refresh_replaces_refresh {J : JsonLib} {W : Type}
        (stream : Stream W) (ctx : Ctx) (interval1 interval2 : Z)
        (start1 end1 start2 end2 : datetime) (db : DB) (x1 x2 : W) :
  incremental ctx = false ->
  interval1 <> 0 -> interval2 <> 0 ->
  (forall e, ending (collect stream (JDict []) ctx x1) = Some e ->
             is_Exception e = true) ->
  (forall e, ending (collect stream (JDict []) ctx x2) = Some e ->
             is_Exception e = true) ->
  let r1 := run (Collector stream) ctx interval1 start1 end1 (open_session db x1) in
  let r2 := run (Collector stream) ctx interval2 start2 end2
                (open_session (durable (final r1)) x2) in
  raw_rows (durable (final r2))
  = (filter (fun old => negb (params old =? _params ctx)%string) (raw_rows db)
     ++ map (raw_of ctx) (items (collect stream (JDict []) ctx x2)))%list
  /\ (items (collect stream (JDict []) ctx x2) = items (collect stream (JDict []) ctx x1) ->
      raw_rows (durable (final r2)) = raw_rows (durable (final r1))).
Proof.
  intros Hinc H1 H2 He1 He2 r1 r2.
  destruct (collector_setup stream ctx start1 db x1 Hinc)
    as (sr1 & w1 & Hs1 & Hraw1 & Hext1 & _).
  rewrite <- Hext1 in He1.
  destruct (@collector_run_rows J W stream ctx interval1 start1 end1
              _ _ _ _ _ H1 Hs1 He1) as [_ Hrows1].
  fold r1 in Hrows1. rewrite Hraw1, Hext1 in Hrows1.
  destruct (collector_setup stream ctx start2 (durable (final r1)) x2 Hinc)
    as (sr2 & w2 & Hs2 & Hraw2 & Hext2 & _).
  rewrite <- Hext2 in He2.
  destruct (@collector_run_rows J W stream ctx interval2 start2 end2
              _ _ _ _ _ H2 Hs2 He2) as [_ Hrows2].
  fold r2 in Hrows2. rewrite Hraw2, Hext2, Hrows1 in Hrows2.
  rewrite filter_app, filter_filter_same, filter_raw_of, app_nil_r in Hrows2.
  split; [exact Hrows2|].
  intros Hsame. rewrite Hrows2, Hrows1, Hsame. reflexivity.
Qed.

Lemma collector_refresh_replaces_refresh_witness :
  let r1 := run (J := PyJson.lib) (Sample.collector 3 None) (Sample.ctx false)
                100 50 60 (open_session Sample.collected 0%nat) in
  let r2 := run (J := PyJson.lib) (Sample.collector 3 None) (Sample.ctx false)
                100 70 80 (open_session (durable (final r1)) 0%nat) in
  raw_rows (durable (final r2)) = raw_rows (durable (final r1)).
Proof.
  refine (proj2 (@collector_refresh_replaces_refresh PyJson.lib _
                   (Sample.stream 3 None false []) (Sample.ctx false)
                   100 100 50 60 70 80 Sample.collected 0%nat 0%nat
                   eq_refl _ _ _ _) eq_refl); try discriminate.
Defined.

(** X14. An incremental run of the Collector deletes nothing: the committed
    raw table afterwards is the table as it was, followed by one row per
    item fetched from the last state, so items fetched again are stored
    again. *)
Theorem collector_incremental_appends {J : JsonLib} {W : Type} (stream : Stream W)
        (ctx : Ctx) (sync_point_interval : Z) (now_start now_end : datetime)
        (db : DB) (x : W) (st : json) :
  incremental ctx = true ->
  sync_point_interval <> 0 ->
  _get_last_state (Collector stream) (open_session db x) (ctx_connection_id ctx) = Ok st ->
  (forall e, ending (collect stream st ctx x) = Some e -> is_Exception e = true) ->
  let r := run (Collector stream) ctx sync_point_interval now_start now_end
               (open_session db x) in
  raised r = None
  /\ raw_rows (durable (final r))
     = (raw_rows db ++ map (raw_of ctx) (items (collect stream st ctx x)))%list.
Proof.
  intros Hinc Hint Hlast Hend r.
  destruct (collector_setup_incremental stream ctx now_start db x Hinc Hlast)
    as (sr & w1 & Hsetup & Hraw & Hext).
  rewrite <- Hext in Hend.
  destruct (@collector_run_rows J W stream ctx sync_point_interval now_start now_end
              _ _ _ _ _ Hint Hsetup Hend) as [Hr Hrows].
  fold r in Hr, Hrows. rewrite Hraw, Hext in Hrows. split; assumption.
Qed.

Lemma collector_incremental_appends_witness :
  let r := run (J := PyJson.lib) (Sample.collector 2 None) (Sample.ctx true)
               100 50 60 (open_session Sample.collected 0%nat) in
  raised r = None
  /\ raw_rows (durable (final r))
     = (raw_rows Sample.collected
        ++ map (raw_of (J := PyJson.lib) (Sample.ctx true))
               (items (Sample.pages 2 None)))%list.
Proof.
  refine (@collector_incremental_appends PyJson.lib _ (Sample.stream 2 None false [])
            (Sample.ctx true) 100 50 60 Sample.collected 0%nat (JDict [])
            eq_refl _ eq_refl _); discriminate.
Defined.

(** X15. In a session that can be flushed, [Collector.delete] removes what
    [Collector.process] of the same context added: deleting after processing
    an item leaves the raw table as deleting alone does; deleting twice is
    deleting once; and a row of other params is kept by both. In a session
    that cannot be flushed [delete] raises what the flush raises and
    removes nothing. *)
Theorem collector_delete_undoes_process {J : JsonLib} {W : Type}
        (item : json) (w : World W) (ctx : Ctx) :
  let rows (v : World W) := raw_rows (pending v) in
  let deleted := so_world (Collector_delete w ctx) in
  (tx w = Usable ->
   so_exn (Collector_delete w ctx) = None
   /\ rows (so_world (Collector_delete (so_world (Collector_process item w ctx)) ctx))
      = rows deleted
   /\ rows (so_world (Collector_delete deleted ctx)) = rows deleted
   /\ (forall r, In r (rows deleted) <-> In r (rows w) /\ params r <> _params ctx)
   /\ (forall r, params r <> _params ctx ->
                 In r (rows w) -> In r (rows (so_world (Collector_process item w ctx)))))
  /\ (forall e, snd (flush w) = Some e ->
                so_exn (Collector_delete w ctx) = Some e
                /\ rows deleted = rows w
                /\ durable deleted = durable w).
Proof.
  intros rows deleted. subst rows deleted. split.
  - intros Hu. unfold Collector_delete, Collector_process.
    cbn [so_world]. rewrite !(flush_usable w Hu).
    rewrite (flush_usable (set_pending w _)) by exact Hu.
    cbn [silent so_world so_exn].
    rewrite (flush_usable (set_pending w _)) by exact Hu.
    simpl. split; [reflexivity|]. split; [|split; [|split]].
    + rewrite filter_app. simpl. rewrite String.eqb_refl. simpl. apply app_nil_r.
    + apply filter_filter_same.
    + intros r. rewrite filter_In, negb_true_iff, String.eqb_neq. reflexivity.
    + intros r _ Hin. apply in_or_app. now left.
  - intros e He. unfold Collector_delete.
    destruct (flush_keeps w) as (Hd & Hp & _).
    destruct (flush w) as [w' [x|]]; cbn [snd fst] in *; [|discriminate].
    injection He as ->. cbn [raising so_exn so_world]. rewrite Hd, Hp. auto.
Qed.

Lemma collector_delete_undoes_process_witness :
  let w := open_session Sample.collected 0%nat in
  let ctx := Sample.ctx false in
  let rows (v : World nat) := raw_rows (pending v) in
  rows (so_world (Collector_delete (J := PyJson.lib)
                    (so_world (Collector_process (J := PyJson.lib) (JInt 9) w ctx)) ctx))
  = rows (so_world (Collector_delete (J := PyJson.lib) w ctx))
  /\ rows (so_world (Collector_delete (J := PyJson.lib) w ctx))
     = [Sample.raw "project-8" 2].
Proof.
  intros w ctx rows.
  split; [|reflexivity].
  exact (proj1 (proj2 (proj1 (@collector_delete_undoes_process PyJson.lib nat
                                 (JInt 9) w ctx) eq_refl))).
Defined.

(** ** Extractor and Convertor runs *)

Section ConstantState.
Context {J : JsonLib} {W Data : Type}.
Variable self : Stage W Data.
Variable ctx : Ctx.
Variable sync_point_interval : Z.

(** A sequence that yields the state it was given with every item leaves
    the state as it is, however the loop ends. *)
Lemma loop_constant_state (subtask_run : SubtaskRun) (its : list (Data * json))
      (fin : option exn) (st : json) :
  (forall p, In p its -> snd p = st) ->
  forall (i : nat) (w : World W),
    lo_state (loop self ctx sync_point_interval subtask_run its fin i w st) = st.
Proof.
  induction its as [|[d s'] rest IH]; intros Hst i w; [reflexivity|].
  assert (s' = st) as -> by (apply (Hst (d, s')); now left).
  assert (forall p, In p rest -> snd p = st) as Hrest
      by (intros p Hp; apply Hst; now right).
  cbn [loop].
  destruct (so_exn (process self d w ctx)); [reflexivity|].
  destruct (sync_point_interval =? 0); [reflexivity|].
  destruct (at_sync_point sync_point_interval i).
  - destruct (checkpoint subtask_run st (so_world (process self d w ctx)))
      as [[w1 r] [e|]]; [reflexivity|].
    rewrite prepend_state. apply IH. exact Hrest.
  - rewrite prepend_state. apply IH. exact Hrest.
Qed.

Lemma run_constant_state (now_start now_end : datetime) (w w' : World W)
      (evs : list Event) (subtask_run : SubtaskRun) (st : json) :
  run_setup self ctx now_start w = SetupOk evs subtask_run w' st ->
  (forall p, In p (items (fst (fetch self st w' ctx))) -> snd p = st) ->
  let r := run self ctx sync_point_interval now_start now_end w in
  raised r = None ->
  finalizations (events r)
  = [with_completed (with_state subtask_run (json_dumps st)) (Some now_end)].
Proof.
  intros Hsetup Hst r Hr. subst r.
  pose proof (run_setup_events self ctx now_start w) as Hev.
  rewrite Hsetup in Hev. destruct Hev as (_ & Hnf & _).
  rewrite (run_after_setup _ _ _ _ _ _ Hsetup) in *. cbn [events raised] in *.
  destruct (raised_none_caught self ctx sync_point_interval now_end
                               subtask_run w' st Hr) as [Hexc Hflush].
  destruct (run_from_caught self ctx sync_point_interval now_end subtask_run w' st
              Hexc Hflush) as (_ & Hf & _).
  rewrite finalizations_app, Hnf, Hf. unfold loop_of.
  rewrite (loop_constant_state subtask_run _ _ Hst). reflexivity.
Qed.
End ConstantState.

(** X16. Extraction and conversion never advance the state: an Extractor
    run and a Convertor run that do not raise are finalized with the state
    they started from (the empty state in a full refresh, the last state in
    an incremental run), whatever the rows they went through and however
    the loop ended. *)
Theorem extract_and_convert_keep_state {J : JsonLib} {W : Type} (stream : Stream W)
        (generate_domain_id : ToolModel -> Z -> string) (ctx : Ctx)
        (sync_point_interval : Z) (now_start now_end : datetime) (w : World W) :
  (forall evs subtask_run w' st,
      run_setup (Extractor stream) ctx now_start w = SetupOk evs subtask_run w' st ->
      let r := run (Extractor stream) ctx sync_point_interval now_start now_end w in
      raised r = None ->
      (incremental ctx = false -> st = JDict [])
      /\ finalizations (events r)
         = [with_completed (with_state subtask_run (json_dumps st)) (Some now_end)])
  /\ (forall evs subtask_run w' st,
         run_setup (Convertor stream generate_domain_id) ctx now_start w
         = SetupOk evs subtask_run w' st ->
         let r := run (Convertor stream generate_domain_id) ctx
                      sync_point_interval now_start now_end w in
         raised r = None ->
         (incremental ctx = false -> st = JDict [])
         /\ finalizations (events r)
            = [with_completed (with_state subtask_run (json_dumps st)) (Some now_end)]).
Proof.
  assert (forall (A B : Type) (f : A -> B) (l : list A) (st : json) (p : B * json),
             In p (map (fun a => (f a, st)) l) -> snd p = st) as Hmap.
  { intros A B f l st p Hin. apply in_map_iff in Hin.
    destruct Hin as [a [<- _]]. reflexivity. }
  split; intros evs sr w' st Hsetup r Hr; split.
  - intros Hinc. unfold run_setup in Hsetup.
    destruct (_start_subtask _ w _ now_start). rewrite Hinc in Hsetup.
    cbn [delete Extractor Extractor_delete silent so_exn so_world] in Hsetup.
    now injection Hsetup as _ _ _ <-.
  - apply (@run_constant_state J W _ (Extractor stream) ctx sync_point_interval
             now_start now_end w w' evs sr st Hsetup); [|exact Hr].
    intros p Hp. cbn [fetch Extractor] in Hp. unfold Extractor_fetch in Hp.
    destruct (flush w') as [v [e|]]; cbn [fst items] in Hp; [destruct Hp|].
    exact (Hmap _ _ (fun a => a) _ _ _ Hp).
  - intros Hinc. unfold run_setup in Hsetup.
    destruct (_start_subtask _ w _ now_start). rewrite Hinc in Hsetup.
    cbn [delete Convertor Convertor_delete silent so_exn so_world] in Hsetup.
    now injection Hsetup as _ _ _ <-.
  - apply (@run_constant_state J W _ (Convertor stream generate_domain_id) ctx
             sync_point_interval now_start now_end w w' evs sr st Hsetup);
      [|exact Hr].
    intros p Hp. cbn [fetch Convertor] in Hp. unfold Convertor_fetch in Hp.
    destruct (flush w') as [v [e|]]; cbn [fst items] in Hp; [destruct Hp|].
    exact (Hmap _ _ (fun a => a) _ _ _ Hp).
Qed.

Lemma extract_and_convert_keep_state_witness :
  let good (n : Z) := {| params := "p"; data := PyJson.dumps (JInt n) |} in
  let db := set_raw_rows empty_db [good 1; good 2] in
  let r := run (J := PyJson.lib)
               (Extractor (J := PyJson.lib) (Sample.stream 0 None false []))
               (Sample.ctx false) 100 50 60 (open_session db 0%nat) in
  finalizations (events r)
  = [{| id := Some 1; subtask_name := "extractGitlabIssues"; connection_id := 1;
        started := 50; completed := Some 60; state := "{}" |}].
Proof.
  intros good db.
  refine (proj2 (proj1 (@extract_and_convert_keep_state PyJson.lib _
                          (Sample.stream 0 None false []) Sample.generate_domain_id
                          (Sample.ctx false) 100 50 60 (open_session db 0%nat))
                       _ {| id := Some 1; subtask_name := "extractGitlabIssues";
                            connection_id := 1; started := 50; completed := None;
                            state := "{}" |} _ (JDict []) _ _)).
  - vm_compute. reflexivity.
  - reflexivity.
Defined.

(** ** Extractor: merging by primary key *)

Lemma upsert_tool_idem (t : ToolModel) (l : list ToolModel) :
  upsert_tool t (upsert_tool t l) = upsert_tool t l.
Proof.
  induction l as [|x l IH]; simpl.
  - now rewrite String.eqb_refl.
  - destruct (tool_key x =? tool_key t)%string eqn:E; simpl.
    + now rewrite String.eqb_refl.
    + rewrite E. f_equal. exact IH.
Qed.

Lemma upsert_tool_spec (t : ToolModel) (l : list ToolModel) :
  NoDup (map tool_key l) ->
  NoDup (map tool_key (upsert_tool t l))
  /\ forall x, In x (upsert_tool t l)
               <-> x = t \/ (In x l /\ tool_key x <> tool_key t).
Proof.
  induction l as [|y l IH]; intros Hnd.
  - simpl. split; [repeat constructor; auto|].
    intros x. split; [intros [<-|[]]; now left|intros [->|[[] _]]; now left].
  - simpl in Hnd. inversion Hnd as [|k ks Hnotin Hnd']; subst.
    simpl. destruct (String.eqb_spec (tool_key y) (tool_key t)) as [E|E].
    + split.
      * simpl. rewrite <- E. exact Hnd.
      * intros x. simpl. split.
        -- intros [<-|Hx]; [now left|]. right. split; [now right|].
           intros Hk. apply Hnotin. rewrite E, <- Hk. now apply in_map.
        -- intros [->|[[<-|Hx] Hk]]; [now left|contradiction|now right].
    + destruct (IH Hnd') as [IHnd IHin]. split.
      * simpl. constructor; [|exact IHnd].
        intros Hin. apply in_map_iff in Hin. destruct Hin as [z [Hz Hzin]].
        apply IHin in Hzin. destruct Hzin as [->|[Hzin _]].
        -- now apply E.
        -- apply Hnotin. rewrite <- Hz. now apply in_map.
      * intros x. simpl. rewrite IHin. split.
        -- intros [<-|[->|[Hx Hk]]]; [right; split; [now left|exact E]|now left|].
           right. split; [now right|exact Hk].
        -- intros [->|[[<-|Hx] Hk]]; [right; now left|now left|].
           right. right. split; assumption.
Qed.

(** X17. Extracting a raw record again changes nothing: unless a write
    that the database refuses is queued in the session, [Extractor.process]
    applied a second time to the same raw record returns as the first time
    and leaves the database as the first time left it. *)
Theorem extractor_reprocess_idempotent {J : JsonLib} {W : Type} (stream : Stream W)
        (raw : RawModel) (w : World W) (ctx : Ctx) :
  (forall e, tx w <> Refused e) ->
  let once := Extractor_process stream raw w ctx in
  Extractor_process stream raw (so_world once) ctx = once.
Proof.
  intros Hq once. subst once. unfold Extractor_process.
  destruct (json_loads (data raw)) as [v|e]; [|reflexivity].
  destruct (extract stream v) as [t|e]; [|reflexivity].
  unfold flush. destruct (tx w) as [|e|] eqn:E.
  - cbn [silent so_world tx set_pending]. rewrite E.
    unfold silent, set_pending, set_tool_rows. simpl.
    rewrite upsert_tool_idem. reflexivity.
  - exfalso. exact (Hq e eq_refl).
  - cbn [raising so_world]. rewrite E. reflexivity.
Qed.

Lemma extractor_reprocess_idempotent_witness :
  let raw := {| params := "p"; data := PyJson.dumps (JInt 7) |} in
  let w := open_session empty_db 0%nat in
  let once := Extractor_process (J := PyJson.lib) (Sample.stream 0 None false [])
                                raw w (Sample.ctx false) in
  Extractor_process (J := PyJson.lib) (Sample.stream 0 None false [])
                    raw (so_world once) (Sample.ctx false) = once.
Proof.
  intros raw w.
  refine (@extractor_reprocess_idempotent PyJson.lib nat
            (Sample.stream 0 None false []) raw w (Sample.ctx false) _).
  intros e. discriminate.
Defined.

(** X18. [Extractor.process] merges by primary key: when the payload
    decodes, the stream extracts a tool record from it and the session can
    be flushed, that record, with the raw record as its origin, is in the
    tool table afterwards; in a table of unique keys the keys stay unique,
    the record replaces the one of its key, and every record of another key
    is kept. When decoding or extraction raises, the exception is passed on
    and the database is left as it was; when the flush of the merge fails,
    [process] raises what the flush raises and merges nothing. *)
Theorem extractor_process_merges_by_key {J : JsonLib} {W : Type} (stream : Stream W)
        (raw : RawModel) (w : World W) (ctx : Ctx) :
  let out := Extractor_process stream raw w ctx in
  let rows := tool_rows (pending w) in
  let rows' := tool_rows (pending (so_world out)) in
  (forall v t,
      json_loads (data raw) = Ok v ->
      extract stream v = Ok t ->
      tx w = Usable ->
      so_exn out = None
      /\ In (set_origin t raw) rows'
      /\ (NoDup (map tool_key rows) ->
          NoDup (map tool_key rows')
          /\ forall x, In x rows'
                       <-> x = set_origin t raw
                           \/ (In x rows /\ tool_key x <> tool_key t)))
  /\ (forall e,
         json_loads (data raw) = Raise e
         \/ (exists v, json_loads (data raw) = Ok v /\ extract stream v = Raise e) ->
         so_exn out = Some e /\ so_world out = w)
  /\ (forall v t e,
         json_loads (data raw) = Ok v ->
         extract stream v = Ok t ->
         snd (flush w) = Some e ->
         so_exn out = Some e /\ rows' = rows).
Proof.
  intros out rows rows'. subst out rows rows'. unfold Extractor_process.
  split; [|split].
  - intros v t -> -> Hu. rewrite (flush_usable w Hu). simpl.
    split; [reflexivity|].
    assert (forall l, In (set_origin t raw) (upsert_tool (set_origin t raw) l)) as Hin.
    { induction l as [|y l IH]; simpl; [now left|].
      destruct (tool_key y =? tool_key t)%string; simpl; auto. }
    split; [apply Hin|].
    intros Hnd. apply (upsert_tool_spec (set_origin t raw)) in Hnd. exact Hnd.
  - intros e [->|[v [-> ->]]]; split; reflexivity.
  - intros v t e -> -> He.
    destruct (flush_keeps w) as (_ & Hp & _).
    destruct (flush w) as [w' [x|]]; cbn [snd fst] in *; [|discriminate].
    injection He as ->. cbn [raising so_exn so_world]. rewrite Hp. auto.
Qed.

Lemma extractor_process_merges_by_key_witness :
  let raw := {| params := "p"; data := PyJson.dumps (JInt 7) |} in
  let old := {| tool_key := "7"; tool_fields := JNull; tool_origin := None |} in
  let other := {| tool_key := "8"; tool_fields := JNull; tool_origin := None |} in
  let w := open_session (set_tool_rows empty_db [old; other]) 0%nat in
  let fresh := {| tool_key := "7"; tool_fields := JInt 7; tool_origin := Some raw |} in
  let rows' := tool_rows (pending (so_world
                 (Extractor_process (J := PyJson.lib) (Sample.stream 0 None false [])
                                    raw w (Sample.ctx false)))) in
  NoDup (map tool_key rows')
  /\ forall x, In x rows' <-> x = fresh \/ (In x [old; other] /\ tool_key x <> "7").
Proof.
  intros raw old other w fresh.
  refine (proj2 (proj2 (proj1 (@extractor_process_merges_by_key PyJson.lib _
            (Sample.stream 0 None false []) raw w (Sample.ctx false))
            (JInt 7) {| tool_key := "7"; tool_fields := JInt 7; tool_origin := None |}
            eq_refl eq_refl eq_refl)) _).
  simpl. repeat constructor; simpl; intuition discriminate.
Defined.

(** ** Convertor: one id per tool record *)

Lemma upsert_domain_overwrite (d1 d2 : DomainModel) (l : list DomainModel) :
  domain_kind d1 = domain_kind d2 ->
  domain_id d1 = domain_id d2 ->
  upsert_domain d2 (upsert_domain d1 l) = upsert_domain d2 l.
Proof.
  intros Hk Hi. induction l as [|x l IH]; simpl.
  - now rewrite Hk, Hi, !String.eqb_refl.
  - rewrite Hk, Hi.
    destruct ((domain_kind x =? domain_kind d2)%string
              && (domain_id x =? domain_id d2)%string) eqn:E; simpl.
    + now rewrite Hk, Hi, !String.eqb_refl.
    + rewrite E. f_equal. exact IH.
Qed.

(** Whatever the session, what [_save] and the loop over it merge carries
    the generated id. *)
Lemma save_each_upserts_id {W : Type} (generate_domain_id : ToolModel -> Z -> string)
      (t : ToolModel) (conn_id : Z) (l : list (pyobj * W)) :
  forall (w : World W) (d : DomainModel),
    In d (upserts (so_events (save_each generate_domain_id t l w conn_id))) ->
    domain_id d = generate_domain_id t conn_id.
Proof.
  assert (forall (o : pyobj) (v : World W) (d : DomainModel),
             In d (upserts (so_events (_save generate_domain_id t o v conn_id))) ->
             domain_id d = generate_domain_id t conn_id) as Hsave.
  { intros [d0|ty repr] v d; cbn [_save]; [|intros []].
    unfold flush. destruct (tx v); simpl; [intros [<-|[]]; reflexivity|intros []..]. }
  induction l as [|[o x] rest IH]; intros w d; [intros []|].
  cbn [save_each].
  destruct (so_exn (_save generate_domain_id t o (set_ext w x) conn_id)).
  - apply Hsave.
  - cbv zeta. cbn [so_events]. unfold upserts. rewrite flat_map_app.
    intros Hin. apply in_app_or in Hin. destruct Hin as [Hin|Hin].
    + exact (Hsave _ _ _ Hin).
    + exact (IH _ _ Hin).
Qed.

(** X19. Every DomainModel one call of [Convertor.process] merges carries
    the same id, the one generated from the tool record and the connection,
    whatever id the stream gave it and whichever branch of [process] was
    taken. *)
Theorem convertor_upserts_share_generated_id {W : Type} (stream : Stream W)
        (generate_domain_id : ToolModel -> Z -> string) (tool_model : ToolModel)
        (w : World W) (ctx : Ctx) (d : DomainModel) :
  In d (upserts (so_events (Convertor_process stream generate_domain_id
                                              tool_model w ctx))) ->
  domain_id d = generate_domain_id tool_model (ctx_connection_id ctx).
Proof.
  unfold Convertor_process.
  destruct (convert stream tool_model (ext w)) as [res x1].
  destruct (is_Generator res).
  - destruct (convert stream tool_model x1) as [res2 x2]. cbv zeta.
    pose proof (save_each_upserts_id generate_domain_id tool_model
                  (ctx_connection_id ctx) (gen_yields (steps res2 x2))
                  (set_ext w x2) d) as H.
    destruct (so_exn (save_each _ _ _ _ _)); cbn [so_events]; exact H.
  - cbn [so_events].
    change (upserts (SConvertCall tool_model :: ?l)) with (upserts l).
    destruct (as_object res) as [d0|ty repr]; cbn [_save]; [|intros []].
    unfold flush. destruct (tx (set_ext w x1)); simpl;
      [intros [<-|[]]; reflexivity|intros []..].
Qed.

Lemma convertor_upserts_share_generated_id_witness :
  domain_id (with_domain_id (Sample.issue "b")
                            (Sample.generate_domain_id Sample.tool 1))
  = Sample.generate_domain_id Sample.tool 1.
Proof.
  refine (@convertor_upserts_share_generated_id nat
            (Sample.stream 0 None true
               [PDomain (Sample.issue "a"); PDomain (Sample.issue "b")])
            Sample.generate_domain_id Sample.tool (open_session empty_db 0%nat)
            (Sample.ctx false) _ _).
  vm_compute. right. left. reflexivity.
Defined.

(** X20. Two DomainModels of one class converted from one tool record land
    on one row: when the generator hands the loop two DomainModels of the
    same class, in a session that can be flushed, the second merge
    overwrites the first, and the domain table is what merging the second
    alone would have made it. *)
Theorem convertor_same_class_last_wins {W : Type} (stream : Stream W)
        (generate_domain_id : ToolModel -> Z -> string) (tool_model : ToolModel)
        (w : World W) (ctx : Ctx) (g : W -> GenRun W)
        (x1 x2 x3 : W) (res2 : ConvOut W) (fin : option exn) (a b : DomainModel) :
  tx w = Usable ->
  convert stream tool_model (ext w) = (RetGenerator g, x1) ->
  convert stream tool_model x1 = (res2, x2) ->
  iterate res2 x2 = (([PDomain a; PDomain b], fin), x3) ->
  domain_kind a = domain_kind b ->
  let out := Convertor_process stream generate_domain_id tool_model w ctx in
  let saved d :=
    with_domain_id d (generate_domain_id tool_model (ctx_connection_id ctx)) in
  upserts (so_events out) = [saved a; saved b]
  /\ domain_rows (pending (so_world out))
     = upsert_domain (saved b) (domain_rows (pending w)).
Proof.
  intros Hu H1 H2 H3 Hk out saved. subst out.
  unfold Convertor_process. rewrite H1. cbn [is_Generator]. rewrite H2.
  unfold iterate in H3. injection H3 as Hv _ _.
  pose proof (save_each_usable generate_domain_id tool_model
                (ctx_connection_id ctx) (gen_yields (steps res2 x2))
                (set_ext w x2) Hu) as H.
  cbv zeta in H. destruct H as (H0 & Hup & _ & _ & _ & _ & Hrows).
  rewrite Hv in Hup, Hrows.
  cbv zeta. rewrite H0. cbn [so_events so_world].
  split; [exact Hup|].
  cbn [pending set_ext]. rewrite Hrows. cbn [domain_models flat_map app map fold_left].
  apply upsert_domain_overwrite; [exact Hk|reflexivity].
Qed.

Lemma convertor_same_class_last_wins_witness :
  let a := Sample.issue "a" in
  let b := Sample.issue "b" in
  let out := Convertor_process
               (Sample.stream 0 None true [PDomain a; PDomain b])
               Sample.generate_domain_id Sample.tool
               (open_session empty_db 0%nat) (Sample.ctx false) in
  let saved d := with_domain_id d (Sample.generate_domain_id Sample.tool 1) in
  upserts (so_events out) = [saved a; saved b]
  /\ domain_rows (pending (so_world out)) = [saved b].
Proof.
  intros a b.
  exact (@convertor_same_class_last_wins nat
           (Sample.stream 0 None true [PDomain a; PDomain b])
           Sample.generate_domain_id Sample.tool (open_session empty_db 0%nat)
           (Sample.ctx false) _ 1%nat 2%nat 12%nat _ None a b
           eq_refl eq_refl eq_refl eq_refl eq_refl).
Defined.

(** ** SubstreamCollector: one sequence after the other *)

Lemma chain_all (Data : Type) (l : list (FetchSeq Data)) :
  (forall s, In s l -> ending s = None) ->
  items (chain l) = flat_map (@items Data) l /\ ending (chain l) = None.
Proof.
  induction l as [|s l IH]; intros Hok; [split; reflexivity|].
  cbn [chain flat_map]. rewrite (Hok s (or_introl eq_refl)).
  destruct IH as [Hi He]; [intros s' Hs'; apply Hok; now right|].
  cbn [items ending]. rewrite Hi, He. split; reflexivity.
Qed.

Lemma chain_first_raise (Data : Type) (before after : list (FetchSeq Data))
      (s : FetchSeq Data) (e : exn) :
  (forall s', In s' before -> ending s' = None) ->
  ending s = Some e ->
  items (chain (before ++ s :: after)) = (flat_map (@items Data) before ++ items s)%list
  /\ ending (chain (before ++ s :: after)) = Some e.
Proof.
  intros Hok He. induction before as [|s0 before IH].
  - cbn [app chain flat_map]. rewrite He. split; [reflexivity|exact He].
  - rewrite <- app_comm_cons. cbn [chain flat_map].
    rewrite (Hok s0 (or_introl eq_refl)).
    destruct IH as [Hi Hf]; [intros s' Hs'; apply Hok; now right|].
    cbn [items ending]. rewrite Hi, Hf, app_assoc. split; reflexivity.
Qed.

(** X21. [SubstreamCollector.fetch], in a session that can be flushed,
    collects the children of every parent from the same initial state and
    yields them parent after parent: when no parent's sequence raises, the
    items are those of all parents, in table order (none without parents);
    the first parent whose sequence raises ends the fetch with that
    exception, after the items of the parents before it and its own, and the
    parents after it are not collected. In a session that cannot be flushed
    the query for the parents raises what the flush raises, and nothing is
    collected. *)
Theorem substream_fetch_chains_parents {J : JsonLib} {W : Type}
        (stream : Substream W) (state : json) (w : World W) (ctx : Ctx) :
  let children parent := collect_children stream state ctx parent (ext w) in
  let fs := fst (SubstreamCollector_fetch stream state w ctx) in
  (tx w = Usable ->
   ((forall parent, In parent (parents stream (pending w)) ->
                    ending (children parent) = None) ->
    items fs = flat_map (fun parent => items (children parent))
                        (parents stream (pending w))
    /\ ending fs = None)
   /\ (forall before parent after e,
          parents stream (pending w) = (before ++ parent :: after)%list ->
          (forall p, In p before -> ending (children p) = None) ->
          ending (children parent) = Some e ->
          items fs = (flat_map (fun p => items (children p)) before
                      ++ items (children parent))%list
          /\ ending fs = Some e))
  /\ (forall e, snd (flush w) = Some e -> items fs = [] /\ ending fs = Some e).
Proof.
  intros children fs. subst fs. unfold SubstreamCollector_fetch. split.
  - intros Hu. rewrite (flush_usable w Hu). cbn [fst]. fold children.
    split.
    + intros Hok.
      destruct (chain_all (map children (parents stream (pending w)))) as [Hi He].
      { intros s Hs. apply in_map_iff in Hs. destruct Hs as [p [<- Hp]].
        now apply Hok. }
      rewrite Hi, He, flat_map_concat_map, map_map, <- flat_map_concat_map.
      split; reflexivity.
    + intros before parent after e Hps Hok He. rewrite Hps, map_app. cbn [map].
      destruct (chain_first_raise (map children before) (map children after)
                                  (children parent) (e := e)) as [Hi Hf].
      { intros s Hs. apply in_map_iff in Hs. destruct Hs as [p [<- Hp]].
        now apply Hok. }
      { exact He. }
      rewrite Hi, Hf, flat_map_concat_map, map_map, <- flat_map_concat_map.
      split; reflexivity.
  - intros e He. destruct (flush w) as [w' [x|]]; cbn [snd] in He; [|discriminate].
    injection He as ->. split; reflexivity.
Qed.

Lemma substream_fetch_chains_parents_witness :
  let a := SampleSub.parent "a" in
  let bad := SampleSub.parent "bad" in
  let fs := fst (SubstreamCollector_fetch SampleSub.stream (JDict [])
                   (open_session SampleSub.db 0%nat) (Sample.ctx false)) in
  items fs = [SampleSub.child a 1; SampleSub.child a 2; SampleSub.child bad 1]
  /\ ending fs = Some (PyException "ConnectionError" "reset").
Proof.
  intros a bad.
  refine (proj2 (proj1 (@substream_fetch_chains_parents PyJson.lib nat SampleSub.stream
                          (JDict []) (open_session SampleSub.db 0%nat) (Sample.ctx false))
                       eq_refl)
                [a] bad [SampleSub.parent "c"]
                (PyException "ConnectionError" "reset") eq_refl _ eq_refl).
  intros p [<-|[]]. reflexivity.
Defined.

(** ** What an interrupted Collector run has committed *)

Lemma last_map_some (l : list nat) (d : option nat) :
  last (map Some l) d = match l with
                        | [] => d
                        | _ :: _ => last (map Some l) None
                        end.
Proof.
  destruct l as [|a l]; [reflexivity|].
  cbn [map]. now rewrite !last_cons_default.
Qed.

Lemma last_sync_cons (n : Z) (i len : nat) :
  last_sync n i (S len)
  = match last_sync n (S i) len with
    | Some k => Some k
    | None => if at_sync_point n i then Some i else None
    end.
Proof.
  unfold last_sync. cbn [seq filter].
  set (F := filter (at_sync_point n) (seq (S i) len)).
  assert (F <> [] -> exists k, last (map Some F) None = Some k) as Hsome.
  { clear. induction F as [|a F IH]; [congruence|]. intros _.
    cbn [map]. rewrite last_cons_default.
    destruct F as [|b F]; [now exists a|].
    rewrite last_map_some. apply IH. discriminate. }
  destruct (at_sync_point n i).
  - cbn [map]. rewrite last_cons_default, last_map_some.
    destruct F as [|a F]; [reflexivity|].
    destruct Hsome as [k Hk]; [discriminate|]. now rewrite Hk.
  - destruct F as [|a F]; [reflexivity|].
    destruct Hsome as [k Hk]; [discriminate|]. now rewrite Hk.
Qed.

Lemma last_sync_bound (n : Z) (len : nat) :
  forall i k, last_sync n i len = Some k -> (i <= k)%nat.
Proof.
  induction len as [|len IH]; intros i k; [discriminate|].
  rewrite last_sync_cons.
  destruct (last_sync n (S i) len) as [k'|] eqn:E.
  - intros [= <-]. apply IH in E. lia.
  - destruct (at_sync_point n i); [intros [= <-]; lia|discriminate].
Qed.

Section CollectorInterrupted.
Context {J : JsonLib} {W : Type}.
Variable stream : Stream W.
Variable ctx : Ctx.
Variable sync_point_interval : Z.

(** What the loop of a Collector run has committed when it ends: the rows
    of the items up to the last sync point, or nothing new. *)
Lemma collector_loop_committed (subtask_run : SubtaskRun) (its : list (json * json))
      (fin : option exn) :
  sync_point_interval <> 0 ->
  forall (i : nat) (w : World W) (state : json),
    tx w = Usable ->
    raw_rows (durable (lo_world (loop (Collector stream) ctx sync_point_interval
                                      subtask_run its fin i w state)))
    = match last_sync sync_point_interval i (List.length its) with
      | Some k => (raw_rows (pending w)
                   ++ map (raw_of ctx) (firstn (S k - i) its))%list
      | None => raw_rows (durable w)
      end.
Proof.
  intros Hint.
  induction its as [|[d s'] rest IH]; intros i w state Hu; [reflexivity|].
  cbn [loop List.length]. cbn [so_exn process Collector Collector_process].
  rewrite last_sync_cons.
  destruct (Z.eqb_spec sync_point_interval 0) as [E|_]; [contradiction|].
  pose proof (last_sync_bound sync_point_interval (List.length rest) (S i)) as Hb.
  destruct (at_sync_point sync_point_interval i).
  - rewrite checkpoint_usable by exact Hu.
    rewrite prepend_world, IH by exact Hu.
    destruct (last_sync sync_point_interval (S i) (List.length rest)) as [k|].
    + specialize (Hb k eq_refl).
      replace (S k - i)%nat with (S (S k - S i)) by lia.
      simpl. rewrite <- app_assoc. reflexivity.
    + replace (S i - i)%nat with 1%nat by lia. reflexivity.
  - rewrite prepend_world, IH by exact Hu.
    destruct (last_sync sync_point_interval (S i) (List.length rest)) as [k|].
    + specialize (Hb k eq_refl).
      replace (S k - i)%nat with (S (S k - S i)) by lia.
      simpl. rewrite <- app_assoc. reflexivity.
    + reflexivity.
Qed.
End CollectorInterrupted.

(** X22. A Collector run interrupted by an exception outside [Exception]
    at the end of its fetch sequence raises to its caller and keeps what
    was committed at the last sync point: with k the last index the
    sync-point test selected, the committed raw table is the table as the
    run's start left it (after [delete], in a full refresh) followed by the
    rows of the items 0 to k, and the rows of later items are lost; when no
    sync point was reached the committed raw table is the one from before
    the run. *)
Theorem collector_interrupted_keeps_checkpointed {J : JsonLib} {W : Type}
        (stream : Stream W) (ctx : Ctx) (sync_point_interval : Z)
        (now_start now_end : datetime) (w w' : World W) (evs : list Event)
        (subtask_run : SubtaskRun) (st : json) (e : exn) :
  sync_point_interval <> 0 ->
  run_setup (Collector stream) ctx now_start w = SetupOk evs subtask_run w' st ->
  ending (collect stream st ctx (ext w')) = Some e ->
  is_Exception e = false ->
  let r := run (Collector stream) ctx sync_point_interval now_start now_end w in
  let its := items (collect stream st ctx (ext w')) in
  raised r = Some e
  /\ raw_rows (durable (final r))
     = match last_sync sync_point_interval 0 (List.length its) with
       | Some k => (raw_rows (pending w') ++ map (raw_of ctx) (firstn (S k) its))%list
       | None => raw_rows (durable w)
       end.
Proof.
  intros Hint Hsetup Hend He r its. subst r its.
  pose proof (@run_setup_durable J W json (Collector stream) ctx now_start w
                (proj2 (collector_keeps_runs stream ctx))) as Hd.
  rewrite Hsetup in Hd.
  pose proof (collector_setup_usable stream ctx now_start w Hsetup) as Hu.
  rewrite (run_after_setup _ _ _ _ _ _ Hsetup). cbn [events final raised].
  destruct (@loop_through J W json (Collector stream) ctx sync_point_interval
              (collector_process_succeeds stream ctx) Hint subtask_run
              (items (collect stream st ctx (ext w')))
              (ending (collect stream st ctx (ext w'))) 0%nat w' st Hu)
    as (Hexn & _).
  destruct (run_from_uncaught (Collector stream) ctx sync_point_interval now_end
              subtask_run w' st (e := e)) as (Hr & _ & Hfin).
  { rewrite collector_loop_of, Hexn. exact Hend. }
  { exact He. }
  split; [exact Hr|].
  rewrite Hfin, collector_loop_of. cbn [close durable].
  rewrite (collector_loop_committed stream ctx subtask_run _ _ Hint 0 w' st Hu), Hd.
  destruct (last_sync _ _ _); [rewrite Nat.sub_0_r|]; reflexivity.
Qed.

Lemma collector_interrupted_keeps_checkpointed_witness :
  let r := run (J := PyJson.lib)
               (Sample.collector 6 (Some (PyBaseException "KeyboardInterrupt" "")))
               (Sample.ctx false) 2 50 60 (open_session Sample.collected 0%nat) in
  raised r = Some (PyBaseException "KeyboardInterrupt" "")
  /\ raw_rows (durable (final r))
     = (Sample.raw "project-8" 2
        :: map (raw_of (J := PyJson.lib) (Sample.ctx false))
               (firstn 5 (items (Sample.pages 6 None))))%list.
Proof.
  pose (s := run_setup (J := PyJson.lib)
               (Sample.collector 6 (Some (PyBaseException "KeyboardInterrupt" "")))
               (Sample.ctx false) 50 (open_session Sample.collected 0%nat)).
  pose (w' := match s with SetupOk _ _ v _ | SetupRaise _ v _ => v end).
  pose (evs := match s with SetupOk l _ _ _ | SetupRaise l _ _ => l end).
  pose (sr := match s with
              | SetupOk _ x _ _ => x
              | SetupRaise _ _ _ => Sample.finished_run 0 0 0
              end).
  pose proof (@collector_interrupted_keeps_checkpointed PyJson.lib _
                (Sample.stream 6 (Some (PyBaseException "KeyboardInterrupt" "")) false [])
                (Sample.ctx false) 2 50 60 (open_session Sample.collected 0%nat)
                w' evs sr (JDict []) (PyBaseException "KeyboardInterrupt" "")
                ltac:(discriminate) eq_refl eq_refl eq_refl) as H.
  exact H.
Defined.
